(** * PDF Image Adder: coordinate transforms and the export pipeline

    A shallow embedding of [src/App.tsx].  The file holds two variants of
    the [App] component: the multi-overlay one (a list [overlayImages]) and
    the single-overlay one ([imageFile], [imagePreviewUrl], [imagePos]).
    Event handlers become functions on the component state; the
    collaborators (pdf-lib, pdf.js, the DOM) are fields of a record of
    oracles, so every statement below holds for all their behaviours. *)

From Stdlib Require Import ZArith QArith Qminmax Qabs Qfield Bool List String Ascii Lia.
From Stdlib Require Import DecimalString.
From Stdlib Require Floats.
Import ListNotations.

Set Implicit Arguments.

(** ** JavaScript numbers

    Every coordinate in the source is a JS [number].  The arithmetic the
    handlers perform is written once, over an interface, and read at two
    instances: exact rationals and IEEE-754 binary64. *)

Class JsNumber (N : Type) : Type := {
  nadd : N -> N -> N;
  nsub : N -> N -> N;
  nmul : N -> N -> N;
  ndiv : N -> N -> N;
  (** [Math.min] of two arguments *)
  nmin : N -> N -> N;
  (** an integer literal or an integer-valued DOM attribute *)
  ofZ : Z -> N
}.

#[export] Instance Q_number : JsNumber Q | 0 := {
  nadd := Qplus;
  nsub := Qminus;
  nmul := Qmult;
  ndiv := Qdiv;
  nmin := Qmin;
  ofZ := inject_Z
}.

Module F64.
Import Floats.
Import PrimFloat.

(** [Math.min(a, b)]: NaN if either is NaN, and -0 below +0. *)
Definition js_min (a b : float) : float :=
  if is_nan a || is_nan b then nan
  else if ltb a b then a
  else if ltb b a then b
  else if get_sign a then a else b.

(** Integers of magnitude below 2^63, as the source's literals and
    element sizes are. *)
Definition of_Z (z : Z) : float :=
  match z with
  | Zneg p => opp (of_uint63 (Uint63.of_Z (Zpos p)))
  | _ => of_uint63 (Uint63.of_Z z)
  end.

(** [|a - b| < tol] *)
Definition close (tol a b : float) : bool := ltb (abs (sub a b)) tol.

(** The decimal [n / 10^k], correctly rounded: what the literal denotes. *)
Definition decimal (n : Z) (k : nat) : float := div (of_Z n) (of_Z (10 ^ Z.of_nat k)).
End F64.

#[export] Instance float_number : JsNumber PrimFloat.float | 10 := {
  nadd := PrimFloat.add;
  nsub := PrimFloat.sub;
  nmul := PrimFloat.mul;
  ndiv := PrimFloat.div;
  nmin := F64.js_min;
  ofZ := F64.of_Z
}.

(** ** Rectangles: the [pos] of an overlay and the options of [drawImage] *)

Record Rect (N : Type) : Type := mkRect {
  x : N;
  y : N;
  width : N;
  height : N
}.

Arguments mkRect {N} _ _ _ _.
Arguments x {N} _.
Arguments y {N} _.
Arguments width {N} _.
Arguments height {N} _.

Section Transforms.
Context {N : Type} `{JsNumber N}.

(** The PDF branch of [handleExport], lines 249-255 (and 780-786):
    [originalWidth], [originalHeight], [originalX], [originalY], [pdfY],
    and the options object handed to [page.drawImage]. *)
Definition toDocumentSpace (pos : Rect N) (renderScale pageHeight : N) : Rect N :=
  let originalWidth := ndiv (width pos) renderScale in
  let originalHeight := ndiv (height pos) renderScale in
  let originalX := ndiv (x pos) renderScale in
  let originalY := ndiv (y pos) renderScale in
  let pdfY := nsub (nsub pageHeight originalY) originalHeight in
  {| x := originalX; y := pdfY; width := originalWidth; height := originalHeight |}.

(** The image branch of the multi-overlay [handleExport], lines 314-317:
    [scaledWidth], [scaledHeight], [scaledX], [scaledY]. *)
Definition toRasterSpace (pos : Rect N) (renderScale exportScale : N) : Rect N :=
  let scaledWidth := nmul (ndiv (width pos) renderScale) exportScale in
  let scaledHeight := nmul (ndiv (height pos) renderScale) exportScale in
  let scaledX := nmul (ndiv (x pos) renderScale) exportScale in
  let scaledY := nmul (ndiv (y pos) renderScale) exportScale in
  {| x := scaledX; y := scaledY; width := scaledWidth; height := scaledHeight |}.

(** The image branch of the single-overlay [handleExport], lines 839-842:
    the page is rendered at scale 1 and nothing is multiplied back. *)
Definition toNativeRaster (pos : Rect N) (renderScale : N) : Rect N :=
  let originalWidth := ndiv (width pos) renderScale in
  let originalHeight := ndiv (height pos) renderScale in
  let originalX := ndiv (x pos) renderScale in
  let originalY := ndiv (y pos) renderScale in
  {| x := originalX; y := originalY; width := originalWidth; height := originalHeight |}.

(** Modelled from the spec: [toDisplaySpace], the inverse of
    [toDocumentSpace] named by the round-trip property; the source has
    no function going from document space back to display space.  It
    undoes the vertical flip, then multiplies by the display scale. *)
Definition toDisplaySpace (doc : Rect N) (displayScale pageNativeHeight : N) : Rect N :=
  {| x := nmul (x doc) displayScale;
     y := nmul (nsub (nsub pageNativeHeight (y doc)) (height doc)) displayScale;
     width := nmul (width doc) displayScale;
     height := nmul (height doc) displayScale |}.
End Transforms.

(** Field-wise equality of rational rectangles. *)
Definition rect_eq (a b : Rect Q) : Prop :=
  x a == x b /\ y a == y b /\ width a == width b /\ height a == height b.

(** ** Strings the handlers compute *)

Local Open Scope string_scope.
Local Open Scope list_scope.

(** [s.startsWith(p)] *)
Definition startsWith (s p : string) : bool := String.prefix p s.

(** A non-empty run of characters other than [/] and [.], up to the end
    of the string: the part [[^/.]+$] of the extension pattern. *)
Fixpoint extTail (s : string) : bool :=
  match s with
  | EmptyString => false
  | String c rest =>
      negb (Ascii.eqb c "/" || Ascii.eqb c ".")
      && match rest with EmptyString => true | _ => extTail rest end
  end.

(** [name.replace(/\.[^/.]+$/, "")]: the leftmost dot that is followed,
    up to the end, only by characters other than [/] and [.] is cut off
    together with what follows it. *)
Fixpoint stripExtension (s : string) : string :=
  match s with
  | EmptyString => EmptyString
  | String c rest =>
      if Ascii.eqb c "." && extTail rest then EmptyString
      else String c (stripExtension rest)
  end.

(** The decimal text of an integer-valued number in a template literal. *)
Definition showZ (z : Z) : string := NilEmpty.string_of_int (Z.to_int z).

(** ** Awaited computations

    An awaited promise resolves, rejects, or stays pending for ever; a
    [throw] is a rejection of the enclosing async function. *)

Inductive Thrown : Type :=
  | ErrorObj (name message : string)   (* an instance of [Error] *)
  | OtherValue.                        (* anything else that can be thrown *)

Inductive Res (A : Type) : Type :=
  | Ret (a : A)
  | Throw (e : Thrown)
  | Pending.

Arguments Ret {A} _.
Arguments Throw {A} _.
Arguments Pending {A}.

Definition bind {A B : Type} (m : Res A) (k : A -> Res B) : Res B :=
  match m with
  | Ret a => k a
  | Throw e => Throw e
  | Pending => Pending
  end.

Declare Scope res_scope.
Delimit Scope res_scope with res.
Notation "x <- m ;; k" := (bind m (fun x => k))
  (at level 100, m at next level, right associativity) : res_scope.
Notation "'await' m ;; k" := (bind m (fun _ => k))
  (at level 100, m at next level, right associativity) : res_scope.

(** [error instanceof Error ? error.message : ''] *)
Definition messageOf (e : Thrown) : string :=
  match e with
  | ErrorObj _ m => m
  | OtherValue => ""
  end.

(** [error.name] *)
Definition nameOf (e : Thrown) : string :=
  match e with
  | ErrorObj n _ => n
  | OtherValue => ""
  end.

(** [new Error(message)] *)
Definition newError (message : string) : Thrown := ErrorObj "Error" message.

(** What dereferencing [null] or [undefined] throws. *)
Definition TypeError : Thrown :=
  ErrorObj "TypeError" "Cannot read properties of undefined".

(** ** Collaborators: files, pdf-lib, pdf.js, the canvas *)

Definition Bytes : Type := list Byte.byte.

(** A browser [File]: immutable once created. *)
Record File : Type := {
  name : string;
  type : string;
  content : Bytes
}.

(** The element behind [containerRef]; both sizes are integers. *)
Record Element : Type := {
  clientWidth : Z;
  clientHeight : Z
}.

Inductive ExportFormat : Type := pdf | jpg | png.

Definition formatName (f : ExportFormat) : string :=
  match f with
  | pdf => "pdf"
  | jpg => "jpg"
  | png => "png"
  end.

Section Collaborators.
Context {N : Type} `{JsNumber N}.

(** [{ width, height }] as held in [pageDimensions] and
    [originalDimensions]. *)
Record Dimensions : Type := {
  dim_width : N;
  dim_height : N
}.

(** pdf-lib: an embedded image, a page with what has been drawn on it,
    and a document (a fresh object for every [PDFDocument.load]). *)
Inductive PDFImage : Type :=
  | PngImage (data : Bytes)
  | JpgImage (data : Bytes).

Record PDFPage : Type := {
  getHeight : N;
  drawn : list (PDFImage * Rect N)
}.

Definition drawImage (page : PDFPage) (img : PDFImage) (opts : Rect N) : PDFPage :=
  {| getHeight := getHeight page; drawn := drawn page ++ [(img, opts)] |}.

Record PDFDocument : Type := {
  getPages : list PDFPage
}.

(** pdf.js: a page proxy with its size at scale 1; [getViewport]
    multiplies that size by the requested scale. *)
Record PDFPageProxy : Type := {
  pageNumber : Z;
  viewWidth : N;
  viewHeight : N
}.

Record Viewport : Type := {
  vscale : N;
  vwidth : N;
  vheight : N
}.

Definition getViewport (page : PDFPageProxy) (scale : N) : Viewport :=
  {| vscale := scale;
     vwidth := nmul (viewWidth page) scale;
     vheight := nmul (viewHeight page) scale |}.

Record PDFDocumentProxy : Type := {
  proxyNumPages : Z;
  getPage : Z -> Res PDFPageProxy
}.

(** A canvas with the drawing calls it has received, oldest first. *)
Inductive CanvasOp : Type :=
  | PageRendered (page : PDFPageProxy) (viewport : Viewport)
  | ImageDrawn (src : string) (dest : Rect N).

Record Canvas : Type := {
  canvas_width : N;
  canvas_height : N;
  ops : list CanvasOp
}.

(** What the download link points to. *)
Inductive Href : Type :=
  | BlobUrl (data : Bytes) (mime : string)
  | DataUrl (surface : Canvas) (mime : string) (quality : N).

(** Observable effects of a handler, oldest first. *)
Inductive Effect : Type :=
  | ConsoleError (label : string) (e : Thrown)
  | Alert (msg : string)
  | Download (filename : string) (href : Href).

(** The behaviours of the collaborators that the handlers cannot
    control.  All statements quantify over this record. *)
Record World : Type := {
  (** [file.arrayBuffer()] resolves *)
  readable : File -> bool;
  (** [PDFDocument.load(bytes)] *)
  pdflib_load : Bytes -> Res PDFDocument;
  (** [pdfDoc.embedPng(bytes)], [pdfDoc.embedJpg(bytes)]: the bytes
      decode, or the call rejects *)
  pdflib_embedPng : Bytes -> option Thrown;
  pdflib_embedJpg : Bytes -> option Thrown;
  (** [pdfDoc.save()] *)
  pdflib_save : PDFDocument -> Res Bytes;
  (** [pdfjsLib.getDocument({ data }).promise] *)
  pdfjs_getDocument : Bytes -> Res PDFDocumentProxy;
  (** [page.render(renderContext).promise] *)
  pdfjs_render : PDFPageProxy -> Viewport -> Res unit;
  (** [canvas.getContext('2d')] is not [null] *)
  getContext2d : bool;
  (** the [onload] event of an [Image] with this [src] fires *)
  image_onload : string -> bool
}.

Definition arrayBuffer (w : World) (f : File) : Res Bytes :=
  if readable w f then Ret (content f) else Throw (ErrorObj "NotReadableError" "").

Definition embedPng (w : World) (data : Bytes) : Res PDFImage :=
  match pdflib_embedPng w data with
  | None => Ret (PngImage data)
  | Some e => Throw e
  end.

Definition embedJpg (w : World) (data : Bytes) : Res PDFImage :=
  match pdflib_embedJpg w data with
  | None => Ret (JpgImage data)
  | Some e => Throw e
  end.

(** [await new Promise((resolve) => { img.onload = resolve; })]: there
    is no [onerror] handler, so an image that fails to decode leaves the
    promise pending. *)
Definition imageLoaded (w : World) (src : string) : Res unit :=
  if image_onload w src then Ret tt else Pending.

(** [pages[currentPage - 1]] *)
Definition pageAt {A : Type} (pages : list A) (index : Z) : option A :=
  if (index <? 0)%Z then None else nth_error pages (Z.to_nat index).

(** The document with the page object of that index as it is after the
    drawing calls made through the reference [pages[index]]. *)
Fixpoint setPage (pages : list PDFPage) (index : nat) (page : PDFPage) : list PDFPage :=
  match pages, index with
  | [], _ => []
  | _ :: rest, O => page :: rest
  | p :: rest, S i => p :: setPage rest i page
  end.
End Collaborators.

Arguments Dimensions N : clear implicits.
Arguments PDFImage : clear implicits.
Arguments PDFPage N : clear implicits.
Arguments PDFDocument N : clear implicits.
Arguments PDFPageProxy N : clear implicits.
Arguments Viewport N : clear implicits.
Arguments PDFDocumentProxy N : clear implicits.
Arguments CanvasOp N : clear implicits.
Arguments Canvas N : clear implicits.
Arguments Href N : clear implicits.
Arguments Effect N : clear implicits.
Arguments World N : clear implicits.

(** [containerRef.current?.clientWidth || 800]: a missing element and a
    zero size both fall back to the default. *)
Definition orDefault (v : option Z) (default : Z) : Z :=
  match v with
  | Some n => if (n =? 0)%Z then default else n
  | None => default
  end.

(** A [Partial<OverlayImage['pos']>]: only some fields are given. *)
Record PartialPos (N : Type) : Type := {
  px : option N;
  py : option N;
  pwidth : option N;
  pheight : option N
}.

(** [{ ...pos, ...newPos }] *)
Definition mergePos {N : Type} (pos : Rect N) (newPos : PartialPos N) : Rect N :=
  {| x := match px newPos with Some v => v | None => x pos end;
     y := match py newPos with Some v => v | None => y pos end;
     width := match pwidth newPos with Some v => v | None => width pos end;
     height := match pheight newPos with Some v => v | None => height pos end |}.

(** The props handed to react-rnd's [Rnd]; a prop that the JSX does not
    mention is absent. *)
Record RndProps (N : Type) : Type := {
  bounds : string;
  position : N * N;
  size : N * N;
  lockAspectRatio : option bool
}.

(** What [Rnd] does with the prop: an absent one takes the library's
    default. *)
Definition aspectLocked {N : Type} (libraryDefault : bool) (p : RndProps N) : bool :=
  match lockAspectRatio p with
  | Some b => b
  | None => libraryDefault
  end.

(** One run of an async handler: the state it leaves, what it did, and
    whether it ran to its end. *)
Record Run (S E : Type) : Type := {
  final : S;
  effects : list E;
  settled : bool
}.

(** ** The multi-overlay variant (lines 1-588) *)

Module Multi.
Section App.
Context {N : Type} `{JsNumber N}.

Record OverlayImage : Type := {
  id : string;
  file : File;
  previewUrl : string;
  pos : Rect N
}.

Record State : Type := {
  pdfFile : option File;
  overlayImages : list OverlayImage;
  pdfDocProxy : option (PDFDocumentProxy N);
  currentPage : Z;
  numPages : Z;
  canvasRef : option (Canvas N);
  containerRef : option Element;
  pageDimensions : Dimensions N;
  renderScale : N;
  originalDimensions : Dimensions N;
  isExporting : bool;
  exportFormat : ExportFormat;
  isDraggingOver : bool
}.

(** The [useState] and [useRef] initial values, before the first
    render attaches the refs. *)
Definition initial : State :=
  {| pdfFile := None; overlayImages := []; pdfDocProxy := None;
     currentPage := 1; numPages := 0; canvasRef := None; containerRef := None;
     pageDimensions := {| dim_width := ofZ 0; dim_height := ofZ 0 |};
     renderScale := ofZ 1;
     originalDimensions := {| dim_width := ofZ 0; dim_height := ofZ 0 |};
     isExporting := false; exportFormat := pdf; isDraggingOver := false |}.

Definition setPdfFile (v : option File) (s : State) : State :=
  {| pdfFile := v; overlayImages := overlayImages s; pdfDocProxy := pdfDocProxy s;
     currentPage := currentPage s; numPages := numPages s; canvasRef := canvasRef s;
     containerRef := containerRef s; pageDimensions := pageDimensions s;
     renderScale := renderScale s; originalDimensions := originalDimensions s;
     isExporting := isExporting s; exportFormat := exportFormat s;
     isDraggingOver := isDraggingOver s |}.

Definition setOverlayImages (f : list OverlayImage -> list OverlayImage) (s : State) : State :=
  {| pdfFile := pdfFile s; overlayImages := f (overlayImages s); pdfDocProxy := pdfDocProxy s;
     currentPage := currentPage s; numPages := numPages s; canvasRef := canvasRef s;
     containerRef := containerRef s; pageDimensions := pageDimensions s;
     renderScale := renderScale s; originalDimensions := originalDimensions s;
     isExporting := isExporting s; exportFormat := exportFormat s;
     isDraggingOver := isDraggingOver s |}.

Definition setPdfDocProxy (v : option (PDFDocumentProxy N)) (s : State) : State :=
  {| pdfFile := pdfFile s; overlayImages := overlayImages s; pdfDocProxy := v;
     currentPage := currentPage s; numPages := numPages s; canvasRef := canvasRef s;
     containerRef := containerRef s; pageDimensions := pageDimensions s;
     renderScale := renderScale s; originalDimensions := originalDimensions s;
     isExporting := isExporting s; exportFormat := exportFormat s;
     isDraggingOver := isDraggingOver s |}.

Definition setCurrentPage (f : Z -> Z) (s : State) : State :=
  {| pdfFile := pdfFile s; overlayImages := overlayImages s; pdfDocProxy := pdfDocProxy s;
     currentPage := f (currentPage s); numPages := numPages s; canvasRef := canvasRef s;
     containerRef := containerRef s; pageDimensions := pageDimensions s;
     renderScale := renderScale s; originalDimensions := originalDimensions s;
     isExporting := isExporting s; exportFormat := exportFormat s;
     isDraggingOver := isDraggingOver s |}.

Definition setNumPages (v : Z) (s : State) : State :=
  {| pdfFile := pdfFile s; overlayImages := overlayImages s; pdfDocProxy := pdfDocProxy s;
     currentPage := currentPage s; numPages := v; canvasRef := canvasRef s;
     containerRef := containerRef s; pageDimensions := pageDimensions s;
     renderScale := renderScale s; originalDimensions := originalDimensions s;
     isExporting := isExporting s; exportFormat := exportFormat s;
     isDraggingOver := isDraggingOver s |}.

Definition setCanvas (v : option (Canvas N)) (s : State) : State :=
  {| pdfFile := pdfFile s; overlayImages := overlayImages s; pdfDocProxy := pdfDocProxy s;
     currentPage := currentPage s; numPages := numPages s; canvasRef := v;
     containerRef := containerRef s; pageDimensions := pageDimensions s;
     renderScale := renderScale s; originalDimensions := originalDimensions s;
     isExporting := isExporting s; exportFormat := exportFormat s;
     isDraggingOver := isDraggingOver s |}.

Definition setPageDimensions (v : Dimensions N) (s : State) : State :=
  {| pdfFile := pdfFile s; overlayImages := overlayImages s; pdfDocProxy := pdfDocProxy s;
     currentPage := currentPage s; numPages := numPages s; canvasRef := canvasRef s;
     containerRef := containerRef s; pageDimensions := v;
     renderScale := renderScale s; originalDimensions := originalDimensions s;
     isExporting := isExporting s; exportFormat := exportFormat s;
     isDraggingOver := isDraggingOver s |}.

Definition setRenderScale (v : N) (s : State) : State :=
  {| pdfFile := pdfFile s; overlayImages := overlayImages s; pdfDocProxy := pdfDocProxy s;
     currentPage := currentPage s; numPages := numPages s; canvasRef := canvasRef s;
     containerRef := containerRef s; pageDimensions := pageDimensions s;
     renderScale := v; originalDimensions := originalDimensions s;
     isExporting := isExporting s; exportFormat := exportFormat s;
     isDraggingOver := isDraggingOver s |}.

Definition setOriginalDimensions (v : Dimensions N) (s : State) : State :=
  {| pdfFile := pdfFile s; overlayImages := overlayImages s; pdfDocProxy := pdfDocProxy s;
     currentPage := currentPage s; numPages := numPages s; canvasRef := canvasRef s;
     containerRef := containerRef s; pageDimensions := pageDimensions s;
     renderScale := renderScale s; originalDimensions := v;
     isExporting := isExporting s; exportFormat := exportFormat s;
     isDraggingOver := isDraggingOver s |}.

Definition setIsExporting (v : bool) (s : State) : State :=
  {| pdfFile := pdfFile s; overlayImages := overlayImages s; pdfDocProxy := pdfDocProxy s;
     currentPage := currentPage s; numPages := numPages s; canvasRef := canvasRef s;
     containerRef := containerRef s; pageDimensions := pageDimensions s;
     renderScale := renderScale s; originalDimensions := originalDimensions s;
     isExporting := v; exportFormat := exportFormat s;
     isDraggingOver := isDraggingOver s |}.

Definition setExportFormat (v : ExportFormat) (s : State) : State :=
  {| pdfFile := pdfFile s; overlayImages := overlayImages s; pdfDocProxy := pdfDocProxy s;
     currentPage := currentPage s; numPages := numPages s; canvasRef := canvasRef s;
     containerRef := containerRef s; pageDimensions := pageDimensions s;
     renderScale := renderScale s; originalDimensions := originalDimensions s;
     isExporting := isExporting s; exportFormat := v;
     isDraggingOver := isDraggingOver s |}.

Definition setIsDraggingOver (v : bool) (s : State) : State :=
  {| pdfFile := pdfFile s; overlayImages := overlayImages s; pdfDocProxy := pdfDocProxy s;
     currentPage := currentPage s; numPages := numPages s; canvasRef := canvasRef s;
     containerRef := containerRef s; pageDimensions := pageDimensions s;
     renderScale := renderScale s; originalDimensions := originalDimensions s;
     isExporting := isExporting s; exportFormat := exportFormat s;
     isDraggingOver := v |}.

(** *** Intake (lines 38-105) *)

Definition handlePdfUpload (file : option File) (s : State) : State * list (Effect N) :=
  match file with
  | Some f =>
      if String.eqb (type f) "application/pdf" then (setPdfFile (Some f) s, [])
      else (s, [Alert "Please select a valid PDF file."])
  | None => (s, [Alert "Please select a valid PDF file."])
  end.

(** The [forEach] of [handleImageUpload]: [newImages] grows by one
    entry for every file whose type starts with [image/].  [mkUrl] and
    [rnd] are what [URL.createObjectURL] and
    [Math.random().toString(36).substr(2, 9)] return at their k-th call
    here. *)
Fixpoint collectImages (mkUrl : nat -> File -> string) (rnd : nat -> string)
    (files : list File) (newImages : list OverlayImage) : list OverlayImage :=
  match files with
  | [] => newImages
  | f :: rest =>
      if startsWith (type f) "image/" then
        let k := List.length newImages in
        let url := mkUrl k f in
        let offset := nadd (ofZ 50) (nmul (ofZ (Z.of_nat k)) (ofZ 20)) in
        collectImages mkUrl rnd rest
          (newImages ++
           [{| id := rnd k; file := f; previewUrl := url;
               pos := {| x := offset; y := offset; width := ofZ 150; height := ofZ 150 |} |}])
      else collectImages mkUrl rnd rest newImages
  end.

Definition handleImageUpload (mkUrl : nat -> File -> string) (rnd : nat -> string)
    (files : list File) (s : State) : State * list (Effect N) :=
  let newImages := collectImages mkUrl rnd files [] in
  if (0 <? List.length newImages)%nat then
    (setOverlayImages (fun prev => prev ++ newImages) s, [])
  else (s, [Alert "Please select valid image files."]).

Definition handleDrop (mkUrl : nat -> File -> string) (rnd : nat -> string)
    (files : list File) (s : State) : State * list (Effect N) :=
  let s0 := setIsDraggingOver false s in
  match files with
  | [] => (s0, [])
  | _ =>
      let '(s1, e1) :=
        match find (fun f => String.eqb (type f) "application/pdf") files with
        | Some f => handlePdfUpload (Some f) s0
        | None => (s0, [])
        end in
      let imageFiles := filter (fun f => startsWith (type f) "image/") files in
      if (0 <? List.length imageFiles)%nat then
        let '(s2, e2) := handleImageUpload mkUrl rnd imageFiles s1 in
        (s2, e1 ++ e2)
      else (s1, e1)
  end.

Definition removeImage (i : string) (s : State) : State :=
  setOverlayImages (filter (fun img => negb (String.eqb (id img) i))) s.

Definition updateImagePos (i : string) (newPos : PartialPos N) (s : State) : State :=
  setOverlayImages
    (map (fun img =>
            if String.eqb (id img) i
            then {| id := id img; file := file img; previewUrl := previewUrl img;
                    pos := mergePos (pos img) newPos |}
            else img)) s.

(** *** The overlay on screen (lines 548-581) *)

Definition rndProps (img : OverlayImage) : RndProps N :=
  {| bounds := "parent";
     position := (x (pos img), y (pos img));
     size := (width (pos img), height (pos img));
     lockAspectRatio := Some true |}.

Definition onDragStop (img : OverlayImage) (dx dy : N) (s : State) : State :=
  updateImagePos (id img)
    {| px := Some dx; py := Some dy; pwidth := None; pheight := None |} s.

(** [refWidth] and [refHeight] are the results of
    [parseInt(ref.style.width, 10)] and [parseInt(ref.style.height, 10)]. *)
Definition onResizeStop (img : OverlayImage) (refWidth refHeight : N)
    (position_x position_y : N) (s : State) : State :=
  updateImagePos (id img)
    {| px := Some position_x; py := Some position_y;
       pwidth := Some refWidth; pheight := Some refHeight |} s.

(** The page buttons (lines 465 and 475). *)
Definition previousPage (s : State) : State :=
  setCurrentPage (fun p => Z.max 1 (p - 1)) s.

Definition nextPage (s : State) : State :=
  setCurrentPage (fun p => Z.min (numPages s) (p + 1)) s.

(** *** Loading the document (the effect on [pdfFile], lines 114-143) *)

Definition loadPdf (w : World N) (isMounted : bool) (s : State)
    : State * list (Effect N) :=
  match pdfFile s with
  | None =>
      (setCurrentPage (fun _ => 1%Z) (setNumPages 0 (setPdfDocProxy None s)), [])
  | Some f =>
      match (arrayBuffer_ <- arrayBuffer w f ;; pdfjs_getDocument w arrayBuffer_)%res with
      | Ret doc =>
          if isMounted then
            (setCurrentPage (fun _ => 1%Z)
               (setNumPages (proxyNumPages doc) (setPdfDocProxy (Some doc) s)), [])
          else (s, [])
      | Throw e =>
          (s, [ConsoleError "Error loading PDF:" e; Alert "Failed to load PDF file."])
      | Pending => (s, [])
      end
  end.

(** The remove-PDF button (line 403), [setPdfFile(null)], and the effect
    it triggers. *)
Definition removePdf (w : World N) (s : State) : State * list (Effect N) :=
  loadPdf w true (setPdfFile None s).

(** *** Rendering the page (the effect on [pdfDocProxy] and
    [currentPage], lines 146-215)

    Everything between [await pdfDocProxy.getPage] and
    [await renderTask.promise] runs without suspension, so [isMounted]
    has one value for the three guarded setters. *)
Definition renderPage (w : World N) (isMounted : bool) (s : State)
    : State * list (Effect N) :=
  match pdfDocProxy s, canvasRef s, containerRef s with
  | Some doc, Some _, Some _ =>
      match getPage doc (currentPage s) with
      | Ret page =>
          let unscaledViewport := getViewport page (ofZ 1) in
          let s1 :=
            if isMounted then
              setOriginalDimensions
                {| dim_width := vwidth unscaledViewport;
                   dim_height := vheight unscaledViewport |} s
            else s in
          let containerWidth := orDefault (option_map clientWidth (containerRef s)) 800 in
          let containerHeight := orDefault (option_map clientHeight (containerRef s)) 600 in
          let padding := 40%Z in
          let availableWidth := nsub (ofZ containerWidth) (ofZ padding) in
          let availableHeight := nsub (ofZ containerHeight) (ofZ padding) in
          let scale :=
            nmin (ndiv availableWidth (vwidth unscaledViewport))
                 (ndiv availableHeight (vheight unscaledViewport)) in
          let s2 := if isMounted then setRenderScale scale s1 else s1 in
          let viewport := getViewport page scale in
          let s3 :=
            if isMounted then
              setPageDimensions
                {| dim_width := vwidth viewport; dim_height := vheight viewport |} s2
            else s2 in
          match canvasRef s3 with
          | None => (s3, [])
          | Some _ =>
              if negb (getContext2d w) then (s3, [])
              else
                let sized :=
                  {| canvas_width := vwidth viewport;
                     canvas_height := vheight viewport; ops := [] |} in
                match pdfjs_render w page viewport with
                | Ret _ =>
                    (setCanvas
                       (Some {| canvas_width := canvas_width sized;
                                canvas_height := canvas_height sized;
                                ops := [PageRendered page viewport] |}) s3, [])
                | Throw e =>
                    (setCanvas (Some sized) s3,
                     if String.eqb (nameOf e) "RenderingCancelledException" then []
                     else [ConsoleError "Error rendering page:" e])
                | Pending => (setCanvas (Some sized) s3, [])
                end
          end
      | Throw e =>
          (s, if String.eqb (nameOf e) "RenderingCancelledException" then []
              else [ConsoleError "Error rendering page:" e])
      | Pending => (s, [])
      end
  | _, _, _ => (s, [])
  end.

(** *** Export (lines 218-341) *)

(** The loop of the PDF branch, lines 233-264.  [page] is
    [pages[currentPage - 1]], [undefined] when the index is out of
    range; [page.getHeight()] then throws. *)
Fixpoint drawAll (w : World N) (scale : N) (page : option (PDFPage N))
    (imgs : list OverlayImage) : Res (option (PDFPage N)) :=
  match imgs with
  | [] => Ret page
  | img :: rest =>
      (imageBytes <- arrayBuffer w (file img) ;;
       pdfImage <-
         (if String.eqb (type (file img)) "image/png" then embedPng w imageBytes
          else if String.eqb (type (file img)) "image/jpeg"
                  || String.eqb (type (file img)) "image/jpg"
          then embedJpg w imageBytes
          else Throw (newError "Unsupported image format. Please use PNG or JPEG.")) ;;
       match page with
       | None => Throw TypeError
       | Some p =>
           drawAll w scale
             (Some (drawImage p pdfImage (toDocumentSpace (pos img) scale (getHeight p))))
             rest
       end)%res
  end.

(** Lines 225-264: the freshly loaded document after the loop. *)
Definition modifiedDocument (w : World N) (s : State) (f : File)
    : Res (PDFDocument N) :=
  (pdfBytes <- arrayBuffer w f ;;
   pdfDoc <- pdflib_load w pdfBytes ;;
   let pages := getPages pdfDoc in
   let page := pageAt pages (currentPage s - 1) in
   page' <- drawAll w (renderScale s) page (overlayImages s) ;;
   Ret match page' with
       | Some p => {| getPages := setPage pages (Z.to_nat (currentPage s - 1)) p |}
       | None => pdfDoc
       end)%res.

(** Lines 225-277: the loop, then save and download. *)
Definition exportPdf (w : World N) (s : State) (f : File) : Res (Effect N) :=
  (pdfDoc <- modifiedDocument w s f ;;
   modifiedPdfBytes <- pdflib_save w pdfDoc ;;
   Ret (Download (String.append "modified_" (name f))
          (BlobUrl modifiedPdfBytes "application/pdf")))%res.

(** The loop of the image branch, lines 306-320. *)
Fixpoint compositeAll (w : World N) (scale exportScale : N) (surface : Canvas N)
    (imgs : list OverlayImage) : Res (Canvas N) :=
  match imgs with
  | [] => Ret surface
  | overlayImg :: rest =>
      (await imageLoaded w (previewUrl overlayImg) ;;
       compositeAll w scale exportScale
         {| canvas_width := canvas_width surface;
            canvas_height := canvas_height surface;
            ops := ops surface ++
                   [ImageDrawn (previewUrl overlayImg)
                      (toRasterSpace (pos overlayImg) scale exportScale)] |}
         rest)%res
  end.

(** [targetDPI / 72] *)
Definition exportScale : N := ndiv (ofZ 300) (ofZ 72).

(** Lines 281-320: the export canvas after the page and the overlays
    have been painted on it. *)
Definition composedSurface (w : World N) (s : State) : Res (Canvas N) :=
  if negb (getContext2d w) then Throw (newError "Could not create canvas context")
  else
    (page <- match pdfDocProxy s with
             | Some doc => getPage doc (currentPage s)
             | None => Throw TypeError
             end ;;
     let viewport := getViewport page exportScale in
     let exportCanvas :=
       {| canvas_width := vwidth viewport; canvas_height := vheight viewport;
          ops := [] |} in
     await pdfjs_render w page viewport ;;
     let rendered :=
       {| canvas_width := canvas_width exportCanvas;
          canvas_height := canvas_height exportCanvas;
          ops := [PageRendered page viewport] |} in
     compositeAll w (renderScale s) exportScale rendered (overlayImages s))%res.

(** Lines 281-332: paint, then encode and download. *)
Definition exportImage (w : World N) (s : State) (f : File) : Res (Effect N) :=
  (composed <- composedSurface w s ;;
   let mimeType :=
     match exportFormat s with jpg => "image/jpeg" | _ => "image/png" end in
   let baseName := stripExtension (name f) in
   Ret (Download
          (String.append baseName
             (String.append "_page"
                (String.append (showZ (currentPage s))
                   (String.append "." (formatName (exportFormat s))))))
          (DataUrl composed mimeType (ofZ 1))))%res.

(** [handleExport]: the guard, [setIsExporting(true)], the two
    branches inside [try], the [catch] and the [finally]. *)
Definition handleExport (w : World N) (s : State) : Run State (Effect N) :=
  match pdfFile s, canvasRef s with
  | Some f, Some _ =>
      let s1 := setIsExporting true s in
      match (match exportFormat s with
             | pdf => exportPdf w s f
             | _ => exportImage w s f
             end) with
      | Ret delivered =>
          {| final := setIsExporting false s1; effects := [delivered]; settled := true |}
      | Throw e =>
          {| final := setIsExporting false s1;
             effects := [ConsoleError "Export error:" e;
                         Alert (String.append "Failed to export. " (messageOf e))];
             settled := true |}
      | Pending =>
          {| final := s1; effects := []; settled := false |}
      end
  | _, _ => {| final := s; effects := []; settled := true |}
  end.

(** *** Drag feedback and what the buttons allow (lines 70-80, 460-476,
    514) *)

Definition handleDragOver (s : State) : State := setIsDraggingOver true s.

Definition handleDragLeave (s : State) : State := setIsDraggingOver false s.

(** [numPages > 0 && ...]: the page navigator is rendered. *)
Definition navigatorShown (s : State) : bool := (0 <? numPages s)%Z.

(** [disabled={currentPage <= 1}] *)
Definition previousDisabled (s : State) : bool := (currentPage s <=? 1)%Z.

(** [disabled={currentPage >= numPages}] *)
Definition nextDisabled (s : State) : bool := (numPages s <=? currentPage s)%Z.

(** [disabled={!pdfFile || isExporting}] *)
Definition exportDisabled (s : State) : bool :=
  match pdfFile s with
  | None => true
  | Some _ => isExporting s
  end.
End App.

Arguments OverlayImage N : clear implicits.
Arguments State N : clear implicits.
End Multi.

(** Any number of drags and resizes, oldest first: each is a call of
    [updateImagePos] with the identifier of an overlay and new fields. *)
Definition applyUpdates {N : Type} (updates : list (string * PartialPos N))
    (st : Multi.State N) : Multi.State N :=
  fold_left (fun s u => Multi.updateImagePos (fst u) (snd u) s) updates st.

(** One upload followed by any number of drags and resizes, with what
    [URL.createObjectURL] and [Math.random] return during the upload. *)
Record Round (N : Type) : Type := {
  round_mkUrl : nat -> File -> string;
  round_rnd : nat -> string;
  round_files : list File;
  round_updates : list (string * PartialPos N)
}.

Definition playRound {N : Type} `{JsNumber N} (st : Multi.State N) (r : Round N)
    : Multi.State N :=
  applyUpdates (round_updates r)
    (fst (Multi.handleImageUpload (round_mkUrl r) (round_rnd r) (round_files r) st)).

(** An editing session: rounds of uploading and moving, oldest first. *)
Definition session {N : Type} `{JsNumber N} (rounds : list (Round N)) (st : Multi.State N)
    : Multi.State N :=
  fold_left playRound rounds st.

(** The preview URLs of the overlays a round creates, in upload order. *)
Definition roundUrls {N : Type} `{JsNumber N} (r : Round N) : list string :=
  map Multi.previewUrl (Multi.collectImages (round_mkUrl r) (round_rnd r) (round_files r) []).

(** [!v] is false: a string that is neither [null] nor empty. *)
Definition truthy (v : option string) : bool :=
  match v with
  | Some s => negb (String.eqb s "")
  | None => false
  end.

(** ** The single-overlay variant (lines 589-1084) *)

Module Single.
Section App.
Context {N : Type} `{JsNumber N}.

Record State : Type := {
  pdfFile : option File;
  imageFile : option File;
  imagePreviewUrl : option string;
  pdfDocProxy : option (PDFDocumentProxy N);
  currentPage : Z;
  numPages : Z;
  canvasRef : option (Canvas N);
  containerRef : option Element;
  pageDimensions : Dimensions N;
  renderScale : N;
  originalDimensions : Dimensions N;
  imagePos : Rect N;
  isExporting : bool;
  exportFormat : ExportFormat
}.

(** [{ x: 50, y: 50, width: 150, height: 150 }] *)
Definition defaultPos : Rect N :=
  {| x := ofZ 50; y := ofZ 50; width := ofZ 150; height := ofZ 150 |}.

Definition initial : State :=
  {| pdfFile := None; imageFile := None; imagePreviewUrl := None; pdfDocProxy := None;
     currentPage := 1; numPages := 0; canvasRef := None; containerRef := None;
     pageDimensions := {| dim_width := ofZ 0; dim_height := ofZ 0 |};
     renderScale := ofZ 1;
     originalDimensions := {| dim_width := ofZ 0; dim_height := ofZ 0 |};
     imagePos := defaultPos; isExporting := false; exportFormat := pdf |}.

Definition setPdfFile (v : option File) (s : State) : State :=
  {| pdfFile := v; imageFile := imageFile s; imagePreviewUrl := imagePreviewUrl s;
     pdfDocProxy := pdfDocProxy s; currentPage := currentPage s; numPages := numPages s;
     canvasRef := canvasRef s; containerRef := containerRef s;
     pageDimensions := pageDimensions s; renderScale := renderScale s;
     originalDimensions := originalDimensions s; imagePos := imagePos s;
     isExporting := isExporting s; exportFormat := exportFormat s |}.

Definition setImageFile (v : option File) (s : State) : State :=
  {| pdfFile := pdfFile s; imageFile := v; imagePreviewUrl := imagePreviewUrl s;
     pdfDocProxy := pdfDocProxy s; currentPage := currentPage s; numPages := numPages s;
     canvasRef := canvasRef s; containerRef := containerRef s;
     pageDimensions := pageDimensions s; renderScale := renderScale s;
     originalDimensions := originalDimensions s; imagePos := imagePos s;
     isExporting := isExporting s; exportFormat := exportFormat s |}.

Definition setImagePreviewUrl (v : option string) (s : State) : State :=
  {| pdfFile := pdfFile s; imageFile := imageFile s; imagePreviewUrl := v;
     pdfDocProxy := pdfDocProxy s; currentPage := currentPage s; numPages := numPages s;
     canvasRef := canvasRef s; containerRef := containerRef s;
     pageDimensions := pageDimensions s; renderScale := renderScale s;
     originalDimensions := originalDimensions s; imagePos := imagePos s;
     isExporting := isExporting s; exportFormat := exportFormat s |}.

Definition setPdfDocProxy (v : option (PDFDocumentProxy N)) (s : State) : State :=
  {| pdfFile := pdfFile s; imageFile := imageFile s; imagePreviewUrl := imagePreviewUrl s;
     pdfDocProxy := v; currentPage := currentPage s; numPages := numPages s;
     canvasRef := canvasRef s; containerRef := containerRef s;
     pageDimensions := pageDimensions s; renderScale := renderScale s;
     originalDimensions := originalDimensions s; imagePos := imagePos s;
     isExporting := isExporting s; exportFormat := exportFormat s |}.

Definition setCurrentPage (f : Z -> Z) (s : State) : State :=
  {| pdfFile := pdfFile s; imageFile := imageFile s; imagePreviewUrl := imagePreviewUrl s;
     pdfDocProxy := pdfDocProxy s; currentPage := f (currentPage s); numPages := numPages s;
     canvasRef := canvasRef s; containerRef := containerRef s;
     pageDimensions := pageDimensions s; renderScale := renderScale s;
     originalDimensions := originalDimensions s; imagePos := imagePos s;
     isExporting := isExporting s; exportFormat := exportFormat s |}.

Definition setNumPages (v : Z) (s : State) : State :=
  {| pdfFile := pdfFile s; imageFile := imageFile s; imagePreviewUrl := imagePreviewUrl s;
     pdfDocProxy := pdfDocProxy s; currentPage := currentPage s; numPages := v;
     canvasRef := canvasRef s; containerRef := containerRef s;
     pageDimensions := pageDimensions s; renderScale := renderScale s;
     originalDimensions := originalDimensions s; imagePos := imagePos s;
     isExporting := isExporting s; exportFormat := exportFormat s |}.

Definition setCanvas (v : option (Canvas N)) (s : State) : State :=
  {| pdfFile := pdfFile s; imageFile := imageFile s; imagePreviewUrl := imagePreviewUrl s;
     pdfDocProxy := pdfDocProxy s; currentPage := currentPage s; numPages := numPages s;
     canvasRef := v; containerRef := containerRef s;
     pageDimensions := pageDimensions s; renderScale := renderScale s;
     originalDimensions := originalDimensions s; imagePos := imagePos s;
     isExporting := isExporting s; exportFormat := exportFormat s |}.

Definition setPageDimensions (v : Dimensions N) (s : State) : State :=
  {| pdfFile := pdfFile s; imageFile := imageFile s; imagePreviewUrl := imagePreviewUrl s;
     pdfDocProxy := pdfDocProxy s; currentPage := currentPage s; numPages := numPages s;
     canvasRef := canvasRef s; containerRef := containerRef s;
     pageDimensions := v; renderScale := renderScale s;
     originalDimensions := originalDimensions s; imagePos := imagePos s;
     isExporting := isExporting s; exportFormat := exportFormat s |}.

Definition setRenderScale (v : N) (s : State) : State :=
  {| pdfFile := pdfFile s; imageFile := imageFile s; imagePreviewUrl := imagePreviewUrl s;
     pdfDocProxy := pdfDocProxy s; currentPage := currentPage s; numPages := numPages s;
     canvasRef := canvasRef s; containerRef := containerRef s;
     pageDimensions := pageDimensions s; renderScale := v;
     originalDimensions := originalDimensions s; imagePos := imagePos s;
     isExporting := isExporting s; exportFormat := exportFormat s |}.

Definition setOriginalDimensions (v : Dimensions N) (s : State) : State :=
  {| pdfFile := pdfFile s; imageFile := imageFile s; imagePreviewUrl := imagePreviewUrl s;
     pdfDocProxy := pdfDocProxy s; currentPage := currentPage s; numPages := numPages s;
     canvasRef := canvasRef s; containerRef := containerRef s;
     pageDimensions := pageDimensions s; renderScale := renderScale s;
     originalDimensions := v; imagePos := imagePos s;
     isExporting := isExporting s; exportFormat := exportFormat s |}.

Definition setImagePos (f : Rect N -> Rect N) (s : State) : State :=
  {| pdfFile := pdfFile s; imageFile := imageFile s; imagePreviewUrl := imagePreviewUrl s;
     pdfDocProxy := pdfDocProxy s; currentPage := currentPage s; numPages := numPages s;
     canvasRef := canvasRef s; containerRef := containerRef s;
     pageDimensions := pageDimensions s; renderScale := renderScale s;
     originalDimensions := originalDimensions s; imagePos := f (imagePos s);
     isExporting := isExporting s; exportFormat := exportFormat s |}.

Definition setIsExporting (v : bool) (s : State) : State :=
  {| pdfFile := pdfFile s; imageFile := imageFile s; imagePreviewUrl := imagePreviewUrl s;
     pdfDocProxy := pdfDocProxy s; currentPage := currentPage s; numPages := numPages s;
     canvasRef := canvasRef s; containerRef := containerRef s;
     pageDimensions := pageDimensions s; renderScale := renderScale s;
     originalDimensions := originalDimensions s; imagePos := imagePos s;
     isExporting := v; exportFormat := exportFormat s |}.

Definition setExportFormat (v : ExportFormat) (s : State) : State :=
  {| pdfFile := pdfFile s; imageFile := imageFile s; imagePreviewUrl := imagePreviewUrl s;
     pdfDocProxy := pdfDocProxy s; currentPage := currentPage s; numPages := numPages s;
     canvasRef := canvasRef s; containerRef := containerRef s;
     pageDimensions := pageDimensions s; renderScale := renderScale s;
     originalDimensions := originalDimensions s; imagePos := imagePos s;
     isExporting := isExporting s; exportFormat := v |}.

(** *** Intake (lines 620-643); [file] is [e.target.files?.[0]] *)

Definition handlePdfUpload (file : option File) (s : State) : State * list (Effect N) :=
  match file with
  | Some f =>
      if String.eqb (type f) "application/pdf" then (setPdfFile (Some f) s, [])
      else (s, [Alert "Please select a valid PDF file."])
  | None => (s, [Alert "Please select a valid PDF file."])
  end.

(** [url] is what [URL.createObjectURL(file)] returns. *)
Definition handleImageUpload (url : string) (file : option File) (s : State)
    : State * list (Effect N) :=
  match file with
  | Some f =>
      if startsWith (type f) "image/" then
        (setImagePos (fun _ => defaultPos)
           (setImagePreviewUrl (Some url) (setImageFile (Some f) s)), [])
      else (s, [Alert "Please select a valid image file."])
  | None => (s, [Alert "Please select a valid image file."])
  end.

(** The remove-image button (lines 947-950). *)
Definition removeImage (s : State) : State :=
  setImagePreviewUrl None (setImageFile None s).

(** *** The overlay on screen (lines 1047-1078) *)

Definition rndProps (s : State) : option (RndProps N) :=
  if truthy (imagePreviewUrl s) then
    Some {| bounds := "parent";
            position := (x (imagePos s), y (imagePos s));
            size := (width (imagePos s), height (imagePos s));
            lockAspectRatio := None |}
  else None.

Definition onDragStop (dx dy : N) (s : State) : State :=
  setImagePos (fun prev => mergePos prev
    {| px := Some dx; py := Some dy; pwidth := None; pheight := None |}) s.

Definition onResizeStop (refWidth refHeight position_x position_y : N) (s : State)
    : State :=
  setImagePos (fun _ =>
    {| x := position_x; y := position_y; width := refWidth; height := refHeight |}) s.

(** *** Loading and rendering (lines 646-747), as in the other variant *)

Definition loadPdf (w : World N) (isMounted : bool) (s : State)
    : State * list (Effect N) :=
  match pdfFile s with
  | None =>
      (setCurrentPage (fun _ => 1%Z) (setNumPages 0 (setPdfDocProxy None s)), [])
  | Some f =>
      match (arrayBuffer_ <- arrayBuffer w f ;; pdfjs_getDocument w arrayBuffer_)%res with
      | Ret doc =>
          if isMounted then
            (setCurrentPage (fun _ => 1%Z)
               (setNumPages (proxyNumPages doc) (setPdfDocProxy (Some doc) s)), [])
          else (s, [])
      | Throw e =>
          (s, [ConsoleError "Error loading PDF:" e; Alert "Failed to load PDF file."])
      | Pending => (s, [])
      end
  end.

Definition removePdf (w : World N) (s : State) : State * list (Effect N) :=
  loadPdf w true (setPdfFile None s).

Definition renderPage (w : World N) (isMounted : bool) (s : State)
    : State * list (Effect N) :=
  match pdfDocProxy s, canvasRef s, containerRef s with
  | Some doc, Some _, Some _ =>
      match getPage doc (currentPage s) with
      | Ret page =>
          let unscaledViewport := getViewport page (ofZ 1) in
          let s1 :=
            if isMounted then
              setOriginalDimensions
                {| dim_width := vwidth unscaledViewport;
                   dim_height := vheight unscaledViewport |} s
            else s in
          let containerWidth := orDefault (option_map clientWidth (containerRef s)) 800 in
          let containerHeight := orDefault (option_map clientHeight (containerRef s)) 600 in
          let padding := 40%Z in
          let availableWidth := nsub (ofZ containerWidth) (ofZ padding) in
          let availableHeight := nsub (ofZ containerHeight) (ofZ padding) in
          let scale :=
            nmin (ndiv availableWidth (vwidth unscaledViewport))
                 (ndiv availableHeight (vheight unscaledViewport)) in
          let s2 := if isMounted then setRenderScale scale s1 else s1 in
          let viewport := getViewport page scale in
          let s3 :=
            if isMounted then
              setPageDimensions
                {| dim_width := vwidth viewport; dim_height := vheight viewport |} s2
            else s2 in
          match canvasRef s3 with
          | None => (s3, [])
          | Some _ =>
              if negb (getContext2d w) then (s3, [])
              else
                let sized :=
                  {| canvas_width := vwidth viewport;
                     canvas_height := vheight viewport; ops := [] |} in
                match pdfjs_render w page viewport with
                | Ret _ =>
                    (setCanvas
                       (Some {| canvas_width := canvas_width sized;
                                canvas_height := canvas_height sized;
                                ops := [PageRendered page viewport] |}) s3, [])
                | Throw e =>
                    (setCanvas (Some sized) s3,
                     if String.eqb (nameOf e) "RenderingCancelledException" then []
                     else [ConsoleError "Error rendering page:" e])
                | Pending => (setCanvas (Some sized) s3, [])
                end
          end
      | Throw e =>
          (s, if String.eqb (nameOf e) "RenderingCancelledException" then []
              else [ConsoleError "Error rendering page:" e])
      | Pending => (s, [])
      end
  | _, _, _ => (s, [])
  end.

(** *** Export (lines 750-865) *)

(** Lines 757-794: the freshly loaded document after [drawImage]. *)
Definition modifiedDocument (w : World N) (s : State) (f image : File)
    : Res (PDFDocument N) :=
  (pdfBytes <- arrayBuffer w f ;;
   pdfDoc <- pdflib_load w pdfBytes ;;
   imageBytes <- arrayBuffer w image ;;
   pdfImage <-
     (if String.eqb (type image) "image/png" then embedPng w imageBytes
      else if String.eqb (type image) "image/jpeg" || String.eqb (type image) "image/jpg"
      then embedJpg w imageBytes
      else Throw (newError "Unsupported image format. Please use PNG or JPEG.")) ;;
   let pages := getPages pdfDoc in
   match pageAt pages (currentPage s - 1) with
   | None => Throw TypeError
   | Some page =>
       Ret {| getPages :=
                setPage pages (Z.to_nat (currentPage s - 1))
                  (drawImage page pdfImage
                     (toDocumentSpace (imagePos s) (renderScale s) (getHeight page))) |}
   end)%res.

(** Lines 757-807: embed and draw, then save and download. *)
Definition exportPdf (w : World N) (s : State) (f image : File) : Res (Effect N) :=
  (pdfDoc <- modifiedDocument w s f image ;;
   modifiedPdfBytes <- pdflib_save w pdfDoc ;;
   Ret (Download (String.append "modified_" (name f))
          (BlobUrl modifiedPdfBytes "application/pdf")))%res.

(** Lines 811-844: the export canvas after the page and the overlay
    have been painted on it. *)
Definition composedSurface (w : World N) (s : State) (url : string) : Res (Canvas N) :=
  if negb (getContext2d w) then Throw (newError "Could not create canvas context")
  else
    (let exportCanvas :=
       {| canvas_width := dim_width (originalDimensions s);
          canvas_height := dim_height (originalDimensions s); ops := [] |} in
     page <- match pdfDocProxy s with
             | Some doc => getPage doc (currentPage s)
             | None => Throw TypeError
             end ;;
     let viewport := getViewport page (ofZ 1) in
     await pdfjs_render w page viewport ;;
     await imageLoaded w url ;;
     Ret {| canvas_width := canvas_width exportCanvas;
            canvas_height := canvas_height exportCanvas;
            ops := [PageRendered page viewport;
                    ImageDrawn url (toNativeRaster (imagePos s) (renderScale s))] |})%res.

(** Lines 811-856: paint, then encode and download. *)
Definition exportImage (w : World N) (s : State) (f : File) (url : string)
    : Res (Effect N) :=
  (composed <- composedSurface w s url ;;
   let mimeType :=
     match exportFormat s with jpg => "image/jpeg" | _ => "image/png" end in
   let baseName := stripExtension (name f) in
   Ret (Download
          (String.append baseName
             (String.append "_page"
                (String.append (showZ (currentPage s))
                   (String.append "." (formatName (exportFormat s))))))
          (DataUrl composed mimeType (ndiv (ofZ 9) (ofZ 10)))))%res.

Definition handleExport (w : World N) (s : State) : Run State (Effect N) :=
  match pdfFile s, imageFile s, canvasRef s with
  | Some f, Some image, Some _ =>
      if truthy (imagePreviewUrl s) then
        let url := match imagePreviewUrl s with Some u => u | None => "" end in
        let s1 := setIsExporting true s in
        match (match exportFormat s with
               | pdf => exportPdf w s f image
               | _ => exportImage w s f url
               end) with
        | Ret delivered =>
            {| final := setIsExporting false s1; effects := [delivered];
               settled := true |}
        | Throw e =>
            {| final := setIsExporting false s1;
               effects := [ConsoleError "Export error:" e;
                           Alert (String.append "Failed to export. " (messageOf e))];
               settled := true |}
        | Pending =>
            {| final := s1; effects := []; settled := false |}
        end
      else {| final := s; effects := []; settled := true |}
  | _, _, _ => {| final := s; effects := []; settled := true |}
  end.

(** *** The page buttons and the export button (lines 966, 976, 1015) *)

Definition previousPage (s : State) : State :=
  setCurrentPage (fun p => Z.max 1 (p - 1)) s.

Definition nextPage (s : State) : State :=
  setCurrentPage (fun p => Z.min (numPages s) (p + 1)) s.

(** [disabled={!pdfFile || !imageFile || isExporting}] *)
Definition exportDisabled (s : State) : bool :=
  match pdfFile s, imageFile s with
  | Some _, Some _ => isExporting s
  | _, _ => true
  end.
End App.

Arguments State N : clear implicits.
End Single.

(** ** Sample inputs

    A one-page US-Letter document in an 800 by 600 container, an
    overlay of each image type, and collaborators that behave. *)

Module Sample.
Section Inputs.
Context {N : Type} `{JsNumber N}.

Definition report : File :=
  {| name := "report.pdf"; type := "application/pdf"; content := [Byte.x25] |}.
Definition logo : File :=
  {| name := "logo.png"; type := "image/png"; content := [Byte.x89] |}.
Definition photo : File :=
  {| name := "photo.jpg"; type := "image/jpeg"; content := [Byte.xff] |}.
Definition anim : File :=
  {| name := "anim.gif"; type := "image/gif"; content := [Byte.x47] |}.
Definition notes : File :=
  {| name := "notes.txt"; type := "text/plain"; content := [] |}.

Definition letterProxy : PDFPageProxy N :=
  {| pageNumber := 1; viewWidth := ofZ 612; viewHeight := ofZ 792 |}.

Definition proxy : PDFDocumentProxy N :=
  {| proxyNumPages := 1;
     getPage := fun n =>
       if (n =? 1)%Z then Ret letterProxy
       else Throw (newError "Invalid page request.") |}.

Definition letterPage : PDFPage N := {| getHeight := ofZ 792; drawn := [] |}.

Definition letterDoc : PDFDocument N := {| getPages := [letterPage] |}.

Definition world : World N :=
  {| readable := fun _ => true;
     pdflib_load := fun _ => Ret letterDoc;
     pdflib_embedPng := fun _ => None;
     pdflib_embedJpg := fun _ => None;
     pdflib_save := fun _ => Ret [Byte.x25; Byte.x50];
     pdfjs_getDocument := fun _ => Ret proxy;
     pdfjs_render := fun _ _ => Ret tt;
     getContext2d := true;
     image_onload := fun _ => true |}.

(** The same collaborators, except that no image ever finishes
    loading. *)
Definition brokenImages : World N :=
  {| readable := readable world;
     pdflib_load := pdflib_load world;
     pdflib_embedPng := pdflib_embedPng world;
     pdflib_embedJpg := pdflib_embedJpg world;
     pdflib_save := pdflib_save world;
     pdfjs_getDocument := pdfjs_getDocument world;
     pdfjs_render := pdfjs_render world;
     getContext2d := true;
     image_onload := fun _ => false |}.

(** The same collaborators, except that no PNG decodes. *)
Definition corruptPng : World N :=
  {| readable := readable world;
     pdflib_load := pdflib_load world;
     pdflib_embedPng := fun _ => Some (newError "The input is not a PNG file!");
     pdflib_embedJpg := pdflib_embedJpg world;
     pdflib_save := pdflib_save world;
     pdfjs_getDocument := pdfjs_getDocument world;
     pdfjs_render := pdfjs_render world;
     getContext2d := true;
     image_onload := image_onload world |}.

Definition blank : Canvas N :=
  {| canvas_width := ofZ 300; canvas_height := ofZ 150; ops := [] |}.

Definition mkUrl (k : nat) (f : File) : string :=
  String.append "blob:" (String.append (name f) (showZ (Z.of_nat k))).

Definition rnd (k : nat) : string := String.append "id" (showZ (Z.of_nat k)).

(** The multi-overlay editor once mounted, with the document loaded
    and its first page rendered. *)
Definition mounted : Multi.State N :=
  Multi.setCanvas (Some blank)
    {| Multi.pdfFile := None; Multi.overlayImages := []; Multi.pdfDocProxy := None;
       Multi.currentPage := 1; Multi.numPages := 0; Multi.canvasRef := None;
       Multi.containerRef := Some {| clientWidth := 800; clientHeight := 600 |};
       Multi.pageDimensions := Multi.pageDimensions Multi.initial;
       Multi.renderScale := Multi.renderScale Multi.initial;
       Multi.originalDimensions := Multi.originalDimensions Multi.initial;
       Multi.isExporting := false; Multi.exportFormat := pdf;
       Multi.isDraggingOver := false |}.

(** The document is chosen and parsed; its page is not rendered yet. *)
Definition opened : Multi.State N :=
  fst (Multi.loadPdf world true (fst (Multi.handlePdfUpload (Some report) mounted))).

Definition loaded : Multi.State N := fst (Multi.renderPage world true opened).

(** One overlay at the default placement. *)
Definition placed : Multi.State N :=
  fst (Multi.handleImageUpload mkUrl rnd [logo] loaded).

(** The single-overlay editor in the same situation. *)
Definition mounted1 : Single.State N :=
  Single.setCanvas (Some blank)
    {| Single.pdfFile := None; Single.imageFile := None;
       Single.imagePreviewUrl := None; Single.pdfDocProxy := None;
       Single.currentPage := 1; Single.numPages := 0; Single.canvasRef := None;
       Single.containerRef := Some {| clientWidth := 800; clientHeight := 600 |};
       Single.pageDimensions := Single.pageDimensions Single.initial;
       Single.renderScale := Single.renderScale Single.initial;
       Single.originalDimensions := Single.originalDimensions Single.initial;
       Single.imagePos := Single.defaultPos;
       Single.isExporting := false; Single.exportFormat := pdf |}.

Definition opened1 : Single.State N :=
  fst (Single.loadPdf world true (fst (Single.handlePdfUpload (Some report) mounted1))).

Definition loaded1 : Single.State N := fst (Single.renderPage world true opened1).

Definition placed1 : Single.State N :=
  fst (Single.handleImageUpload "blob:logo" (Some logo) loaded1).

(** Three overlays uploaded one after the other, A = logo, B = photo,
    C = anim; B is dragged to the corner and A is resized over it before C
    arrives. *)
Definition uploadA : Round N :=
  {| round_mkUrl := fun _ _ => "blob:A"; round_rnd := fun _ => "a";
     round_files := [logo]; round_updates := [] |}.

Definition uploadB : Round N :=
  {| round_mkUrl := fun _ _ => "blob:B"; round_rnd := fun _ => "b";
     round_files := [notes; photo];
     round_updates :=
       [("b", {| px := Some (ofZ 0); py := Some (ofZ 0); pwidth := None; pheight := None |});
        ("a", {| px := Some (ofZ 0); py := Some (ofZ 0);
                 pwidth := Some (ofZ 400); pheight := Some (ofZ 400) |})] |}.

Definition uploadC : Round N :=
  {| round_mkUrl := fun _ _ => "blob:C"; round_rnd := fun _ => "c";
     round_files := [anim]; round_updates := [] |}.

Definition composite3 : Canvas N :=
  match Multi.composedSurface world (session [uploadA; uploadB; uploadC] loaded) with
  | Ret c => c
  | _ => blank
  end.

(** What the two branches of the multi-overlay export produce for
    [placed]. *)
Definition document : PDFDocument N :=
  match Multi.modifiedDocument world placed report with
  | Ret d => d
  | _ => letterDoc
  end.

Definition surface : Canvas N :=
  match Multi.composedSurface world placed with
  | Ret c => c
  | _ => blank
  end.

(** The same collaborators, except that pdf.js cannot parse anything. *)
Definition unparsable : World N :=
  {| readable := readable world;
     pdflib_load := pdflib_load world;
     pdflib_embedPng := pdflib_embedPng world;
     pdflib_embedJpg := pdflib_embedJpg world;
     pdflib_save := pdflib_save world;
     pdfjs_getDocument :=
       fun _ => Throw (ErrorObj "InvalidPDFException" "Invalid PDF structure.");
     pdfjs_render := pdfjs_render world;
     getContext2d := true;
     image_onload := image_onload world |}.

(** A second document, chosen while [report] is open. *)
Definition draft : File :=
  {| name := "draft.v2.pdf"; type := "application/pdf"; content := [Byte.x00] |}.

(** [placed] with a GIF added behind the PNG, and [placed] switched to
    JPG output. *)
Definition withGif : Multi.State N :=
  fst (Multi.handleImageUpload mkUrl rnd [anim] placed).

Definition placedJpg : Multi.State N := Multi.setExportFormat jpg placed.

(** A two-page document, for the page that is not drawn on. *)
Definition twoPages : PDFDocument N :=
  {| getPages := [letterPage; {| getHeight := ofZ 500; drawn := [] |}] |}.
(** What the two branches of the single-overlay export produce for
    [placed1]. *)
Definition document1 : PDFDocument N :=
  match Single.modifiedDocument world placed1 report logo with
  | Ret d => d
  | _ => letterDoc
  end.

Definition surface1 : Canvas N :=
  match Single.composedSurface world placed1 "blob:logo" with
  | Ret c => c
  | _ => blank
  end.

(** A three-page document, as pdf-lib and as pdf.js see it, and the
    collaborators that open it. *)
Definition threePages : PDFDocument N :=
  {| getPages := getPages twoPages ++ [{| getHeight := ofZ 1000; drawn := [] |}] |}.

Definition bookletProxy : PDFDocumentProxy N :=
  {| proxyNumPages := 3;
     getPage := fun n =>
       if ((1 <=? n) && (n <=? 3))%Z then Ret letterProxy
       else Throw (newError "Invalid page request.") |}.

Definition booklet : World N :=
  {| readable := readable world;
     pdflib_load := fun _ => Ret threePages;
     pdflib_embedPng := pdflib_embedPng world;
     pdflib_embedJpg := pdflib_embedJpg world;
     pdflib_save := pdflib_save world;
     pdfjs_getDocument := fun _ => Ret bookletProxy;
     pdfjs_render := pdfjs_render world;
     getContext2d := true;
     image_onload := image_onload world |}.

(** The three-page document open on its first page, with no overlay. *)
Definition loaded3 : Multi.State N :=
  fst (Multi.renderPage booklet true
         (fst (Multi.loadPdf booklet true
                 (fst (Multi.handlePdfUpload (Some report) mounted))))).

(** The editor on page 2 of the three, with no overlay and with one. *)
Definition browsingBare : Multi.State N :=
  fst (Multi.renderPage booklet true (Multi.nextPage loaded3)).

Definition browsing : Multi.State N :=
  fst (Multi.handleImageUpload mkUrl rnd [logo] browsingBare).

(** What the PDF branch produces on page 2 of the three. *)
Definition document3 : PDFDocument N :=
  match Multi.modifiedDocument booklet browsing report with
  | Ret d => d
  | _ => letterDoc
  end.

Definition document3Bare : PDFDocument N :=
  match Multi.modifiedDocument booklet browsingBare report with
  | Ret d => d
  | _ => letterDoc
  end.

(** [placed] and [placed1] after the document has been replaced by
    [draft], which the collaborators of [booklet] open. *)
Definition replaced : Multi.State N :=
  fst (Multi.loadPdf booklet true (fst (Multi.handlePdfUpload (Some draft) placed))).

Definition replaced1 : Single.State N :=
  fst (Single.loadPdf booklet true (fst (Single.handlePdfUpload (Some draft) placed1))).
End Inputs.
End Sample.

(** ** The transforms as the specification words them *)

Section Specification.
Context {N : Type} `{JsNumber N}.

(** [x' = rect.x / displayScale], [width' = rect.width / displayScale],
    the same for the height, and
    [y' = pageNativeHeight - (rect.y / displayScale) - height']. *)
Definition spec_toDocumentSpace (rect : Rect N) (displayScale pageNativeHeight : N)
    : Rect N :=
  let x' := ndiv (x rect) displayScale in
  let width' := ndiv (width rect) displayScale in
  let height' := ndiv (height rect) displayScale in
  let y' := nsub (nsub pageNativeHeight (ndiv (y rect) displayScale)) height' in
  {| x := x'; y := y'; width := width'; height := height' |}.

(** [factor = rasterScale / displayScale], applied to all four
    fields, with no flip. *)
Definition spec_toRasterSpace (rect : Rect N) (displayScale rasterScale : N) : Rect N :=
  let factor := ndiv rasterScale displayScale in
  {| x := nmul (x rect) factor; y := nmul (y rect) factor;
     width := nmul (width rect) factor; height := nmul (height rect) factor |}.

(** The sources and destination rectangles of the [drawImage] calls a
    canvas has received, oldest first. *)
Fixpoint imageDraws (calls : list (CanvasOp N)) : list (string * Rect N) :=
  match calls with
  | [] => []
  | ImageDrawn src dest :: rest => (src, dest) :: imageDraws rest
  | PageRendered _ _ :: rest => imageDraws rest
  end.

(** The page renderings a canvas has received, oldest first. *)
Fixpoint pageRenders (calls : list (CanvasOp N)) : list (PDFPageProxy N * Viewport N) :=
  match calls with
  | [] => []
  | PageRendered page viewport :: rest => (page, viewport) :: pageRenders rest
  | ImageDrawn _ _ :: rest => pageRenders rest
  end.
End Specification.

(** The image object that [embedPng] or [embedJpg] yields for a file the
    PDF branch accepts. *)
Definition embeddedAs (f : File) : PDFImage :=
  if String.eqb (type f) "image/png" then PngImage (content f) else JpgImage (content f).

(** [|a - b| <= tol] on rationals. *)
Definition within (tol a b : Q) : Prop := Qabs (a - b) <= tol.

(** ** Clicks on the page buttons *)

Inductive NavClick : Type := ClickPrevious | ClickNext.

(** One click: the handler of the button. *)
Definition navigate {N : Type} (c : NavClick) (st : Multi.State N) : Multi.State N :=
  match c with
  | ClickPrevious => Multi.previousPage st
  | ClickNext => Multi.nextPage st
  end.

(** Any number of clicks, oldest first. *)
Definition navigateAll {N : Type} (clicks : list NavClick) (st : Multi.State N)
    : Multi.State N :=
  fold_left (fun s c => navigate c s) clicks st.

(** The types the PDF branch can embed. *)
Definition embeddable (f : File) : bool :=
  String.eqb (type f) "image/png"
  || String.eqb (type f) "image/jpeg" || String.eqb (type f) "image/jpg".

(** The string has no dot. *)
Fixpoint dotless (s : string) : bool :=
  match s with
  | EmptyString => true
  | String c rest => negb (Ascii.eqb c ".") && dotless rest
  end.

(** The overlay that an upload makes of its k-th accepted file. *)
Definition stacked {N : Type} `{JsNumber N} (mkUrl : nat -> File -> string)
    (rnd : nat -> string) (k : nat) (f : File) : Multi.OverlayImage N :=
  let offset := nadd (ofZ 50) (nmul (ofZ (Z.of_nat k)) (ofZ 20)) in
  {| Multi.id := rnd k; Multi.file := f; Multi.previewUrl := mkUrl k f;
     Multi.pos := {| x := offset; y := offset; width := ofZ 150; height := ofZ 150 |} |}.

(** [stacked] over a list of files, counting from [k]. *)
Fixpoint stackFrom {N : Type} `{JsNumber N} (mkUrl : nat -> File -> string)
    (rnd : nat -> string) (k : nat) (files : list File) : list (Multi.OverlayImage N) :=
  match files with
  | [] => []
  | f :: rest => stacked mkUrl rnd k f :: stackFrom mkUrl rnd (S k) rest
  end.

(** A run handed a file to the user. *)
Definition isDownload {N : Type} (e : Effect N) : bool :=
  match e with
  | Download _ _ => true
  | _ => false
  end.

Definition delivered {N S : Type} (run : Run S (Effect N)) : bool :=
  existsb isDownload (effects run).

(** pdf-lib embeds the file: its type is one the PDF branch knows and
    its bytes decode. *)
Definition embedOk {N : Type} (w : World N) (f : File) : bool :=
  if String.eqb (type f) "image/png" then
    match pdflib_embedPng w (content f) with None => true | Some _ => false end
  else if String.eqb (type f) "image/jpeg" || String.eqb (type f) "image/jpg" then
    match pdflib_embedJpg w (content f) with None => true | Some _ => false end
  else false.

(** The target page after the PDF branch has drawn the overlays on
    it. *)
Definition drawnOn {N : Type} `{JsNumber N} (page : PDFPage N) (scale : N)
    (imgs : list (File * Rect N)) : PDFPage N :=
  {| getHeight := getHeight page;
     drawn := drawn page ++
              map (fun img =>
                     (embeddedAs (fst img),
                      spec_toDocumentSpace (snd img) scale (getHeight page))) imgs |}.

(** * Properties *)

(** ** Awaited computations *)

Lemma bind_Ret_inv {A B : Type} (m : Res A) (k : A -> Res B) (b : B) :
  bind m k = Ret b -> exists a, m = Ret a /\ k a = Ret b.
Proof.
  destruct m as [a | e |]; simpl; intros Hk; try discriminate.
  exists a; split; [reflexivity | exact Hk].
Qed.

Lemma bind_Throw_inv {A B : Type} (m : Res A) (k : A -> Res B) (e : Thrown) :
  bind m k = Throw e -> m = Throw e \/ exists a, m = Ret a /\ k a = Throw e.
Proof.
  destruct m as [a | e' |]; simpl; intros Hk; try discriminate.
  - right; exists a; split; [reflexivity | exact Hk].
  - left; inversion Hk; reflexivity.
Qed.

Lemma arrayBuffer_Ret {N : Type} (w : World N) (f : File) (b : Bytes) :
  arrayBuffer w f = Ret b -> b = content f.
Proof.
  unfold arrayBuffer; destruct (readable w f); intros Hb; inversion Hb; reflexivity.
Qed.

(** ** Page lookup *)

Lemma pageAt_setPage {A : Type} (pages : list (PDFPage A)) (i : nat) (p q : PDFPage A) :
  nth_error pages i = Some p -> nth_error (setPage pages i q) i = Some q.
Proof.
  revert i; induction pages as [| p0 rest IH]; intros [| i] Hi; simpl in *;
    try discriminate; [reflexivity | apply IH; exact Hi].
Qed.

Lemma pageAt_setPage_Z {A : Type} (pages : list (PDFPage A)) (i : Z) (p q : PDFPage A) :
  pageAt pages i = Some p -> pageAt (setPage pages (Z.to_nat i) q) i = Some q.
Proof.
  unfold pageAt; destruct (i <? 0)%Z; [discriminate |].
  apply pageAt_setPage.
Qed.

(** ** The PDF branch *)

Section DocumentBranch.
Context {N : Type} `{JsNumber N}.

Lemma embed_Ret (w : World N) (f : File) (b : Bytes) (img : PDFImage) :
  arrayBuffer w f = Ret b ->
  (if String.eqb (type f) "image/png" then embedPng w b
   else if String.eqb (type f) "image/jpeg" || String.eqb (type f) "image/jpg"
   then embedJpg w b
   else Throw (newError "Unsupported image format. Please use PNG or JPEG."))
  = Ret img ->
  img = embeddedAs f.
Proof.
  intros Hb%arrayBuffer_Ret; subst b; unfold embeddedAs, embedPng, embedJpg.
  destruct (String.eqb (type f) "image/png").
  - destruct (pdflib_embedPng w (content f)); intros Hi; inversion Hi; reflexivity.
  - destruct (String.eqb (type f) "image/jpeg" || String.eqb (type f) "image/jpg");
      [| discriminate].
    destruct (pdflib_embedJpg w (content f)); intros Hi; inversion Hi; reflexivity.
Qed.

(** The loop keeps the page height and appends one [drawImage] call
    per overlay, in list order. *)
Lemma drawAll_drawn (w : World N) (scale : N) (imgs : list (Multi.OverlayImage N)) :
  forall (p : PDFPage N) (r : option (PDFPage N)),
    Multi.drawAll w scale (Some p) imgs = Ret r ->
    exists p',
      r = Some p' /\ getHeight p' = getHeight p /\
      drawn p' =
      drawn p ++
      map (fun img =>
             (embeddedAs (Multi.file img),
              toDocumentSpace (Multi.pos img) scale (getHeight p))) imgs.
Proof.
  induction imgs as [| img rest IH]; intros p r Hr; simpl in Hr.
  - inversion Hr; subst r. exists p. rewrite app_nil_r. repeat split.
  - apply bind_Ret_inv in Hr as (b & Hb & Hr).
    apply bind_Ret_inv in Hr as (pdfImage & Hi & Hr).
    apply (embed_Ret _ _ Hb) in Hi; subst pdfImage.
    apply IH in Hr as (p' & -> & Hh & Hd).
    exists p'. simpl in Hh, Hd. split; [reflexivity |]. split; [exact Hh |].
    rewrite Hd, <- app_assoc. reflexivity.
Qed.

(** Without a target page the loop can only succeed on an empty
    store. *)
Lemma drawAll_no_page (w : World N) (scale : N) (imgs : list (Multi.OverlayImage N))
    (r : option (PDFPage N)) :
  Multi.drawAll w scale None imgs = Ret r -> imgs = [] /\ r = None.
Proof.
  destruct imgs as [| img rest]; simpl; intros Hr.
  - inversion Hr; split; reflexivity.
  - apply bind_Ret_inv in Hr as (b & _ & Hr).
    apply bind_Ret_inv in Hr as (pdfImage & _ & Hr). discriminate.
Qed.

Lemma multi_document (w : World N) (st : Multi.State N) (f : File)
    (doc' : PDFDocument N) :
  Multi.modifiedDocument w st f = Ret doc' ->
  exists pdfDoc,
    pdflib_load w (content f) = Ret pdfDoc /\
    match pageAt (getPages pdfDoc) (Multi.currentPage st - 1) with
    | Some page =>
        exists page',
          pageAt (getPages doc') (Multi.currentPage st - 1) = Some page' /\
          getHeight page' = getHeight page /\
          drawn page' =
          drawn page ++
          map (fun img =>
                 (embeddedAs (Multi.file img),
                  toDocumentSpace (Multi.pos img) (Multi.renderScale st) (getHeight page)))
              (Multi.overlayImages st)
    | None => Multi.overlayImages st = [] /\ doc' = pdfDoc
    end.
Proof.
  unfold Multi.modifiedDocument; intros Hr.
  apply bind_Ret_inv in Hr as (b & Hb%arrayBuffer_Ret & Hr); subst b.
  apply bind_Ret_inv in Hr as (pdfDoc & Hload & Hr).
  apply bind_Ret_inv in Hr as (r & Hloop & Hr).
  exists pdfDoc; split; [exact Hload |].
  destruct (pageAt (getPages pdfDoc) (Multi.currentPage st - 1)) as [page |] eqn:Hpage.
  - apply drawAll_drawn in Hloop as (p' & -> & Hh & Hd).
    inversion Hr; subst doc'; simpl.
    exists p'; split; [| split; assumption].
    eapply pageAt_setPage_Z; exact Hpage.
  - apply drawAll_no_page in Hloop as [Hnil ->].
    inversion Hr; split; [exact Hnil | reflexivity].
Qed.

Lemma single_document (w : World N) (st : Single.State N) (f image : File)
    (doc' : PDFDocument N) :
  Single.modifiedDocument w st f image = Ret doc' ->
  exists pdfDoc page page',
    pdflib_load w (content f) = Ret pdfDoc /\
    pageAt (getPages pdfDoc) (Single.currentPage st - 1) = Some page /\
    pageAt (getPages doc') (Single.currentPage st - 1) = Some page' /\
    getHeight page' = getHeight page /\
    drawn page' =
    drawn page ++
    [(embeddedAs image,
      toDocumentSpace (Single.imagePos st) (Single.renderScale st) (getHeight page))].
Proof.
  unfold Single.modifiedDocument; intros Hr.
  apply bind_Ret_inv in Hr as (b & Hb%arrayBuffer_Ret & Hr); subst b.
  apply bind_Ret_inv in Hr as (pdfDoc & Hload & Hr).
  apply bind_Ret_inv in Hr as (b & Hb & Hr).
  apply bind_Ret_inv in Hr as (pdfImage & Hi & Hr).
  apply (embed_Ret _ _ Hb) in Hi; subst pdfImage.
  destruct (pageAt (getPages pdfDoc) (Single.currentPage st - 1)) as [page |] eqn:Hpage;
    [| discriminate].
  inversion Hr; subst doc'; simpl.
  exists pdfDoc, page, (drawImage page (embeddedAs image)
    (toDocumentSpace (Single.imagePos st) (Single.renderScale st) (getHeight page))).
  repeat split; try assumption.
  eapply pageAt_setPage_Z; exact Hpage.
Qed.
(** When pdf-lib embeds the file, the dispatch on its type yields the
    embedded image. *)
Lemma embed_produces (w : World N) (f : File) :
  embedOk w f = true ->
  (if String.eqb (type f) "image/png" then embedPng w (content f)
   else if String.eqb (type f) "image/jpeg" || String.eqb (type f) "image/jpg"
   then embedJpg w (content f)
   else Throw (newError "Unsupported image format. Please use PNG or JPEG."))
  = Ret (embeddedAs f).
Proof.
  unfold embedOk, embeddedAs, embedPng, embedJpg.
  destruct (String.eqb (type f) "image/png").
  - destruct (pdflib_embedPng w (content f)); [discriminate | reflexivity].
  - destruct (String.eqb (type f) "image/jpeg" || String.eqb (type f) "image/jpg");
      [| discriminate].
    destruct (pdflib_embedJpg w (content f)); [discriminate | reflexivity].
Qed.

(** When every overlay can be read and embedded, the loop runs to its
    end and leaves the page with one call per overlay. *)
Lemma drawAll_produces (w : World N) (scale : N) (imgs : list (Multi.OverlayImage N)) :
  forall p : PDFPage N,
    forallb (fun o => readable w (Multi.file o) && embedOk w (Multi.file o)) imgs = true ->
    Multi.drawAll w scale (Some p) imgs =
    Ret (Some (drawnOn p scale (map (fun o => (Multi.file o, Multi.pos o)) imgs))).
Proof.
  induction imgs as [| img rest IH]; intros p Hall.
  - simpl. unfold drawnOn; simpl. rewrite app_nil_r. destruct p; reflexivity.
  - simpl in Hall. apply andb_true_iff in Hall as [Himg Hall].
    apply andb_true_iff in Himg as [Hread Hembed].
    cbn [Multi.drawAll]. unfold arrayBuffer. rewrite Hread. cbn [bind].
    rewrite (embed_produces _ _ Hembed). cbn [bind].
    rewrite (IH _ Hall). unfold drawnOn, drawImage; simpl.
    rewrite <- app_assoc. reflexivity.
Qed.

Lemma multi_document_produced (w : World N) (st : Multi.State N) (f : File)
    (pdfDoc : PDFDocument N) (page : PDFPage N) :
  readable w f = true ->
  pdflib_load w (content f) = Ret pdfDoc ->
  pageAt (getPages pdfDoc) (Multi.currentPage st - 1) = Some page ->
  forallb (fun o => readable w (Multi.file o) && embedOk w (Multi.file o))
    (Multi.overlayImages st) = true ->
  Multi.modifiedDocument w st f =
  Ret {| getPages :=
           setPage (getPages pdfDoc) (Z.to_nat (Multi.currentPage st - 1))
             (drawnOn page (Multi.renderScale st)
                (map (fun o => (Multi.file o, Multi.pos o)) (Multi.overlayImages st))) |}.
Proof.
  intros Hread Hload Hpage Hall. unfold Multi.modifiedDocument, arrayBuffer.
  rewrite Hread. cbn [bind]. rewrite Hload. cbn [bind]. rewrite Hpage.
  rewrite (drawAll_produces _ _ _ _ Hall). reflexivity.
Qed.

Lemma single_document_produced (w : World N) (st : Single.State N) (f image : File)
    (pdfDoc : PDFDocument N) (page : PDFPage N) :
  readable w f = true ->
  pdflib_load w (content f) = Ret pdfDoc ->
  pageAt (getPages pdfDoc) (Single.currentPage st - 1) = Some page ->
  readable w image = true ->
  embedOk w image = true ->
  Single.modifiedDocument w st f image =
  Ret {| getPages :=
           setPage (getPages pdfDoc) (Z.to_nat (Single.currentPage st - 1))
             (drawnOn page (Single.renderScale st) [(image, Single.imagePos st)]) |}.
Proof.
  intros Hread Hload Hpage Hreadi Hembed. unfold Single.modifiedDocument, arrayBuffer.
  rewrite Hread. cbn [bind]. rewrite Hload. cbn [bind]. rewrite Hreadi. cbn [bind].
  rewrite (embed_produces _ _ Hembed). cbn [bind]. rewrite Hpage. reflexivity.
Qed.
End DocumentBranch.

(** C1.  The PDF branch draws every overlay at the rectangle the
    specification gives for [toDocumentSpace]: [x' = x / s],
    [width' = width / s], [height' = height / s] and
    [y' = h - y / s - height'], where [s] is the current [renderScale] and
    [h] the height of the target page of the freshly loaded document.  In
    the multi-overlay variant the page receives one such [drawImage] call
    per overlay, in store order; in the single-overlay variant exactly
    one.  Nothing is assumed of [s], so this covers every [s > 0].  The
    branch does reach that point: when the document can be read and
    loaded, the page shown exists in it, and every overlay can be read
    and embedded, it yields the loaded document with exactly these calls
    added to that page, in both variants. *)
Theorem document_branch_rectangles {N : Type} `{JsNumber N} (w : World N) :
  (forall (rect : Rect N) (s h : N),
      toDocumentSpace rect s h = spec_toDocumentSpace rect s h)
  /\
  (forall (st : Multi.State N) (f : File) (doc' pdfDoc : PDFDocument N) (page : PDFPage N),
      Multi.modifiedDocument w st f = Ret doc' ->
      pdflib_load w (content f) = Ret pdfDoc ->
      pageAt (getPages pdfDoc) (Multi.currentPage st - 1) = Some page ->
      exists page',
        pageAt (getPages doc') (Multi.currentPage st - 1) = Some page' /\
        drawn page' =
        drawn page ++
        map (fun img =>
               (embeddedAs (Multi.file img),
                spec_toDocumentSpace (Multi.pos img) (Multi.renderScale st)
                  (getHeight page)))
            (Multi.overlayImages st))
  /\
  (forall (st : Single.State N) (f image : File) (doc' : PDFDocument N),
      Single.modifiedDocument w st f image = Ret doc' ->
      exists pdfDoc page page',
        pdflib_load w (content f) = Ret pdfDoc /\
        pageAt (getPages pdfDoc) (Single.currentPage st - 1) = Some page /\
        pageAt (getPages doc') (Single.currentPage st - 1) = Some page' /\
        drawn page' =
        drawn page ++
        [(embeddedAs image,
          spec_toDocumentSpace (Single.imagePos st) (Single.renderScale st)
            (getHeight page))])
  /\
  (forall (st : Multi.State N) (f : File) (pdfDoc : PDFDocument N) (page : PDFPage N),
      readable w f = true ->
      pdflib_load w (content f) = Ret pdfDoc ->
      pageAt (getPages pdfDoc) (Multi.currentPage st - 1) = Some page ->
      forallb (fun o => readable w (Multi.file o) && embedOk w (Multi.file o))
        (Multi.overlayImages st) = true ->
      Multi.modifiedDocument w st f =
      Ret {| getPages :=
               setPage (getPages pdfDoc) (Z.to_nat (Multi.currentPage st - 1))
                 {| getHeight := getHeight page;
                    drawn :=
                      drawn page ++
                      map (fun img =>
                             (embeddedAs (Multi.file img),
                              spec_toDocumentSpace (Multi.pos img) (Multi.renderScale st)
                                (getHeight page)))
                          (Multi.overlayImages st) |} |})
  /\
  (forall (st : Single.State N) (f image : File) (pdfDoc : PDFDocument N)
          (page : PDFPage N),
      readable w f = true ->
      pdflib_load w (content f) = Ret pdfDoc ->
      pageAt (getPages pdfDoc) (Single.currentPage st - 1) = Some page ->
      readable w image = true ->
      embedOk w image = true ->
      Single.modifiedDocument w st f image =
      Ret {| getPages :=
               setPage (getPages pdfDoc) (Z.to_nat (Single.currentPage st - 1))
                 {| getHeight := getHeight page;
                    drawn :=
                      drawn page ++
                      [(embeddedAs image,
                        spec_toDocumentSpace (Single.imagePos st) (Single.renderScale st)
                          (getHeight page))] |} |}).
Proof.
  split; [reflexivity | split; [| split; [| split]]].
  - intros st f doc' pdfDoc page Hdoc Hload Hpage.
    apply multi_document in Hdoc as (pdfDoc0 & Hload0 & Hcase).
    rewrite Hload in Hload0; inversion Hload0; subst pdfDoc0.
    rewrite Hpage in Hcase. destruct Hcase as (page' & Hat & _ & Hd).
    exists page'; split; [exact Hat | exact Hd].
  - intros st f image doc' Hdoc.
    apply single_document in Hdoc as (pdfDoc & page & page' & Hl & Hp & Hp' & _ & Hd).
    exists pdfDoc, page, page'; repeat split; assumption.
  - intros st f pdfDoc page Hread Hload Hpage Hall.
    rewrite multi_document_produced with (pdfDoc := pdfDoc) (page := page)
      by assumption.
    unfold drawnOn. rewrite map_map. reflexivity.
  - intros st f image pdfDoc page Hread Hload Hpage Hreadi Hembed.
    rewrite single_document_produced with (pdfDoc := pdfDoc) (page := page)
      by assumption.
    reflexivity.
Qed.

Lemma document_branch_rectangles_witness :
  (exists page',
      pageAt (getPages (Sample.document (N:=Q))) (Multi.currentPage Sample.placed - 1)
      = Some page' /\
      drawn page' =
      drawn Sample.letterPage ++
      map (fun img =>
             (embeddedAs (Multi.file img),
              spec_toDocumentSpace (Multi.pos img) (Multi.renderScale Sample.placed)
                (getHeight Sample.letterPage)))
          (Multi.overlayImages Sample.placed))
  /\
  (exists pdfDoc page page',
      pdflib_load (Sample.world (N:=Q)) (content Sample.report) = Ret pdfDoc /\
      pageAt (getPages pdfDoc) (Single.currentPage Sample.placed1 - 1) = Some page /\
      pageAt (getPages Sample.document1) (Single.currentPage Sample.placed1 - 1)
      = Some page' /\
      drawn page' =
      drawn page ++
      [(embeddedAs Sample.logo,
        spec_toDocumentSpace (Single.imagePos Sample.placed1)
          (Single.renderScale Sample.placed1) (getHeight page))])
  /\
  Single.modifiedDocument (Sample.world (N:=Q)) Sample.placed1 Sample.report Sample.logo =
  Ret {| getPages :=
           setPage (getPages Sample.letterDoc)
             (Z.to_nat (Single.currentPage Sample.placed1 - 1))
             {| getHeight := getHeight Sample.letterPage;
                drawn :=
                  drawn Sample.letterPage ++
                  [(embeddedAs Sample.logo,
                    spec_toDocumentSpace (Single.imagePos Sample.placed1)
                      (Single.renderScale Sample.placed1)
                      (getHeight Sample.letterPage))] |} |}.
Proof.
  split; [| split].
  - apply (proj1 (proj2 (document_branch_rectangles (Sample.world (N:=Q))))
             Sample.placed Sample.report Sample.document Sample.letterDoc
             Sample.letterPage);
      vm_compute; reflexivity.
  - apply (proj1 (proj2 (proj2 (document_branch_rectangles (Sample.world (N:=Q)))))
             Sample.placed1 Sample.report Sample.logo Sample.document1).
    vm_compute; reflexivity.
  - apply (proj2 (proj2 (proj2 (proj2 (document_branch_rectangles (Sample.world (N:=Q))))))
             Sample.placed1 Sample.report Sample.logo Sample.letterDoc Sample.letterPage);
      vm_compute; reflexivity.
Defined.

(** ** The render step *)

Section RenderStep.
Context {N : Type} `{JsNumber N}.

Lemma multi_render_scale (w : World N) (st : Multi.State N)
    (doc : PDFDocumentProxy N) (page : PDFPageProxy N) (el : Element) (c : Canvas N) :
  Multi.pdfDocProxy st = Some doc ->
  Multi.canvasRef st = Some c ->
  Multi.containerRef st = Some el ->
  getPage doc (Multi.currentPage st) = Ret page ->
  Multi.renderScale (fst (Multi.renderPage w true st)) =
  nmin (ndiv (nsub (ofZ (orDefault (Some (clientWidth el)) 800)) (ofZ 40))
          (vwidth (getViewport page (ofZ 1))))
       (ndiv (nsub (ofZ (orDefault (Some (clientHeight el)) 600)) (ofZ 40))
          (vheight (getViewport page (ofZ 1)))).
Proof.
  intros Hdoc Hcanvas Hel Hpage. unfold Multi.renderPage.
  rewrite Hdoc, Hcanvas, Hel, Hpage. cbn [Multi.canvasRef Multi.setPageDimensions
    Multi.setRenderScale Multi.setOriginalDimensions]. rewrite Hcanvas.
  destruct (getContext2d w); cbn [negb]; [| reflexivity].
  destruct (pdfjs_render w page _); reflexivity.
Qed.

Lemma single_render_scale (w : World N) (st : Single.State N)
    (doc : PDFDocumentProxy N) (page : PDFPageProxy N) (el : Element) (c : Canvas N) :
  Single.pdfDocProxy st = Some doc ->
  Single.canvasRef st = Some c ->
  Single.containerRef st = Some el ->
  getPage doc (Single.currentPage st) = Ret page ->
  Single.renderScale (fst (Single.renderPage w true st)) =
  nmin (ndiv (nsub (ofZ (orDefault (Some (clientWidth el)) 800)) (ofZ 40))
          (vwidth (getViewport page (ofZ 1))))
       (ndiv (nsub (ofZ (orDefault (Some (clientHeight el)) 600)) (ofZ 40))
          (vheight (getViewport page (ofZ 1)))).
Proof.
  intros Hdoc Hcanvas Hel Hpage. unfold Single.renderPage.
  rewrite Hdoc, Hcanvas, Hel, Hpage. cbn [Single.canvasRef Single.setPageDimensions
    Single.setRenderScale Single.setOriginalDimensions]. rewrite Hcanvas.
  destruct (getContext2d w); cbn [negb]; [| reflexivity].
  destruct (pdfjs_render w page _); reflexivity.
Qed.
End RenderStep.

Lemma orDefault_nonzero (n default : Z) : n <> 0%Z -> orDefault (Some n) default = n.
Proof.
  intros Hn; unfold orDefault. destruct (Z.eqb_spec n 0); [contradiction | reflexivity].
Qed.

(** C2.  After the render step, [renderScale] is
    [min((containerWidth - 40) / nativeWidth,
         (containerHeight - 40) / nativeHeight)], in both variants, where
    [containerWidth] and [containerHeight] are the source's variables of
    that name (the client sizes of the container, 800 and 600 standing in
    for a size of zero) and the native size is the viewport at scale 1.
    For the 612 by 792 page in the 800 by 600 container this is
    [min(760/612, 560/792) = 70/99], which is 0.7071 to four decimals, and
    the placement [(50, 50, 150, 150)] is drawn at exactly
    [(495/7, 3564/7, 1485/7, 1485/7)], that is (70.714..., 509.142...,
    212.142..., 212.142...): each of the figures 70.71, 509.16, 212.13,
    212.13 is less than 0.02 away from it. *)
Theorem display_scale_fits_page :
  (forall (N : Type) (HN : JsNumber N) (w : World N) (st : Multi.State N)
          (doc : PDFDocumentProxy N) (page : PDFPageProxy N) (c : Canvas N) (el : Element),
      Multi.pdfDocProxy st = Some doc ->
      Multi.canvasRef st = Some c ->
      Multi.containerRef st = Some el ->
      getPage doc (Multi.currentPage st) = Ret page ->
      let containerWidth := orDefault (Some (clientWidth el)) 800 in
      let containerHeight := orDefault (Some (clientHeight el)) 600 in
      let nativeWidth := vwidth (getViewport page (ofZ 1)) in
      let nativeHeight := vheight (getViewport page (ofZ 1)) in
      Multi.renderScale (fst (Multi.renderPage w true st)) =
      nmin (ndiv (nsub (ofZ containerWidth) (ofZ 40)) nativeWidth)
           (ndiv (nsub (ofZ containerHeight) (ofZ 40)) nativeHeight)
      /\ (clientWidth el <> 0%Z -> containerWidth = clientWidth el)
      /\ (clientHeight el <> 0%Z -> containerHeight = clientHeight el))
  /\
  (forall (N : Type) (HN : JsNumber N) (w : World N) (st : Single.State N)
          (doc : PDFDocumentProxy N) (page : PDFPageProxy N) (c : Canvas N) (el : Element),
      Single.pdfDocProxy st = Some doc ->
      Single.canvasRef st = Some c ->
      Single.containerRef st = Some el ->
      getPage doc (Single.currentPage st) = Ret page ->
      let containerWidth := orDefault (Some (clientWidth el)) 800 in
      let containerHeight := orDefault (Some (clientHeight el)) 600 in
      let nativeWidth := vwidth (getViewport page (ofZ 1)) in
      let nativeHeight := vheight (getViewport page (ofZ 1)) in
      Single.renderScale (fst (Single.renderPage w true st)) =
      nmin (ndiv (nsub (ofZ containerWidth) (ofZ 40)) nativeWidth)
           (ndiv (nsub (ofZ containerHeight) (ofZ 40)) nativeHeight)
      /\ (clientWidth el <> 0%Z -> containerWidth = clientWidth el)
      /\ (clientHeight el <> 0%Z -> containerHeight = clientHeight el))
  /\
  (let st := Sample.loaded (N:=Q) in
   Multi.containerRef st = Some {| clientWidth := 800; clientHeight := 600 |} /\
   dim_width (Multi.originalDimensions st) == 612 /\
   dim_height (Multi.originalDimensions st) == 792 /\
   Multi.renderScale st == Qmin (760 / 612) (560 / 792) /\
   Multi.renderScale st == 70 # 99 /\
   within 0.00005 (Multi.renderScale st) 0.7071)
  /\
  (exists (o : Multi.OverlayImage Q) (doc' : PDFDocument Q) (img : PDFImage) (r : Rect Q),
      Multi.overlayImages Sample.placed = [o] /\
      rect_eq (Multi.pos o) {| x := 50; y := 50; width := 150; height := 150 |} /\
      Multi.renderScale Sample.placed = Multi.renderScale Sample.loaded /\
      Multi.modifiedDocument Sample.world Sample.placed Sample.report = Ret doc' /\
      option_map (@drawn Q) (pageAt (getPages doc') 0) = Some [(img, r)] /\
      rect_eq r {| x := 495 # 7; y := 3564 # 7; width := 1485 # 7; height := 1485 # 7 |} /\
      within 0.02 (x r) 70.71 /\ within 0.02 (y r) 509.16 /\
      within 0.02 (width r) 212.13 /\ within 0.02 (height r) 212.13).
Proof.
  split; [| split; [| split]].
  - intros N HN w st doc page c el Hdoc Hc Hel Hpage. cbv zeta.
    split; [apply (multi_render_scale w st Hdoc Hc Hel Hpage) |].
    split; apply orDefault_nonzero.
  - intros N HN w st doc page c el Hdoc Hc Hel Hpage. cbv zeta.
    split; [apply (single_render_scale w st Hdoc Hc Hel Hpage) |].
    split; apply orDefault_nonzero.
  - cbv zeta. repeat split; try (vm_compute; reflexivity).
    unfold within; vm_compute; discriminate.
  - eexists _, _, _, _.
    split; [vm_compute; reflexivity |].
    split; [repeat split; vm_compute; reflexivity |].
    split; [vm_compute; reflexivity |].
    split; [vm_compute; reflexivity |].
    split; [vm_compute; reflexivity |].
    split; [repeat split; vm_compute; reflexivity |].
    repeat split; unfold within; vm_compute; discriminate.
Qed.

Lemma display_scale_fits_page_witness :
  Multi.renderScale (fst (Multi.renderPage Sample.world true (Sample.opened (N:=Q)))) =
  nmin (ndiv (nsub (ofZ 800) (ofZ 40)) (vwidth (getViewport Sample.letterProxy (ofZ 1))))
       (ndiv (nsub (ofZ 600) (ofZ 40)) (vheight (getViewport Sample.letterProxy (ofZ 1)))).
Proof.
  apply (proj1 display_scale_fits_page Q _ Sample.world Sample.opened
           Sample.proxy Sample.letterProxy Sample.blank
           {| clientWidth := 800; clientHeight := 600 |});
    vm_compute; reflexivity.
Defined.

(** ** Round trip through document space *)

Lemma rect_eq_refl (r : Rect Q) : rect_eq r r.
Proof. repeat split; reflexivity. Qed.

Lemma rect_eq_sym (a b : Rect Q) : rect_eq a b -> rect_eq b a.
Proof. intros (Hx & Hy & Hw & Hh); repeat split; symmetry; assumption. Qed.

Lemma rect_eq_trans (a b c : Rect Q) : rect_eq a b -> rect_eq b c -> rect_eq a c.
Proof.
  intros (Hx & Hy & Hw & Hh) (Hx' & Hy' & Hw' & Hh'); repeat split;
    etransitivity; eassumption.
Qed.

(** Equal rectangles and equal scales give equal display rectangles. *)
Lemma toDisplaySpace_compat (a b : Rect Q) (s h : Q) :
  rect_eq a b -> rect_eq (toDisplaySpace a s h) (toDisplaySpace b s h).
Proof.
  intros (Hx & Hy & Hw & Hh); unfold toDisplaySpace; repeat split; simpl;
    rewrite ?Hx, ?Hy, ?Hw, ?Hh; reflexivity.
Qed.

Lemma roundtrip (r : Rect Q) (s h : Q) :
  ~ s == 0 -> rect_eq (toDisplaySpace (toDocumentSpace r s h) s h) r.
Proof.
  intros Hs. unfold toDisplaySpace, toDocumentSpace, rect_eq; simpl.
  repeat split; field; exact Hs.
Qed.

(** C3.  Over the rationals, for every display rectangle [r], every
    scale [s > 0] and every page height [h],
    [toDisplaySpace (toDocumentSpace r s h) s h] is [r], field by field;
    hence two placements that the PDF branch draws at the same rectangle
    are the same placement. *)
Theorem document_space_round_trip (r : Rect Q) (s h : Q) :
  0 < s ->
  rect_eq (toDisplaySpace (toDocumentSpace r s h) s h) r
  /\ (forall r' : Rect Q,
         rect_eq (toDocumentSpace r s h) (toDocumentSpace r' s h) -> rect_eq r r').
Proof.
  intros Hpos.
  assert (Hs : ~ s == 0) by (intros Hz; rewrite Hz in Hpos; discriminate).
  split; [apply roundtrip; exact Hs |].
  intros r' Heq.
  apply rect_eq_trans with (toDisplaySpace (toDocumentSpace r s h) s h).
  - apply rect_eq_sym, roundtrip; exact Hs.
  - apply rect_eq_trans with (toDisplaySpace (toDocumentSpace r' s h) s h).
    + apply toDisplaySpace_compat; exact Heq.
    + apply roundtrip; exact Hs.
Qed.

Lemma document_space_round_trip_witness :
  rect_eq
    (toDisplaySpace (toDocumentSpace (N:=Q) Single.defaultPos (70 # 99) 792) (70 # 99) 792)
    Single.defaultPos.
Proof.
  apply (@document_space_round_trip Single.defaultPos (70 # 99) 792).
  reflexivity.
Defined.

(** ** The image branch *)

Section RasterBranch.
Context {N : Type} `{JsNumber N}.

Lemma imageDraws_app (a b : list (CanvasOp N)) :
  imageDraws (a ++ b) = imageDraws a ++ imageDraws b.
Proof.
  induction a as [| [page viewport | src dest] rest IH]; simpl;
    [reflexivity | exact IH | rewrite IH; reflexivity].
Qed.

Lemma pageRenders_app (a b : list (CanvasOp N)) :
  pageRenders (a ++ b) = pageRenders a ++ pageRenders b.
Proof.
  induction a as [| [page viewport | src dest] rest IH]; simpl;
    [reflexivity | rewrite IH; reflexivity | exact IH].
Qed.

Lemma imageDraws_drawn {A : Type} (src : A -> string) (dest : A -> Rect N) (l : list A) :
  imageDraws (map (fun a => ImageDrawn (src a) (dest a)) l) =
  map (fun a => (src a, dest a)) l.
Proof. induction l as [| a rest IH]; simpl; [| rewrite IH]; reflexivity. Qed.

Lemma pageRenders_drawn {A : Type} (src : A -> string) (dest : A -> Rect N) (l : list A) :
  pageRenders (map (fun a => ImageDrawn (src a) (dest a)) l) = [].
Proof. induction l as [| a rest IH]; simpl; [reflexivity | exact IH]. Qed.

(** The loop keeps the canvas size and appends one [drawImage] call per
    overlay, in list order. *)
Lemma compositeAll_ops (w : World N) (scale e : N) (imgs : list (Multi.OverlayImage N)) :
  forall surface composed : Canvas N,
    Multi.compositeAll w scale e surface imgs = Ret composed ->
    canvas_width composed = canvas_width surface /\
    canvas_height composed = canvas_height surface /\
    ops composed =
    ops surface ++
    map (fun o => ImageDrawn (Multi.previewUrl o) (toRasterSpace (Multi.pos o) scale e)) imgs.
Proof.
  induction imgs as [| o rest IH]; intros surface composed Hc; simpl in Hc.
  - inversion Hc; subst composed. rewrite app_nil_r. repeat split.
  - apply bind_Ret_inv in Hc as (_ & _ & Hc).
    apply IH in Hc as (Hw & Hh & Hops). simpl in Hw, Hh, Hops.
    repeat split; try assumption. rewrite Hops, <- app_assoc. reflexivity.
Qed.

Lemma multi_surface (w : World N) (st : Multi.State N) (composed : Canvas N) :
  Multi.composedSurface w st = Ret composed ->
  exists doc page,
    Multi.pdfDocProxy st = Some doc /\
    getPage doc (Multi.currentPage st) = Ret page /\
    canvas_width composed = vwidth (getViewport page Multi.exportScale) /\
    canvas_height composed = vheight (getViewport page Multi.exportScale) /\
    ops composed =
    PageRendered page (getViewport page Multi.exportScale)
    :: map (fun o => ImageDrawn (Multi.previewUrl o)
                       (toRasterSpace (Multi.pos o) (Multi.renderScale st)
                          Multi.exportScale))
           (Multi.overlayImages st).
Proof.
  unfold Multi.composedSurface. destruct (getContext2d w); [| discriminate]. cbn [negb].
  intros Hc. apply bind_Ret_inv in Hc as (page & Hpage & Hc).
  apply bind_Ret_inv in Hc as (_ & _ & Hc).
  apply compositeAll_ops in Hc as (Hw & Hh & Hops).
  destruct (Multi.pdfDocProxy st) as [doc |]; [| discriminate].
  exists doc, page. repeat split; assumption.
Qed.

Lemma single_surface (w : World N) (st : Single.State N) (url : string)
    (composed : Canvas N) :
  Single.composedSurface w st url = Ret composed ->
  exists doc page,
    Single.pdfDocProxy st = Some doc /\
    getPage doc (Single.currentPage st) = Ret page /\
    ops composed =
    [PageRendered page (getViewport page (ofZ 1));
     ImageDrawn url (toNativeRaster (Single.imagePos st) (Single.renderScale st))].
Proof.
  unfold Single.composedSurface. destruct (getContext2d w); [| discriminate]. cbn [negb].
  intros Hc. apply bind_Ret_inv in Hc as (page & Hpage & Hc).
  apply bind_Ret_inv in Hc as (_ & _ & Hc).
  apply bind_Ret_inv in Hc as (_ & _ & Hc).
  destruct (Single.pdfDocProxy st) as [doc |]; [| discriminate].
  exists doc, page. inversion Hc; subst composed. repeat split; assumption.
Qed.
Lemma single_surface_size (w : World N) (st : Single.State N) (url : string)
    (composed : Canvas N) :
  Single.composedSurface w st url = Ret composed ->
  canvas_width composed = dim_width (Single.originalDimensions st) /\
  canvas_height composed = dim_height (Single.originalDimensions st).
Proof.
  unfold Single.composedSurface. destruct (getContext2d w); [| discriminate]. cbn [negb].
  intros Hc. apply bind_Ret_inv in Hc as (page & _ & Hc).
  apply bind_Ret_inv in Hc as (_ & _ & Hc).
  apply bind_Ret_inv in Hc as (_ & _ & Hc).
  inversion Hc; subst composed. split; reflexivity.
Qed.

(** When every preview image loads, the loop runs to its end. *)
Lemma compositeAll_produces (w : World N) (scale e : N)
    (imgs : list (Multi.OverlayImage N)) :
  forall surface : Canvas N,
    forallb (fun o => image_onload w (Multi.previewUrl o)) imgs = true ->
    Multi.compositeAll w scale e surface imgs =
    Ret {| canvas_width := canvas_width surface;
           canvas_height := canvas_height surface;
           ops := ops surface ++
                  map (fun o => ImageDrawn (Multi.previewUrl o)
                                  (toRasterSpace (Multi.pos o) scale e)) imgs |}.
Proof.
  induction imgs as [| o rest IH]; intros surface Hall.
  - simpl. rewrite app_nil_r. destruct surface; reflexivity.
  - simpl in Hall. apply andb_true_iff in Hall as [Ho Hall].
    cbn [Multi.compositeAll]. unfold imageLoaded. rewrite Ho. cbn [bind].
    rewrite (IH _ Hall). simpl. rewrite <- app_assoc. reflexivity.
Qed.

Lemma multi_surface_produced (w : World N) (st : Multi.State N)
    (doc : PDFDocumentProxy N) (page : PDFPageProxy N) :
  getContext2d w = true ->
  Multi.pdfDocProxy st = Some doc ->
  getPage doc (Multi.currentPage st) = Ret page ->
  pdfjs_render w page (getViewport page Multi.exportScale) = Ret tt ->
  forallb (fun o => image_onload w (Multi.previewUrl o)) (Multi.overlayImages st) = true ->
  Multi.composedSurface w st =
  Ret {| canvas_width := vwidth (getViewport page Multi.exportScale);
         canvas_height := vheight (getViewport page Multi.exportScale);
         ops := PageRendered page (getViewport page Multi.exportScale)
                :: map (fun o => ImageDrawn (Multi.previewUrl o)
                                   (toRasterSpace (Multi.pos o) (Multi.renderScale st)
                                      Multi.exportScale))
                       (Multi.overlayImages st) |}.
Proof.
  intros Hctx Hdoc Hpage Hrender Hall. unfold Multi.composedSurface.
  rewrite Hctx, Hdoc, Hpage. cbn [negb bind]. rewrite Hrender. cbn [bind].
  rewrite (compositeAll_produces _ _ _ _ _ Hall). reflexivity.
Qed.

Lemma single_surface_produced (w : World N) (st : Single.State N) (url : string)
    (doc : PDFDocumentProxy N) (page : PDFPageProxy N) :
  getContext2d w = true ->
  Single.pdfDocProxy st = Some doc ->
  getPage doc (Single.currentPage st) = Ret page ->
  pdfjs_render w page (getViewport page (ofZ 1)) = Ret tt ->
  image_onload w url = true ->
  Single.composedSurface w st url =
  Ret {| canvas_width := dim_width (Single.originalDimensions st);
         canvas_height := dim_height (Single.originalDimensions st);
         ops := [PageRendered page (getViewport page (ofZ 1));
                 ImageDrawn url
                   (toNativeRaster (Single.imagePos st) (Single.renderScale st))] |}.
Proof.
  intros Hctx Hdoc Hpage Hrender Hload. unfold Single.composedSurface, imageLoaded.
  rewrite Hctx, Hdoc, Hpage. cbn [negb bind]. rewrite Hrender. cbn [bind].
  rewrite Hload. reflexivity.
Qed.
End RasterBranch.

Lemma toRasterSpace_factor (r : Rect Q) (s e : Q) :
  ~ s == 0 -> rect_eq (toRasterSpace r s e) (spec_toRasterSpace r s e).
Proof.
  intros Hs. unfold toRasterSpace, spec_toRasterSpace, rect_eq; simpl.
  repeat split; field; exact Hs.
Qed.

Lemma toNativeRaster_factor (r : Rect Q) (s : Q) :
  ~ s == 0 -> rect_eq (toNativeRaster r s) (spec_toRasterSpace r s 1).
Proof.
  intros Hs. unfold toNativeRaster, spec_toRasterSpace, rect_eq; simpl.
  repeat split; field; exact Hs.
Qed.

(** C4.  The image branch renders the active page at a scale that is a
    constant of the program, [300 / 72] in the multi-overlay variant and
    1 in the single-overlay variant, whatever [renderScale] is, and draws
    every overlay at its placement divided by [renderScale] and
    multiplied by that constant, with no flip; over the rationals and for
    a non-zero [renderScale] this is each of [x], [y], [width], [height]
    multiplied by the one factor [rasterScale / displayScale].  The
    branch does reach that point: with a drawing context, a loaded
    document that has the page shown, a page rendering that completes
    and preview images that load, it yields the canvas with exactly these
    calls, in both variants. *)
Theorem raster_branch_scaling :
  (forall (N : Type) (HN : JsNumber N) (w : World N) (st : Multi.State N)
          (composed : Canvas N),
      Multi.composedSurface w st = Ret composed ->
      exists doc page,
        Multi.pdfDocProxy st = Some doc /\
        getPage doc (Multi.currentPage st) = Ret page /\
        pageRenders (ops composed) =
          [(page, getViewport page (ndiv (ofZ 300) (ofZ 72)))] /\
        imageDraws (ops composed) =
          map (fun o => (Multi.previewUrl o,
                         toRasterSpace (Multi.pos o) (Multi.renderScale st)
                           (ndiv (ofZ 300) (ofZ 72))))
              (Multi.overlayImages st))
  /\
  (forall (N : Type) (HN : JsNumber N) (w : World N) (st : Single.State N)
          (url : string) (composed : Canvas N),
      Single.composedSurface w st url = Ret composed ->
      exists doc page,
        Single.pdfDocProxy st = Some doc /\
        getPage doc (Single.currentPage st) = Ret page /\
        pageRenders (ops composed) = [(page, getViewport page (ofZ 1))] /\
        imageDraws (ops composed) =
          [(url, toNativeRaster (Single.imagePos st) (Single.renderScale st))])
  /\
  (forall (N : Type) (HN : JsNumber N) (w : World N) (st : Multi.State N)
          (otherScale : N) (composed composed' : Canvas N),
      Multi.composedSurface w st = Ret composed ->
      Multi.composedSurface w (Multi.setRenderScale otherScale st) = Ret composed' ->
      pageRenders (ops composed') = pageRenders (ops composed) /\
      canvas_width composed' = canvas_width composed /\
      canvas_height composed' = canvas_height composed)
  /\
  (forall (rect : Rect Q) (displayScale rasterScale : Q),
      ~ displayScale == 0 ->
      rect_eq (toRasterSpace rect displayScale rasterScale)
        {| x := x rect * (rasterScale / displayScale);
           y := y rect * (rasterScale / displayScale);
           width := width rect * (rasterScale / displayScale);
           height := height rect * (rasterScale / displayScale) |}
      /\
      rect_eq (toNativeRaster rect displayScale)
        {| x := x rect * (1 / displayScale);
           y := y rect * (1 / displayScale);
           width := width rect * (1 / displayScale);
           height := height rect * (1 / displayScale) |})
  /\
  (forall (N : Type) (HN : JsNumber N) (w : World N) (st : Multi.State N)
          (doc : PDFDocumentProxy N) (page : PDFPageProxy N),
      getContext2d w = true ->
      Multi.pdfDocProxy st = Some doc ->
      getPage doc (Multi.currentPage st) = Ret page ->
      pdfjs_render w page (getViewport page (ndiv (ofZ 300) (ofZ 72))) = Ret tt ->
      forallb (fun o => image_onload w (Multi.previewUrl o)) (Multi.overlayImages st)
      = true ->
      Multi.composedSurface w st =
      Ret {| canvas_width := vwidth (getViewport page (ndiv (ofZ 300) (ofZ 72)));
             canvas_height := vheight (getViewport page (ndiv (ofZ 300) (ofZ 72)));
             ops := PageRendered page (getViewport page (ndiv (ofZ 300) (ofZ 72)))
                    :: map (fun o =>
                              ImageDrawn (Multi.previewUrl o)
                                (toRasterSpace (Multi.pos o) (Multi.renderScale st)
                                   (ndiv (ofZ 300) (ofZ 72))))
                           (Multi.overlayImages st) |})
  /\
  (forall (N : Type) (HN : JsNumber N) (w : World N) (st : Single.State N)
          (url : string) (doc : PDFDocumentProxy N) (page : PDFPageProxy N),
      getContext2d w = true ->
      Single.pdfDocProxy st = Some doc ->
      getPage doc (Single.currentPage st) = Ret page ->
      pdfjs_render w page (getViewport page (ofZ 1)) = Ret tt ->
      image_onload w url = true ->
      Single.composedSurface w st url =
      Ret {| canvas_width := dim_width (Single.originalDimensions st);
             canvas_height := dim_height (Single.originalDimensions st);
             ops := [PageRendered page (getViewport page (ofZ 1));
                     ImageDrawn url
                       (toNativeRaster (Single.imagePos st) (Single.renderScale st))] |})
  /\
  (forall (N : Type) (HN : JsNumber N) (w : World N) (st : Single.State N)
          (url : string) (otherScale : N) (composed composed' : Canvas N),
      Single.composedSurface w st url = Ret composed ->
      Single.composedSurface w (Single.setRenderScale otherScale st) url = Ret composed' ->
      pageRenders (ops composed') = pageRenders (ops composed) /\
      canvas_width composed' = canvas_width composed /\
      canvas_height composed' = canvas_height composed).
Proof.
  split; [| split; [| split; [| split; [| split; [| split]]]]].
  - intros N HN w st composed Hc.
    apply multi_surface in Hc as (doc & page & Hdoc & Hpage & _ & _ & Hops).
    exists doc, page. rewrite Hops. repeat split; try assumption.
    + simpl. rewrite pageRenders_drawn. reflexivity.
    + simpl. rewrite imageDraws_drawn. reflexivity.
  - intros N HN w st url composed Hc.
    apply single_surface in Hc as (doc & page & Hdoc & Hpage & Hops).
    exists doc, page. rewrite Hops. repeat split; assumption.
  - intros N HN w st v c c' Hc Hc'.
    apply multi_surface in Hc as (doc & page & Hdoc & Hpage & Hw & Hh & Hops).
    apply multi_surface in Hc' as (doc' & page' & Hdoc' & Hpage' & Hw' & Hh' & Hops').
    simpl in Hdoc', Hpage'. rewrite Hdoc in Hdoc'; inversion Hdoc'; subst doc'.
    rewrite Hpage in Hpage'; inversion Hpage'; subst page'.
    rewrite Hops, Hops', Hw, Hw', Hh, Hh'. simpl. rewrite !pageRenders_drawn.
    repeat split.
  - intros rect s e Hs. split.
    + apply (toRasterSpace_factor rect e Hs).
    + apply (toNativeRaster_factor rect Hs).
  - intros N HN w st doc page Hctx Hdoc Hpage Hrender Hall.
    apply multi_surface_produced with (doc := doc); assumption.
  - intros N HN w st url doc page Hctx Hdoc Hpage Hrender Hload.
    apply single_surface_produced with (doc := doc); assumption.
  - intros N HN w st url v c c' Hc Hc'.
    destruct (single_surface_size _ _ _ Hc) as [Hw Hh].
    destruct (single_surface_size _ _ _ Hc') as [Hw' Hh'].
    apply single_surface in Hc as (doc & page & Hdoc & Hpage & Hops).
    apply single_surface in Hc' as (doc' & page' & Hdoc' & Hpage' & Hops').
    simpl in Hdoc', Hpage', Hw', Hh'. rewrite Hdoc in Hdoc'; inversion Hdoc'; subst doc'.
    rewrite Hpage in Hpage'; inversion Hpage'; subst page'.
    rewrite Hops, Hops', Hw, Hw', Hh, Hh'. repeat split.
Qed.

Lemma raster_branch_scaling_witness :
  (exists doc page,
      Multi.pdfDocProxy (Sample.placed (N:=Q)) = Some doc /\
      getPage doc (Multi.currentPage (Sample.placed (N:=Q))) = Ret page /\
      pageRenders (ops Sample.surface) =
        [(page, getViewport page (ndiv (ofZ 300) (ofZ 72)))] /\
      imageDraws (ops Sample.surface) =
        map (fun o => (Multi.previewUrl o,
                       toRasterSpace (Multi.pos o) (Multi.renderScale Sample.placed)
                         (ndiv (ofZ 300) (ofZ 72))))
            (Multi.overlayImages Sample.placed))
  /\
  (exists doc page,
      Single.pdfDocProxy (Sample.placed1 (N:=Q)) = Some doc /\
      getPage doc (Single.currentPage (Sample.placed1 (N:=Q))) = Ret page /\
      pageRenders (ops Sample.surface1) = [(page, getViewport page (ofZ 1))] /\
      imageDraws (ops Sample.surface1) =
        [("blob:logo",
          toNativeRaster (Single.imagePos Sample.placed1)
            (Single.renderScale Sample.placed1))])
  /\
  Single.composedSurface (Sample.world (N:=Q)) Sample.placed1 "blob:logo" =
  Ret {| canvas_width := dim_width (Single.originalDimensions Sample.placed1);
         canvas_height := dim_height (Single.originalDimensions Sample.placed1);
         ops := [PageRendered Sample.letterProxy (getViewport Sample.letterProxy (ofZ 1));
                 ImageDrawn "blob:logo"
                   (toNativeRaster (Single.imagePos Sample.placed1)
                      (Single.renderScale Sample.placed1))] |}.
Proof.
  split; [| split].
  - apply (proj1 raster_branch_scaling Q _ Sample.world Sample.placed Sample.surface).
    vm_compute; reflexivity.
  - apply (proj1 (proj2 raster_branch_scaling) Q _ Sample.world Sample.placed1
             "blob:logo" Sample.surface1).
    vm_compute; reflexivity.
  - apply (proj1 (proj2 (proj2 (proj2 (proj2 (proj2 raster_branch_scaling))))) Q _
             Sample.world
             Sample.placed1 "blob:logo" Sample.proxy Sample.letterProxy);
      vm_compute; reflexivity.
Defined.

(** ** Export as a whole *)

Section ExportRuns.
Context {N : Type} `{JsNumber N}.

(** The four ways a run of the multi-overlay [handleExport] can go. *)
Lemma multi_export_cases (w : World N) (st : Multi.State N) :
  let run := Multi.handleExport w st in
  ((Multi.pdfFile st = None \/ Multi.canvasRef st = None) /\
   run = {| final := st; effects := []; settled := true |})
  \/ (exists f c,
        Multi.pdfFile st = Some f /\ Multi.canvasRef st = Some c /\
        ((exists name href,
             run = {| final := Multi.setIsExporting false (Multi.setIsExporting true st);
                      effects := [Download name href]; settled := true |})
         \/ (exists e,
                run = {| final := Multi.setIsExporting false (Multi.setIsExporting true st);
                         effects :=
                           [ConsoleError "Export error:" e;
                            Alert (String.append "Failed to export. " (messageOf e))];
                         settled := true |})
         \/ run = {| final := Multi.setIsExporting true st; effects := [];
                     settled := false |})).
Proof.
  unfold Multi.handleExport.
  destruct (Multi.pdfFile st) as [f |] eqn:Hf; [| left; split; [left |]; reflexivity].
  destruct (Multi.canvasRef st) as [c |] eqn:Hc; [| left; split; [right |]; reflexivity].
  right; exists f, c; split; [reflexivity | split; [reflexivity |]].
  destruct (Multi.exportFormat st).
  - destruct (Multi.exportPdf w st f) as [d | e |] eqn:Hbody.
    + left. unfold Multi.exportPdf in Hbody.
      apply bind_Ret_inv in Hbody as (doc & _ & Hbody).
      apply bind_Ret_inv in Hbody as (b & _ & Hbody).
      inversion Hbody; subst d. eexists _, _; reflexivity.
    + right; left; exists e; reflexivity.
    + right; right; reflexivity.
  - destruct (Multi.exportImage w st f) as [d | e |] eqn:Hbody.
    + left. unfold Multi.exportImage in Hbody.
      apply bind_Ret_inv in Hbody as (c0 & _ & Hbody).
      inversion Hbody; subst d. eexists _, _; reflexivity.
    + right; left; exists e; reflexivity.
    + right; right; reflexivity.
  - destruct (Multi.exportImage w st f) as [d | e |] eqn:Hbody.
    + left. unfold Multi.exportImage in Hbody.
      apply bind_Ret_inv in Hbody as (c0 & _ & Hbody).
      inversion Hbody; subst d. eexists _, _; reflexivity.
    + right; left; exists e; reflexivity.
    + right; right; reflexivity.
Qed.

Lemma multi_setIsExporting_twice (a b : bool) (st : Multi.State N) :
  Multi.setIsExporting a (Multi.setIsExporting b st) = Multi.setIsExporting a st.
Proof. reflexivity. Qed.

Lemma multi_setIsExporting_same (st : Multi.State N) :
  Multi.setIsExporting (Multi.isExporting st) st = st.
Proof. destruct st; reflexivity. Qed.
End ExportRuns.

(** C5.  Whatever the collaborators do, a run of the multi-overlay
    [handleExport] leaves the document file (its bytes included), the
    overlay store and every other part of the state as they were, the
    flag [isExporting] apart.  A run that passes the guard and comes to
    an end, whether by delivering or through the [catch], ends with
    [isExporting = false].  A run that reports an error downloads
    nothing, and gives back the very state it started from when no other
    export was in flight. *)
Theorem failed_export_leaves_state (N : Type) (HN : JsNumber N)
    (w : World N) (st : Multi.State N) :
  let run := Multi.handleExport w st in
  (Multi.pdfFile (final run) = Multi.pdfFile st /\
   option_map content (Multi.pdfFile (final run)) = option_map content (Multi.pdfFile st) /\
   Multi.overlayImages (final run) = Multi.overlayImages st /\
   Multi.setIsExporting (Multi.isExporting st) (final run) = st)
  /\
  (forall f c,
      Multi.pdfFile st = Some f -> Multi.canvasRef st = Some c ->
      settled run = true -> Multi.isExporting (final run) = false)
  /\
  (forall msg,
      In (Alert msg) (effects run) ->
      settled run = true /\
      Multi.isExporting (final run) = false /\
      (forall name href, ~ In (Download name href) (effects run)) /\
      (Multi.isExporting st = false -> final run = st)).
Proof.
  intros run.
  destruct (multi_export_cases w st) as
    [[Hguard Hrun] | (f & c & Hf & Hc & [(name & href & Hrun) | [(e & Hrun) | Hrun]])];
    fold run in Hrun; rewrite Hrun; cbn [final effects settled].
  - split; [| split].
    + repeat split. apply multi_setIsExporting_same.
    + intros f c Hf Hc _. destruct Hguard; congruence.
    + intros msg [].
  - split; [| split].
    + rewrite !multi_setIsExporting_twice. repeat split. apply multi_setIsExporting_same.
    + reflexivity.
    + intros msg [Hin | []]; discriminate.
  - split; [| split].
    + rewrite !multi_setIsExporting_twice. repeat split. apply multi_setIsExporting_same.
    + reflexivity.
    + intros msg _. split; [reflexivity |]. split; [reflexivity |]. split.
      * intros name href [Hin | [Hin | []]]; discriminate.
      * intros Hflag. rewrite multi_setIsExporting_twice, <- Hflag.
        apply multi_setIsExporting_same.
  - split; [| split].
    + rewrite !multi_setIsExporting_twice. repeat split. apply multi_setIsExporting_same.
    + intros f0 c0 _ _ Hs; discriminate.
    + intros msg [].
Qed.

Lemma failed_export_leaves_state_witness :
  final (Multi.handleExport Sample.corruptPng (Sample.placed (N:=Q))) = Sample.placed.
Proof.
  pose proof (@failed_export_leaves_state Q _ Sample.corruptPng Sample.placed) as Hrun.
  cbv zeta in Hrun. destruct Hrun as (_ & _ & Hfailed).
  apply (Hfailed "Failed to export. The input is not a PNG file!").
  - vm_compute. right; left; reflexivity.
  - reflexivity.
Defined.

(** A run of the image branch never comes to an end when an overlay
    does not load: the promise awaits [onload] only.  The flag then
    stays set. *)
Lemma raster_export_pending_on_broken_image :
  let run :=
    Multi.handleExport Sample.brokenImages
      (Multi.setExportFormat jpg (Sample.placed (N:=Q))) in
  settled run = false /\ Multi.isExporting (final run) = true /\ effects run = [].
Proof. vm_compute. repeat split. Qed.

(** ** Store order *)

Section StoreOrder.
Context {N : Type} `{JsNumber N}.

Lemma upload_appends (mkUrl : nat -> File -> string) (rnd : nat -> string)
    (files : list File) (st : Multi.State N) :
  Multi.overlayImages (fst (Multi.handleImageUpload mkUrl rnd files st)) =
  Multi.overlayImages st ++ Multi.collectImages mkUrl rnd files [].
Proof.
  unfold Multi.handleImageUpload.
  destruct (Multi.collectImages mkUrl rnd files []) as [| o rest]; simpl.
  - rewrite app_nil_r; reflexivity.
  - reflexivity.
Qed.

Lemma update_keeps_order (i : string) (newPos : PartialPos N) (st : Multi.State N) :
  map (fun o => (Multi.id o, Multi.file o, Multi.previewUrl o))
      (Multi.overlayImages (Multi.updateImagePos i newPos st)) =
  map (fun o => (Multi.id o, Multi.file o, Multi.previewUrl o)) (Multi.overlayImages st).
Proof.
  unfold Multi.updateImagePos; simpl. rewrite map_map. apply map_ext.
  intros o; destruct (String.eqb (Multi.id o) i); reflexivity.
Qed.

Lemma updates_keep_order (updates : list (string * PartialPos N)) :
  forall st : Multi.State N,
    map (fun o => (Multi.id o, Multi.file o, Multi.previewUrl o))
        (Multi.overlayImages (applyUpdates updates st)) =
    map (fun o => (Multi.id o, Multi.file o, Multi.previewUrl o)) (Multi.overlayImages st).
Proof.
  unfold applyUpdates. induction updates as [| u rest IH]; intros st; simpl.
  - reflexivity.
  - rewrite IH. apply update_keeps_order.
Qed.

Lemma draws_follow_store (w : World N) (st : Multi.State N) (composed : Canvas N) :
  Multi.composedSurface w st = Ret composed ->
  map fst (imageDraws (ops composed)) = map Multi.previewUrl (Multi.overlayImages st).
Proof.
  intros Hc. apply multi_surface in Hc as (doc & page & _ & _ & _ & _ & Hops).
  rewrite Hops; simpl. rewrite imageDraws_drawn, map_map. reflexivity.
Qed.
End StoreOrder.

Section Sessions.
Context {N : Type} `{JsNumber N}.

Lemma updates_keep_urls (updates : list (string * PartialPos N)) (st : Multi.State N) :
  map Multi.previewUrl (Multi.overlayImages (applyUpdates updates st)) =
  map Multi.previewUrl (Multi.overlayImages st).
Proof.
  pose proof (updates_keep_order updates st) as Hkeep.
  apply (f_equal (map snd)) in Hkeep. rewrite !map_map in Hkeep. exact Hkeep.
Qed.

Lemma playRound_urls (st : Multi.State N) (r : Round N) :
  map Multi.previewUrl (Multi.overlayImages (playRound st r)) =
  map Multi.previewUrl (Multi.overlayImages st) ++ roundUrls r.
Proof.
  unfold playRound, roundUrls.
  rewrite updates_keep_urls, upload_appends, map_app. reflexivity.
Qed.

Lemma session_urls (rounds : list (Round N)) :
  forall st : Multi.State N,
    map Multi.previewUrl (Multi.overlayImages (session rounds st)) =
    map Multi.previewUrl (Multi.overlayImages st) ++ flat_map roundUrls rounds.
Proof.
  unfold session. induction rounds as [| r rest IH]; intros st; simpl.
  - rewrite app_nil_r; reflexivity.
  - rewrite IH, playRound_urls, <- app_assoc. reflexivity.
Qed.
End Sessions.

(** C6.  The image branch calls [drawImage] once per overlay in the
    order of [overlayImages], and that order is insertion order: an
    upload appends the accepted files, in the order given, behind what the
    store holds, and no drag or resize moves an entry.  So after any
    session of uploads and moves the overlays are painted in the order of
    their upload, whatever their rectangles have become: uploaded as A, B,
    C they are painted A, then B, then C. *)
Theorem raster_composites_in_insertion_order (N : Type) (HN : JsNumber N)
    (w : World N) (st : Multi.State N) (rounds : list (Round N)) (composed : Canvas N) :
  Multi.composedSurface w (session rounds st) = Ret composed ->
  map fst (imageDraws (ops composed)) =
    map Multi.previewUrl (Multi.overlayImages (session rounds st))
  /\
  map fst (imageDraws (ops composed)) =
    map Multi.previewUrl (Multi.overlayImages st) ++ flat_map roundUrls rounds.
Proof.
  intros Hc. pose proof (draws_follow_store w (session rounds st) Hc) as Hdraws.
  split; [exact Hdraws |]. rewrite Hdraws. apply session_urls.
Qed.

Lemma raster_composites_in_insertion_order_witness :
  map fst (imageDraws (ops (Sample.composite3 (N:=Q)))) = ["blob:A"; "blob:B"; "blob:C"].
Proof.
  apply (@raster_composites_in_insertion_order Q _ Sample.world Sample.loaded
           [Sample.uploadA; Sample.uploadB; Sample.uploadC] Sample.composite3).
  vm_compute; reflexivity.
Defined.

(** ** Intake *)

Section Intake.
Context {N : Type} `{JsNumber N}.

Lemma collectImages_files (mkUrl : nat -> File -> string) (rnd : nat -> string)
    (files : list File) :
  forall newImages : list (Multi.OverlayImage N),
    map Multi.file (Multi.collectImages mkUrl rnd files newImages) =
    map Multi.file newImages ++ filter (fun f => startsWith (type f) "image/") files.
Proof.
  induction files as [| f rest IH]; intros newImages; simpl.
  - rewrite app_nil_r; reflexivity.
  - destruct (startsWith (type f) "image/").
    + rewrite IH, map_app, <- app_assoc. reflexivity.
    + apply IH.
Qed.

Lemma multi_upload_files (mkUrl : nat -> File -> string) (rnd : nat -> string)
    (files : list File) (st : Multi.State N) :
  map Multi.file (Multi.overlayImages (fst (Multi.handleImageUpload mkUrl rnd files st))) =
  map Multi.file (Multi.overlayImages st)
  ++ filter (fun f => startsWith (type f) "image/") files.
Proof.
  rewrite upload_appends, map_app, collectImages_files. reflexivity.
Qed.

Lemma multi_upload_alert (mkUrl : nat -> File -> string) (rnd : nat -> string)
    (files : list File) (st : Multi.State N) :
  snd (Multi.handleImageUpload mkUrl rnd files st) =
  match filter (fun f => startsWith (type f) "image/") files with
  | [] => [Alert "Please select valid image files."]
  | _ :: _ => []
  end.
Proof.
  unfold Multi.handleImageUpload.
  pose proof (collectImages_files mkUrl rnd files []) as Hfiles. simpl in Hfiles.
  destruct (Multi.collectImages mkUrl rnd files []) as [| o rest];
    destruct (filter (fun f => startsWith (type f) "image/") files);
    simpl in *; try discriminate; reflexivity.
Qed.

Lemma filter_filter_same {A : Type} (p : A -> bool) (l : list A) :
  filter p (filter p l) = filter p l.
Proof.
  induction l as [| a rest IH]; simpl; [reflexivity |].
  destruct (p a) eqn:Hp; simpl; rewrite ?Hp, IH; reflexivity.
Qed.

Lemma multi_pdf_upload_store (file : option File) (st : Multi.State N) :
  Multi.overlayImages (fst (Multi.handlePdfUpload file st)) = Multi.overlayImages st.
Proof.
  unfold Multi.handlePdfUpload. destruct file as [f |]; [| reflexivity].
  destruct (String.eqb (type f) "application/pdf"); reflexivity.
Qed.

Lemma multi_drop_files (mkUrl : nat -> File -> string) (rnd : nat -> string)
    (files : list File) (st : Multi.State N) :
  map Multi.file (Multi.overlayImages (fst (Multi.handleDrop mkUrl rnd files st))) =
  map Multi.file (Multi.overlayImages st)
  ++ filter (fun f => startsWith (type f) "image/") files.
Proof.
  unfold Multi.handleDrop. destruct files as [| f0 rest]; [simpl; rewrite app_nil_r; reflexivity |].
  set (files := f0 :: rest).
  set (s0 := Multi.setIsDraggingOver false st).
  assert (Hpdf : exists s1 e1,
             match find (fun f => String.eqb (type f) "application/pdf") files with
             | Some f => Multi.handlePdfUpload (Some f) s0
             | None => (s0, [])
             end = (s1, e1) /\ Multi.overlayImages s1 = Multi.overlayImages st).
  { destruct (find (fun f => String.eqb (type f) "application/pdf") files) as [f |].
    - exists (fst (Multi.handlePdfUpload (Some f) s0)), (snd (Multi.handlePdfUpload (Some f) s0)).
      split; [destruct (Multi.handlePdfUpload (Some f) s0); reflexivity |].
      rewrite multi_pdf_upload_store; reflexivity.
    - exists s0, []; split; reflexivity. }
  destruct Hpdf as (s1 & e1 & -> & Hstore).
  destruct (filter (fun f => startsWith (type f) "image/") files) as [| i0 irest] eqn:Himg.
  - simpl. rewrite app_nil_r, Hstore; reflexivity.
  - cbn [List.length Nat.ltb Nat.leb].
    pose proof (multi_upload_files mkUrl rnd (i0 :: irest) s1) as Hup.
    destruct (Multi.handleImageUpload mkUrl rnd (i0 :: irest) s1) as [s2 e2].
    simpl fst in *. rewrite Hup, Hstore, <- Himg, filter_filter_same. reflexivity.
Qed.
(** A drop raises no notice: its PDF, if any, passes the type test of
    [handlePdfUpload], and the files it hands to [handleImageUpload] are
    all images. *)
Lemma multi_drop_notices (mkUrl : nat -> File -> string) (rnd : nat -> string)
    (files : list File) (st : Multi.State N) :
  snd (Multi.handleDrop mkUrl rnd files st) = [].
Proof.
  unfold Multi.handleDrop.
  destruct files as [| f0 rest]; [reflexivity |].
  set (files := f0 :: rest).
  destruct (find (fun f => String.eqb (type f) "application/pdf") files) as [f |] eqn:Hfind.
  - apply find_some in Hfind as [_ Htype].
    unfold Multi.handlePdfUpload. rewrite Htype.
    pose proof (multi_upload_alert mkUrl rnd
                  (filter (fun f => startsWith (type f) "image/") files)
                  (Multi.setPdfFile (Some f) (Multi.setIsDraggingOver false st))) as Halert.
    rewrite filter_filter_same in Halert.
    destruct (filter (fun f => startsWith (type f) "image/") files) as [| i0 irest] eqn:Himg;
      [reflexivity |].
    cbn [List.length Nat.ltb Nat.leb].
    unfold Multi.handleImageUpload in *.
    destruct (Multi.collectImages mkUrl rnd (i0 :: irest) []) as [| o os];
      [discriminate Halert | reflexivity].
  - pose proof (multi_upload_alert mkUrl rnd
                  (filter (fun f => startsWith (type f) "image/") files)
                  (Multi.setIsDraggingOver false st)) as Halert.
    rewrite filter_filter_same in Halert.
    destruct (filter (fun f => startsWith (type f) "image/") files) as [| i0 irest] eqn:Himg;
      [reflexivity |].
    cbn [List.length Nat.ltb Nat.leb].
    unfold Multi.handleImageUpload in *.
    destruct (Multi.collectImages mkUrl rnd (i0 :: irest) []) as [| o os];
      [discriminate Halert | reflexivity].
Qed.

(** A file that fails the test is in the store afterwards only if it
    was there before. *)
Lemma not_image_not_added (files : list File) (before after : list File) (f : File) :
  after = before ++ filter (fun f => startsWith (type f) "image/") files ->
  startsWith (type f) "image/" = false ->
  In f after -> In f before.
Proof.
  intros -> Hf Hin. apply in_app_or in Hin as [Hin | Hin]; [exact Hin |].
  apply filter_In in Hin as [_ Hacc]. rewrite Hf in Hacc; discriminate.
Qed.
End Intake.

(** C7, as the code has it.  Intake admits exactly the files whose type
    starts with [image/], in the order given, whatever follows the slash:
    after an upload or a drop in the multi-overlay variant the store
    holds what it held, followed by those files, and a file of another
    type is in it only if it was there before.  An upload is answered
    with an alert only when it contains no such file; a drop is never
    answered with one.  The single-overlay variant takes its one file on
    the same test, and answers a missing file or one of another type
    with an alert, changing nothing. *)
Theorem intake_accepts_every_image_type (N : Type) (HN : JsNumber N)
    (mkUrl : nat -> File -> string) (rnd : nat -> string) (files : list File) :
  (forall st : Multi.State N,
      map Multi.file (Multi.overlayImages (fst (Multi.handleImageUpload mkUrl rnd files st))) =
      map Multi.file (Multi.overlayImages st)
      ++ filter (fun f => startsWith (type f) "image/") files)
  /\
  (forall st : Multi.State N,
      snd (Multi.handleImageUpload mkUrl rnd files st) =
      match filter (fun f => startsWith (type f) "image/") files with
      | [] => [Alert "Please select valid image files."]
      | _ :: _ => []
      end)
  /\
  (forall st : Multi.State N,
      map Multi.file (Multi.overlayImages (fst (Multi.handleDrop mkUrl rnd files st))) =
      map Multi.file (Multi.overlayImages st)
      ++ filter (fun f => startsWith (type f) "image/") files)
  /\
  (forall (url : string) (f : File) (st : Single.State N),
      Single.handleImageUpload url (Some f) st =
      if startsWith (type f) "image/" then
        (Single.setImagePos (fun _ => Single.defaultPos)
           (Single.setImagePreviewUrl (Some url) (Single.setImageFile (Some f) st)), [])
      else (st, [Alert "Please select a valid image file."]))
  /\
  (forall st : Multi.State N, snd (Multi.handleDrop mkUrl rnd files st) = [])
  /\
  (forall (st : Multi.State N) (f : File),
      startsWith (type f) "image/" = false ->
      (In f (map Multi.file
               (Multi.overlayImages (fst (Multi.handleImageUpload mkUrl rnd files st)))) ->
       In f (map Multi.file (Multi.overlayImages st)))
      /\
      (In f (map Multi.file
               (Multi.overlayImages (fst (Multi.handleDrop mkUrl rnd files st)))) ->
       In f (map Multi.file (Multi.overlayImages st))))
  /\
  (forall (url : string) (st : Single.State N),
      Single.handleImageUpload url None st =
      (st, [Alert "Please select a valid image file."]))
  /\
  (forall (url : string) (f : File) (st : Single.State N),
      Single.imageFile (fst (Single.handleImageUpload url (Some f) st)) =
      if startsWith (type f) "image/" then Some f else Single.imageFile st).
Proof.
  split; [| split; [| split; [| split; [| split; [| split; [| split]]]]]].
  - intros st; apply multi_upload_files.
  - intros st; apply multi_upload_alert.
  - intros st; apply multi_drop_files.
  - intros url f st; reflexivity.
  - intros st; apply multi_drop_notices.
  - intros st f Hf. split; apply (not_image_not_added files); try exact Hf.
    + apply multi_upload_files.
    + apply multi_drop_files.
  - intros url st; reflexivity.
  - intros url f st. simpl. destruct (startsWith (type f) "image/"); reflexivity.
Qed.

(** A GIF goes through intake without any notice: uploaded in either
    variant, or dropped among other files in the multi-overlay one. *)
Lemma gif_enters_the_store :
  type Sample.anim = "image/gif" /\
  (let '(st, notices) :=
     Multi.handleImageUpload Sample.mkUrl Sample.rnd [Sample.anim] (Sample.loaded (N:=Q)) in
   map Multi.file (Multi.overlayImages st) = [Sample.anim] /\ notices = []) /\
  (let '(st, notices) :=
     Multi.handleDrop Sample.mkUrl Sample.rnd [Sample.notes; Sample.anim]
       (Sample.loaded (N:=Q)) in
   map Multi.file (Multi.overlayImages st) = [Sample.anim] /\ notices = []) /\
  (let '(st, notices) :=
     Single.handleImageUpload "blob:anim" (Some Sample.anim) (Sample.loaded1 (N:=Q)) in
   Single.imageFile st = Some Sample.anim /\ notices = []).
Proof. vm_compute. repeat split. Qed.

(** What that GIF meets later with the sample collaborators, where
    every image loads: the PDF branch refuses it, the image branch paints
    it. *)
Lemma gif_fails_only_the_pdf_export :
  let st := fst (Multi.handleImageUpload Sample.mkUrl Sample.rnd [Sample.anim]
                   (Sample.loaded (N:=Q))) in
  effects (Multi.handleExport Sample.world st) =
    [ConsoleError "Export error:"
       (newError "Unsupported image format. Please use PNG or JPEG.");
     Alert "Failed to export. Unsupported image format. Please use PNG or JPEG."]
  /\
  exists href,
    effects (Multi.handleExport Sample.world (Multi.setExportFormat png st)) =
      [Download "report_page1.png" href].
Proof. vm_compute. split; [reflexivity | eexists; reflexivity]. Qed.

(** ** The aspect-ratio lock *)

(** C8, as the code has it.  It is the multi-overlay variant that passes
    [lockAspectRatio={true}] to every [Rnd], so that its overlays are
    locked whatever the library's default; the single-overlay variant
    passes no such prop and leaves the matter to that default. *)
Theorem aspect_lock_by_variant (N : Type) (HN : JsNumber N) (libraryDefault : bool) :
  (forall o : Multi.OverlayImage N,
      lockAspectRatio (Multi.rndProps o) = Some true /\
      aspectLocked libraryDefault (Multi.rndProps o) = true)
  /\
  (forall st : Single.State N,
      option_map (@lockAspectRatio N) (Single.rndProps st) =
        (if truthy (Single.imagePreviewUrl st) then Some None else None) /\
      option_map (aspectLocked libraryDefault) (Single.rndProps st) =
        (if truthy (Single.imagePreviewUrl st) then Some libraryDefault else None)).
Proof.
  split.
  - intros o; split; reflexivity.
  - intros st; unfold Single.rndProps.
    destruct (truthy (Single.imagePreviewUrl st)); split; reflexivity.
Qed.

(** With react-rnd's default of an unlocked aspect ratio the overlay of
    the single-overlay variant is not locked, and those of the
    multi-overlay variant are. *)
Lemma lock_is_on_the_multi_overlay_variant :
  map (aspectLocked false) (map Multi.rndProps (Multi.overlayImages (Sample.placed (N:=Q))))
  = [true]
  /\ option_map (aspectLocked false) (Single.rndProps (Sample.placed1 (N:=Q))) = Some false.
Proof. vm_compute. split; reflexivity. Qed.

(** ** Clearing the document *)

Section Clearing.
Context {N : Type} `{JsNumber N}.

Lemma multi_loadPdf_store (w : World N) (isMounted : bool) (st : Multi.State N) :
  Multi.overlayImages (fst (Multi.loadPdf w isMounted st)) = Multi.overlayImages st.
Proof.
  unfold Multi.loadPdf. destruct (Multi.pdfFile st) as [f |]; [| reflexivity].
  destruct (bind _ _) as [doc | e |]; [destruct isMounted | |]; reflexivity.
Qed.

Lemma single_loadPdf_image (w : World N) (isMounted : bool) (st : Single.State N) :
  Single.imageFile (fst (Single.loadPdf w isMounted st)) = Single.imageFile st /\
  Single.imagePreviewUrl (fst (Single.loadPdf w isMounted st)) = Single.imagePreviewUrl st /\
  Single.imagePos (fst (Single.loadPdf w isMounted st)) = Single.imagePos st.
Proof.
  unfold Single.loadPdf. destruct (Single.pdfFile st) as [f |]; [| repeat split].
  destruct (bind _ _) as [doc | e |]; [destruct isMounted | |]; repeat split.
Qed.

Lemma removeImage_spec (i : string) (st : Multi.State N) :
  Multi.overlayImages (Multi.removeImage i st) =
  filter (fun o => negb (String.eqb (Multi.id o) i)) (Multi.overlayImages st).
Proof. reflexivity. Qed.
Lemma single_pdf_upload_image (file : option File) (st : Single.State N) :
  Single.imageFile (fst (Single.handlePdfUpload file st)) = Single.imageFile st /\
  Single.imagePreviewUrl (fst (Single.handlePdfUpload file st)) = Single.imagePreviewUrl st /\
  Single.imagePos (fst (Single.handlePdfUpload file st)) = Single.imagePos st.
Proof.
  unfold Single.handlePdfUpload. destruct file as [f |]; [| repeat split].
  destruct (String.eqb (type f) "application/pdf"); repeat split.
Qed.
End Clearing.

(** C9, as the code has it.  Removing the document resets
    [pdfDocProxy] to none, [numPages] to 0 and [currentPage] to 1, and
    leaves the overlay store as it is.  Choosing another document leaves
    the store as it is too, whether or not that document loads; when it
    loads, [pdfDocProxy] is the new document, [numPages] its page count
    and [currentPage] 1.  In the single-overlay variant the image, its
    preview and its position are kept in the same way.  A placement
    leaves the store through [removeImage], which drops every entry
    carrying that identifier and keeps the others in their order. *)
Theorem placements_survive_document_removal (N : Type) (HN : JsNumber N) (w : World N) :
  (forall st : Multi.State N,
      let cleared := fst (Multi.removePdf w st) in
      Multi.overlayImages cleared = Multi.overlayImages st /\
      Multi.pdfFile cleared = None /\ Multi.pdfDocProxy cleared = None /\
      Multi.numPages cleared = 0%Z /\ Multi.currentPage cleared = 1%Z)
  /\
  (forall (st : Multi.State N) (file : option File) (isMounted : bool),
      Multi.overlayImages
        (fst (Multi.loadPdf w isMounted (fst (Multi.handlePdfUpload file st)))) =
      Multi.overlayImages st)
  /\
  (forall st : Single.State N,
      let cleared := fst (Single.removePdf w st) in
      Single.imageFile cleared = Single.imageFile st /\
      Single.imagePreviewUrl cleared = Single.imagePreviewUrl st /\
      Single.imagePos cleared = Single.imagePos st /\
      Single.pdfFile cleared = None)
  /\
  (forall (st : Multi.State N) (i : string),
      Multi.overlayImages (Multi.removeImage i st) =
        filter (fun o => negb (String.eqb (Multi.id o) i)) (Multi.overlayImages st) /\
      ~ In i (map Multi.id (Multi.overlayImages (Multi.removeImage i st))))
  /\
  (forall (st : Multi.State N) (f : File) (doc : PDFDocumentProxy N),
      type f = "application/pdf" ->
      readable w f = true ->
      pdfjs_getDocument w (content f) = Ret doc ->
      let replaced := fst (Multi.loadPdf w true (fst (Multi.handlePdfUpload (Some f) st))) in
      Multi.overlayImages replaced = Multi.overlayImages st /\
      Multi.pdfFile replaced = Some f /\ Multi.pdfDocProxy replaced = Some doc /\
      Multi.numPages replaced = proxyNumPages doc /\ Multi.currentPage replaced = 1%Z)
  /\
  (forall (st : Single.State N) (file : option File) (isMounted : bool),
      let replaced :=
        fst (Single.loadPdf w isMounted (fst (Single.handlePdfUpload file st))) in
      Single.imageFile replaced = Single.imageFile st /\
      Single.imagePreviewUrl replaced = Single.imagePreviewUrl st /\
      Single.imagePos replaced = Single.imagePos st)
  /\
  (forall (st : Single.State N) (f : File) (doc : PDFDocumentProxy N),
      type f = "application/pdf" ->
      readable w f = true ->
      pdfjs_getDocument w (content f) = Ret doc ->
      let replaced :=
        fst (Single.loadPdf w true (fst (Single.handlePdfUpload (Some f) st))) in
      Single.pdfFile replaced = Some f /\ Single.pdfDocProxy replaced = Some doc /\
      Single.numPages replaced = proxyNumPages doc /\ Single.currentPage replaced = 1%Z)
  /\
  (forall st : Single.State N,
      let cleared := fst (Single.removePdf w st) in
      Single.pdfDocProxy cleared = None /\
      Single.numPages cleared = 0%Z /\ Single.currentPage cleared = 1%Z).
Proof.
  split; [| split; [| split; [| split; [| split; [| split; [| split]]]]]].
  - intros st. cbv zeta. repeat split.
  - intros st file isMounted.
    rewrite multi_loadPdf_store. apply multi_pdf_upload_store.
  - intros st. cbv zeta. repeat split.
  - intros st i. split; [reflexivity |].
    rewrite removeImage_spec, in_map_iff. intros (o & Hid & Hin).
    apply filter_In in Hin as (_ & Hne). subst i.
    rewrite String.eqb_refl in Hne. discriminate.
  - intros st f doc Htype Hread Hload. cbv zeta.
    unfold Multi.handlePdfUpload. rewrite Htype, String.eqb_refl. cbn [fst].
    unfold Multi.loadPdf. cbn [Multi.pdfFile Multi.setPdfFile].
    unfold arrayBuffer. rewrite Hread. cbn [bind]. rewrite Hload. repeat split.
  - intros st file isMounted. cbv zeta.
    destruct (single_loadPdf_image w isMounted (fst (Single.handlePdfUpload file st)))
      as (Hf & Hu & Hp).
    destruct (single_pdf_upload_image file st) as (Hf' & Hu' & Hp').
    rewrite Hf, Hu, Hp, Hf', Hu', Hp'. repeat split.
  - intros st f doc Htype Hread Hload. cbv zeta.
    unfold Single.handlePdfUpload. rewrite Htype, String.eqb_refl. cbn [fst].
    unfold Single.loadPdf. cbn [Single.pdfFile Single.setPdfFile].
    unfold arrayBuffer. rewrite Hread. cbn [bind]. rewrite Hload. repeat split.
  - intros st. cbv zeta. repeat split.
Qed.

(** Removing the document from under a placed overlay: the store still
    holds the overlay. *)
Lemma overlay_outlives_the_document :
  let cleared := fst (Multi.removePdf Sample.world (Sample.placed (N:=Q))) in
  Multi.pdfFile cleared = None /\
  Multi.overlayImages cleared = Multi.overlayImages Sample.placed /\
  map Multi.file (Multi.overlayImages cleared) = [Sample.logo] /\
  Multi.overlayImages cleared <> [].
Proof. vm_compute. repeat split. discriminate. Qed.

(** Replacing the document under a placed overlay by a three-page one:
    the editor shows the new document from its first page, and the store
    still holds the overlay. *)
Lemma overlay_outlives_a_replacement :
  Multi.pdfFile (Sample.replaced (N:=Q)) = Some Sample.draft /\
  Multi.pdfDocProxy (Sample.replaced (N:=Q)) = Some Sample.bookletProxy /\
  Multi.numPages (Sample.replaced (N:=Q)) = 3%Z /\
  Multi.currentPage (Sample.replaced (N:=Q)) = 1%Z /\
  Multi.overlayImages (Sample.replaced (N:=Q)) = Multi.overlayImages Sample.placed /\
  Single.pdfDocProxy (Sample.replaced1 (N:=Q)) = Some Sample.bookletProxy /\
  Single.numPages (Sample.replaced1 (N:=Q)) = 3%Z /\
  Single.imageFile (Sample.replaced1 (N:=Q)) = Some Sample.logo /\
  Single.imagePos (Sample.replaced1 (N:=Q)) = Single.imagePos Sample.placed1.
Proof. vm_compute. repeat split. Qed.

(** ** The guard of export *)

(** C10.  Without a document (in the single-overlay variant also
    without an image, or without its preview) [handleExport] returns at
    once: the run is over, nothing was thrown or reported, nothing was
    downloaded, and the state is the one it was called with, the flag
    [isExporting] included. *)
Theorem export_without_document_is_a_no_op (N : Type) (HN : JsNumber N) (w : World N) :
  (forall st : Multi.State N,
      Multi.pdfFile st = None ->
      Multi.handleExport w st = {| final := st; effects := []; settled := true |} /\
      (Multi.isExporting st = false ->
       Multi.isExporting (final (Multi.handleExport w st)) = false))
  /\
  (forall st : Single.State N,
      Single.pdfFile st = None \/ Single.imageFile st = None
      \/ truthy (Single.imagePreviewUrl st) = false ->
      Single.handleExport w st = {| final := st; effects := []; settled := true |} /\
      (Single.isExporting st = false ->
       Single.isExporting (final (Single.handleExport w st)) = false)).
Proof.
  split.
  - intros st Hnone. unfold Multi.handleExport. rewrite Hnone. split; [reflexivity |].
    intros Hflag; exact Hflag.
  - intros st Hnone.
    assert (Hrun : Single.handleExport w st =
                   {| final := st; effects := []; settled := true |}).
    { unfold Single.handleExport.
      destruct (Single.pdfFile st) as [f |]; [| reflexivity].
      destruct (Single.imageFile st) as [image |]; [| reflexivity].
      destruct (Single.canvasRef st) as [c |]; [| reflexivity].
      destruct Hnone as [Hn | [Hn | Hn]]; try discriminate.
      rewrite Hn. reflexivity. }
    rewrite Hrun. split; [reflexivity |]. intros Hflag; exact Hflag.
Qed.

Lemma export_without_document_is_a_no_op_witness :
  Multi.handleExport Sample.world (Sample.mounted (N:=Q)) =
  {| final := Sample.mounted; effects := []; settled := true |}.
Proof.
  apply (proj1 (@export_without_document_is_a_no_op Q _ Sample.world) Sample.mounted).
  reflexivity.
Defined.

(** ** The same runs in binary64

    With IEEE-754 doubles in place of rationals the handlers compute the
    figures below for the 612 by 792 page in the 800 by 600 container.
    The round trip through document space is then off by a few units in
    the last place, and dividing before multiplying differs from
    multiplying by the quotient. *)

Lemma binary64_scenario :
  let st := Sample.placed (N:=PrimFloat.float) in
  F64.close (F64.decimal 5 5) (Multi.renderScale st) (F64.decimal 7071 4) = true /\
  match pageAt (getPages (Sample.document (N:=PrimFloat.float))) 0 with
  | Some page =>
      match drawn page with
      | [(_, r)] =>
          F64.close (F64.decimal 1 9) (x r) (PrimFloat.div (F64.of_Z 495) (F64.of_Z 7))
          && F64.close (F64.decimal 1 9) (y r) (PrimFloat.div (F64.of_Z 3564) (F64.of_Z 7))
          && F64.close (F64.decimal 1 9) (width r) (PrimFloat.div (F64.of_Z 1485) (F64.of_Z 7))
          && F64.close (F64.decimal 1 9) (height r) (PrimFloat.div (F64.of_Z 1485) (F64.of_Z 7))
          && F64.close (F64.decimal 2 2) (x r) (F64.decimal 7071 2)
          && F64.close (F64.decimal 2 2) (y r) (F64.decimal 50916 2)
          && F64.close (F64.decimal 2 2) (width r) (F64.decimal 21213 2)
          && F64.close (F64.decimal 2 2) (height r) (F64.decimal 21213 2)
          = true
      | _ => False
      end
  | None => False
  end.
Proof. vm_compute. split; reflexivity. Qed.

Lemma binary64_round_trip :
  let s := Multi.renderScale (Sample.placed (N:=PrimFloat.float)) in
  let h := F64.of_Z 792 in
  let back := toDisplaySpace (toDocumentSpace Single.defaultPos s h) s h in
  F64.close (F64.decimal 1 9) (x back) (F64.of_Z 50) = true /\
  F64.close (F64.decimal 1 9) (y back) (F64.of_Z 50) = true /\
  PrimFloat.eqb (width back) (F64.of_Z 150) = true /\
  PrimFloat.eqb (height back) (F64.of_Z 150) = true /\
  PrimFloat.eqb (x back) (F64.of_Z 50) = false.
Proof. vm_compute. repeat split. Qed.

Lemma binary64_raster_factor :
  let s := Multi.renderScale (Sample.placed (N:=PrimFloat.float)) in
  let code := toRasterSpace Single.defaultPos s Multi.exportScale in
  let quotient := spec_toRasterSpace Single.defaultPos s Multi.exportScale in
  F64.close (F64.decimal 1 9) (x code) (x quotient) = true /\
  PrimFloat.eqb (x code) (x quotient) = false /\
  PrimFloat.eqb (width code) (width quotient) = true.
Proof. vm_compute. repeat split. Qed.

(** * Further properties of the handlers *)

(** ** What the render step leaves in the state *)

Section RenderedView.
Context {N : Type} `{JsNumber N}.

Lemma multi_render_view (w : World N) (st : Multi.State N)
    (doc : PDFDocumentProxy N) (page : PDFPageProxy N) (el : Element) (c : Canvas N) :
  Multi.pdfDocProxy st = Some doc ->
  Multi.canvasRef st = Some c ->
  Multi.containerRef st = Some el ->
  getPage doc (Multi.currentPage st) = Ret page ->
  let st' := fst (Multi.renderPage w true st) in
  Multi.originalDimensions st' =
    {| dim_width := nmul (viewWidth page) (ofZ 1);
       dim_height := nmul (viewHeight page) (ofZ 1) |} /\
  Multi.pageDimensions st' =
    {| dim_width := nmul (viewWidth page) (Multi.renderScale st');
       dim_height := nmul (viewHeight page) (Multi.renderScale st') |}.
Proof.
  intros Hdoc Hcanvas Hel Hpage. cbv zeta. unfold Multi.renderPage.
  rewrite Hdoc, Hcanvas, Hel, Hpage. cbn [Multi.canvasRef Multi.setPageDimensions
    Multi.setRenderScale Multi.setOriginalDimensions]. rewrite Hcanvas.
  destruct (getContext2d w); cbn [negb]; [| split; reflexivity].
  destruct (pdfjs_render w page _); split; reflexivity.
Qed.

Lemma single_render_view (w : World N) (st : Single.State N)
    (doc : PDFDocumentProxy N) (page : PDFPageProxy N) (el : Element) (c : Canvas N) :
  Single.pdfDocProxy st = Some doc ->
  Single.canvasRef st = Some c ->
  Single.containerRef st = Some el ->
  getPage doc (Single.currentPage st) = Ret page ->
  let st' := fst (Single.renderPage w true st) in
  Single.originalDimensions st' =
    {| dim_width := nmul (viewWidth page) (ofZ 1);
       dim_height := nmul (viewHeight page) (ofZ 1) |} /\
  Single.pageDimensions st' =
    {| dim_width := nmul (viewWidth page) (Single.renderScale st');
       dim_height := nmul (viewHeight page) (Single.renderScale st') |}.
Proof.
  intros Hdoc Hcanvas Hel Hpage. cbv zeta. unfold Single.renderPage.
  rewrite Hdoc, Hcanvas, Hel, Hpage. cbn [Single.canvasRef Single.setPageDimensions
    Single.setRenderScale Single.setOriginalDimensions]. rewrite Hcanvas.
  destruct (getContext2d w); cbn [negb]; [| split; reflexivity].
  destruct (pdfjs_render w page _); split; reflexivity.
Qed.
End RenderedView.

Lemma fit_bounds (vw vh a b : Q) :
  0 < vw -> 0 < vh -> 0 < a -> 0 < b ->
  let sc := Qmin (a / (vw * 1)) (b / (vh * 1)) in
  0 < sc /\ vw * sc <= a /\ vh * sc <= b /\ (vw * sc == a \/ vh * sc == b).
Proof.
  intros Hvw Hvh Ha Hb sc.
  assert (Hw0 : ~ vw == 0) by (intros E; rewrite E in Hvw; discriminate).
  assert (Hh0 : ~ vh == 0) by (intros E; rewrite E in Hvh; discriminate).
  assert (Hqa : 0 < a / (vw * 1)).
  { apply Qlt_shift_div_l; [rewrite Qmult_1_r; exact Hvw | rewrite Qmult_0_l; exact Ha]. }
  assert (Hqb : 0 < b / (vh * 1)).
  { apply Qlt_shift_div_l; [rewrite Qmult_1_r; exact Hvh | rewrite Qmult_0_l; exact Hb]. }
  assert (Ea : vw * (a / (vw * 1)) == a) by (field; exact Hw0).
  assert (Eb : vh * (b / (vh * 1)) == b) by (field; exact Hh0).
  destruct (Q.min_spec (a / (vw * 1)) (b / (vh * 1))) as [[Hlt Heq] | [Hle Heq]];
    fold sc in Heq.
  - split; [rewrite Heq; exact Hqa |]. split; [rewrite Heq, Ea; apply Qle_refl |].
    split; [| left; rewrite Heq; exact Ea].
    rewrite <- Eb, Heq. apply Qmult_le_l; [exact Hvh | apply Qlt_le_weak; exact Hlt].
  - split; [rewrite Heq; exact Hqb |]. split.
    + rewrite <- Ea, Heq. apply Qmult_le_l; [exact Hvw | exact Hle].
    + split; [rewrite Heq, Eb; apply Qle_refl | right; rewrite Heq; exact Eb].
Qed.

Lemma inject_gap (n : Z) : (40 < n)%Z -> 0 < inject_Z n - inject_Z 40.
Proof.
  intros Hn. unfold Qminus. rewrite <- inject_Z_opp, <- inject_Z_plus.
  change 0 with (inject_Z 0). rewrite <- Zlt_Qlt. lia.
Qed.

(** X1.  Over the rationals, for a page of positive native size in a
    container more than 40 units wide and high, the render step chooses
    a positive scale at which the page is at most [clientWidth - 40] wide
    and at most [clientHeight - 40] high, and exactly that in one of the
    two directions: the whole page is shown, as large as the padding
    allows. *)
Theorem rendered_page_fits_container (w : World Q) (st : Multi.State Q)
    (doc : PDFDocumentProxy Q) (page : PDFPageProxy Q) (el : Element) (c : Canvas Q) :
  Multi.pdfDocProxy st = Some doc ->
  Multi.canvasRef st = Some c ->
  Multi.containerRef st = Some el ->
  getPage doc (Multi.currentPage st) = Ret page ->
  0 < viewWidth page -> 0 < viewHeight page ->
  (40 < clientWidth el)%Z -> (40 < clientHeight el)%Z ->
  let st' := fst (Multi.renderPage w true st) in
  0 < Multi.renderScale st' /\
  dim_width (Multi.pageDimensions st') <= inject_Z (clientWidth el) - 40 /\
  dim_height (Multi.pageDimensions st') <= inject_Z (clientHeight el) - 40 /\
  (dim_width (Multi.pageDimensions st') == inject_Z (clientWidth el) - 40 \/
   dim_height (Multi.pageDimensions st') == inject_Z (clientHeight el) - 40).
Proof.
  intros Hdoc Hc Hel Hpage Hvw Hvh Hcw Hch st'.
  destruct (multi_render_view w st Hdoc Hc Hel Hpage) as [_ Hdims]. fold st' in Hdims.
  pose proof (multi_render_scale w st Hdoc Hc Hel Hpage) as Hscale. fold st' in Hscale.
  rewrite !orDefault_nonzero in Hscale by lia.
  rewrite Hdims, Hscale. cbn [dim_width dim_height getViewport vwidth vheight].
  apply (fit_bounds Hvw Hvh (inject_gap Hcw) (inject_gap Hch)).
Qed.

Lemma rendered_page_fits_container_witness :
  0 < Multi.renderScale (Sample.loaded (N:=Q)) /\
  dim_width (Multi.pageDimensions (Sample.loaded (N:=Q))) <= inject_Z 800 - 40 /\
  dim_height (Multi.pageDimensions (Sample.loaded (N:=Q))) <= inject_Z 600 - 40 /\
  (dim_width (Multi.pageDimensions (Sample.loaded (N:=Q))) == inject_Z 800 - 40 \/
   dim_height (Multi.pageDimensions (Sample.loaded (N:=Q))) == inject_Z 600 - 40).
Proof.
  apply (@rendered_page_fits_container Sample.world Sample.opened Sample.proxy
           Sample.letterProxy {| clientWidth := 800; clientHeight := 600 |} Sample.blank);
    vm_compute; reflexivity.
Defined.

(** X2.  Over the rationals, after every render step that is still
    current, the displayed page size is the native page size times the
    display scale, in both directions and in both variants. *)
Theorem page_size_is_native_size_times_scale :
  (forall (w : World Q) (st : Multi.State Q) (doc : PDFDocumentProxy Q)
          (page : PDFPageProxy Q) (el : Element) (c : Canvas Q),
      Multi.pdfDocProxy st = Some doc ->
      Multi.canvasRef st = Some c ->
      Multi.containerRef st = Some el ->
      getPage doc (Multi.currentPage st) = Ret page ->
      let st' := fst (Multi.renderPage w true st) in
      dim_width (Multi.pageDimensions st') ==
        dim_width (Multi.originalDimensions st') * Multi.renderScale st' /\
      dim_height (Multi.pageDimensions st') ==
        dim_height (Multi.originalDimensions st') * Multi.renderScale st')
  /\
  (forall (w : World Q) (st : Single.State Q) (doc : PDFDocumentProxy Q)
          (page : PDFPageProxy Q) (el : Element) (c : Canvas Q),
      Single.pdfDocProxy st = Some doc ->
      Single.canvasRef st = Some c ->
      Single.containerRef st = Some el ->
      getPage doc (Single.currentPage st) = Ret page ->
      let st' := fst (Single.renderPage w true st) in
      dim_width (Single.pageDimensions st') ==
        dim_width (Single.originalDimensions st') * Single.renderScale st' /\
      dim_height (Single.pageDimensions st') ==
        dim_height (Single.originalDimensions st') * Single.renderScale st').
Proof.
  split.
  - intros w st doc page el c Hdoc Hc Hel Hpage st'.
    destruct (multi_render_view w st Hdoc Hc Hel Hpage) as [Ho Hp].
    fold st' in Ho, Hp. rewrite Ho, Hp. simpl. split; ring.
  - intros w st doc page el c Hdoc Hc Hel Hpage st'.
    destruct (single_render_view w st Hdoc Hc Hel Hpage) as [Ho Hp].
    fold st' in Ho, Hp. rewrite Ho, Hp. simpl. split; ring.
Qed.

Lemma page_size_is_native_size_times_scale_witness :
  dim_width (Multi.pageDimensions (Sample.loaded (N:=Q))) ==
    dim_width (Multi.originalDimensions (Sample.loaded (N:=Q)))
    * Multi.renderScale (Sample.loaded (N:=Q)) /\
  dim_height (Multi.pageDimensions (Sample.loaded (N:=Q))) ==
    dim_height (Multi.originalDimensions (Sample.loaded (N:=Q)))
    * Multi.renderScale (Sample.loaded (N:=Q)).
Proof.
  apply (proj1 page_size_is_native_size_times_scale Sample.world Sample.opened Sample.proxy
           Sample.letterProxy {| clientWidth := 800; clientHeight := 600 |} Sample.blank);
    vm_compute; reflexivity.
Defined.

Section RenderOutcomes.
Context {N : Type} `{JsNumber N}.

Lemma multi_setCanvas_same (st : Multi.State N) :
  Multi.setCanvas (Multi.canvasRef st) st = st.
Proof. destruct st; reflexivity. Qed.

(** X3.  A render step that has been superseded ([isMounted] is false
    when [getPage] resolves) writes nothing into the React state: display
    scale, page sizes, page number and the overlay store are what they
    were.  Only the canvas element may have been resized and painted,
    since those writes are not guarded. *)
Theorem superseded_render_keeps_view_state (w : World N) (st : Multi.State N) :
  exists c, fst (Multi.renderPage w false st) = Multi.setCanvas c st.
Proof.
  unfold Multi.renderPage.
  destruct (Multi.pdfDocProxy st) as [doc |];
    [| exists (Multi.canvasRef st); symmetry; apply multi_setCanvas_same].
  destruct (Multi.canvasRef st) as [c |] eqn:Hc;
    [| exists None; rewrite <- Hc; symmetry; apply multi_setCanvas_same].
  destruct (Multi.containerRef st) as [el |];
    [| exists (Some c); rewrite <- Hc; symmetry; apply multi_setCanvas_same].
  destruct (getPage doc (Multi.currentPage st)) as [page | e |];
    try (exists (Some c); rewrite <- Hc; symmetry; apply multi_setCanvas_same).
  cbv beta iota zeta. destruct (getContext2d w); cbn [negb fst];
    [| exists (Some c); rewrite <- Hc; symmetry; apply multi_setCanvas_same].
  destruct (pdfjs_render w page _); eexists; reflexivity.
Qed.

(** X4.  Whatever happens while rendering, the user is never alerted:
    the step reports nothing at all, or one [console.error], and never for
    a rejection named [RenderingCancelledException]. *)
Theorem render_errors_are_logged_not_alerted (w : World N) (isMounted : bool)
    (st : Multi.State N) :
  snd (Multi.renderPage w isMounted st) = []
  \/ exists e,
       snd (Multi.renderPage w isMounted st) = [ConsoleError "Error rendering page:" e]
       /\ nameOf e <> "RenderingCancelledException".
Proof.
  unfold Multi.renderPage.
  destruct (Multi.pdfDocProxy st) as [doc |]; [| left; reflexivity].
  destruct (Multi.canvasRef st) as [c |] eqn:Hc; [| left; reflexivity].
  destruct (Multi.containerRef st) as [el |]; [| left; reflexivity].
  destruct (getPage doc (Multi.currentPage st)) as [page | e |]; [| | left; reflexivity].
  - destruct isMounted; cbn [Multi.canvasRef Multi.setPageDimensions Multi.setRenderScale
      Multi.setOriginalDimensions]; rewrite ?Hc;
      (destruct (getContext2d w); cbn [negb]; [| left; reflexivity]);
      (destruct (pdfjs_render w page _) as [u | e |]; cbn [snd]; try (left; reflexivity));
      (destruct (String.eqb_spec (nameOf e) "RenderingCancelledException") as [Heq | Hne];
       [left; reflexivity | right; exists e; split; [reflexivity | exact Hne]]).
  - cbn [snd].
    destruct (String.eqb_spec (nameOf e) "RenderingCancelledException") as [Heq | Hne];
      [left; reflexivity | right; exists e; split; [reflexivity | exact Hne]].
Qed.

(** X5.  A document that cannot be read or parsed is reported by one
    [console.error] and one alert, and nothing of the state is changed by
    the load: the newly chosen file stays in [pdfFile], while
    [pdfDocProxy], [numPages] and [currentPage] remain those of the
    document opened before. *)
Theorem failed_load_keeps_previous_document (w : World N) (isMounted : bool)
    (st : Multi.State N) (f : File) (e : Thrown) :
  type f = "application/pdf" ->
  (arrayBuffer_ <- arrayBuffer w f ;; pdfjs_getDocument w arrayBuffer_)%res = Throw e ->
  let chosen := fst (Multi.handlePdfUpload (Some f) st) in
  let run := Multi.loadPdf w isMounted chosen in
  fst run = Multi.setPdfFile (Some f) st /\
  Multi.pdfDocProxy (fst run) = Multi.pdfDocProxy st /\
  Multi.numPages (fst run) = Multi.numPages st /\
  Multi.currentPage (fst run) = Multi.currentPage st /\
  snd run = [ConsoleError "Error loading PDF:" e; Alert "Failed to load PDF file."].
Proof.
  intros Htype Hload. cbv zeta. unfold Multi.handlePdfUpload. rewrite Htype.
  rewrite String.eqb_refl. cbn [fst].
  unfold Multi.loadPdf. cbn [Multi.pdfFile Multi.setPdfFile]. rewrite Hload.
  repeat split.
Qed.
End RenderOutcomes.

Lemma failed_load_keeps_previous_document_witness :
  Multi.pdfDocProxy
    (fst (Multi.loadPdf Sample.unparsable true
            (fst (Multi.handlePdfUpload (Some Sample.draft) (Sample.placed (N:=Q)))))) =
  Multi.pdfDocProxy (Sample.placed (N:=Q)).
Proof.
  apply (@failed_load_keeps_previous_document Q Sample.unparsable true Sample.placed
           Sample.draft (ErrorObj "InvalidPDFException" "Invalid PDF structure."));
    reflexivity.
Defined.

(** ** Page navigation *)

Section Navigation.
Context {N : Type}.

Lemma navigate_numPages (c : NavClick) (st : Multi.State N) :
  Multi.numPages (navigate c st) = Multi.numPages st.
Proof. destruct c; reflexivity. Qed.

Lemma navigate_in_range (c : NavClick) (st : Multi.State N) :
  (1 <= Multi.currentPage st <= Multi.numPages st)%Z ->
  (1 <= Multi.currentPage (navigate c st) <= Multi.numPages st)%Z.
Proof. intros Hr. destruct c; simpl; lia. Qed.

Lemma navigateAll_in_range (clicks : list NavClick) :
  forall st : Multi.State N,
    (1 <= Multi.currentPage st <= Multi.numPages st)%Z ->
    (1 <= Multi.currentPage (navigateAll clicks st) <= Multi.numPages st)%Z.
Proof.
  unfold navigateAll.
  induction clicks as [| c rest IH]; intros st Hr; simpl; [exact Hr |].
  rewrite <- (navigate_numPages c st). apply IH.
  rewrite navigate_numPages. apply navigate_in_range; exact Hr.
Qed.

(** X6.  Once the page number lies between 1 and the page count, no
    sequence of clicks on the page buttons takes it out of that range or
    changes the page count or the overlay store; "previous" on page 1 and
    "next" on the last page change nothing, and every other click moves by
    exactly one page. *)
Theorem navigation_stays_in_range (clicks : list NavClick) (st : Multi.State N) :
  (1 <= Multi.currentPage st <= Multi.numPages st)%Z ->
  (1 <= Multi.currentPage (navigateAll clicks st) <= Multi.numPages st)%Z
  /\ Multi.numPages (navigateAll clicks st) = Multi.numPages st
  /\ Multi.overlayImages (navigateAll clicks st) = Multi.overlayImages st
  /\ Multi.currentPage (Multi.previousPage st) =
       (if Multi.previousDisabled st then Multi.currentPage st
        else Multi.currentPage st - 1)%Z
  /\ Multi.currentPage (Multi.nextPage st) =
       (if Multi.nextDisabled st then Multi.currentPage st
        else Multi.currentPage st + 1)%Z.
Proof.
  intros Hr. split; [| split; [| split; [| split]]].
  - apply navigateAll_in_range; exact Hr.
  - clear Hr. revert st. unfold navigateAll.
    induction clicks as [| c rest IH]; intros st; simpl; [reflexivity |].
    rewrite IH. apply navigate_numPages.
  - clear Hr. revert st. unfold navigateAll.
    induction clicks as [| c rest IH]; intros st; simpl; [reflexivity |].
    rewrite IH. destruct c; reflexivity.
  - unfold Multi.previousDisabled; simpl.
    destruct (Z.leb_spec (Multi.currentPage st) 1); lia.
  - unfold Multi.nextDisabled; simpl.
    destruct (Z.leb_spec (Multi.numPages st) (Multi.currentPage st)); lia.
Qed.
End Navigation.

Lemma navigation_stays_in_range_witness :
  (Multi.currentPage (Sample.browsing (N:=Q)) = 2%Z /\
   Multi.numPages (Sample.browsing (N:=Q)) = 3%Z /\
   Multi.currentPage (navigateAll [ClickNext] (Sample.browsing (N:=Q))) = 3%Z /\
   Multi.currentPage (navigateAll [ClickNext; ClickNext] (Sample.browsing (N:=Q))) = 3%Z /\
   Multi.currentPage
     (navigateAll [ClickNext; ClickNext; ClickPrevious] (Sample.browsing (N:=Q))) = 2%Z /\
   Multi.currentPage
     (navigateAll [ClickPrevious; ClickPrevious] (Sample.browsing (N:=Q))) = 1%Z /\
   Multi.previousDisabled (Sample.browsing (N:=Q)) = false /\
   Multi.nextDisabled (Sample.browsing (N:=Q)) = false)
  /\
  ((1 <= Multi.currentPage
           (navigateAll [ClickNext; ClickNext; ClickPrevious] (Sample.browsing (N:=Q)))
      <= Multi.numPages (Sample.browsing (N:=Q)))%Z
   /\ Multi.numPages
        (navigateAll [ClickNext; ClickNext; ClickPrevious] (Sample.browsing (N:=Q))) =
      Multi.numPages (Sample.browsing (N:=Q))
   /\ Multi.overlayImages
        (navigateAll [ClickNext; ClickNext; ClickPrevious] (Sample.browsing (N:=Q))) =
      Multi.overlayImages (Sample.browsing (N:=Q))
   /\ Multi.currentPage (Multi.previousPage (Sample.browsing (N:=Q))) =
        (if Multi.previousDisabled (Sample.browsing (N:=Q))
         then Multi.currentPage (Sample.browsing (N:=Q))
         else Multi.currentPage (Sample.browsing (N:=Q)) - 1)%Z
   /\ Multi.currentPage (Multi.nextPage (Sample.browsing (N:=Q))) =
        (if Multi.nextDisabled (Sample.browsing (N:=Q))
         then Multi.currentPage (Sample.browsing (N:=Q))
         else Multi.currentPage (Sample.browsing (N:=Q)) + 1)%Z).
Proof.
  split.
  - vm_compute. repeat split.
  - apply (@navigation_stays_in_range Q [ClickNext; ClickNext; ClickPrevious]
             Sample.browsing).
    vm_compute. split; discriminate.
Defined.

(** ** What the PDF branch needs and what it leaves alone *)

Lemma setPage_length {A : Type} (pages : list (PDFPage A)) (i : nat) (p : PDFPage A) :
  List.length (setPage pages i p) = List.length pages.
Proof.
  revert i; induction pages as [| q rest IH]; intros [| i]; simpl;
    try reflexivity. rewrite IH; reflexivity.
Qed.

Lemma setPage_other {A : Type} (pages : list (PDFPage A)) (i j : nat) (p : PDFPage A) :
  i <> j -> nth_error (setPage pages i p) j = nth_error pages j.
Proof.
  revert i j; induction pages as [| q rest IH]; intros [| i] [| j] Hne; simpl;
    try reflexivity; try contradiction. apply IH. intros E; apply Hne; rewrite E; reflexivity.
Qed.

Section PdfBranchNeeds.
Context {N : Type} `{JsNumber N}.

Lemma embed_Ret_embeddable (w : World N) (f : File) (b : Bytes) (img : PDFImage) :
  (if String.eqb (type f) "image/png" then embedPng w b
   else if String.eqb (type f) "image/jpeg" || String.eqb (type f) "image/jpg"
   then embedJpg w b
   else Throw (newError "Unsupported image format. Please use PNG or JPEG."))
  = Ret img ->
  embeddable f = true.
Proof.
  unfold embeddable. destruct (String.eqb (type f) "image/png"); [reflexivity |].
  destruct (String.eqb (type f) "image/jpeg" || String.eqb (type f) "image/jpg") eqn:Hj;
    [intros _; exact Hj | discriminate].
Qed.

Lemma drawAll_Ret_needs (w : World N) (scale : N) (imgs : list (Multi.OverlayImage N)) :
  forall (page r : option (PDFPage N)),
    Multi.drawAll w scale page imgs = Ret r ->
    forall o, In o imgs ->
      embeddable (Multi.file o) = true /\ readable w (Multi.file o) = true /\ page <> None.
Proof.
  induction imgs as [| img rest IH]; intros page r Hr o Hin; [destruct Hin |].
  simpl in Hr.
  apply bind_Ret_inv in Hr as (b & Hb & Hr).
  apply bind_Ret_inv in Hr as (pdfImage & Hi & Hr).
  destruct page as [p |]; [| discriminate].
  destruct Hin as [<- | Hin].
  - split; [eapply embed_Ret_embeddable; exact Hi |]. split; [| discriminate].
    unfold arrayBuffer in Hb. destruct (readable w (Multi.file img)); [reflexivity | discriminate].
  - destruct (IH _ _ Hr o Hin) as (He & Hread & _).
    split; [exact He |]. split; [exact Hread | discriminate].
Qed.

Lemma multi_export_delivers (w : World N) (st : Multi.State N) (name : string)
    (href : Href N) :
  In (Download name href) (effects (Multi.handleExport w st)) ->
  exists f,
    Multi.pdfFile st = Some f /\
    (match Multi.exportFormat st with
     | pdf => Multi.exportPdf w st f
     | _ => Multi.exportImage w st f
     end) = Ret (Download name href).
Proof.
  unfold Multi.handleExport.
  destruct (Multi.pdfFile st) as [f |]; [| intros []].
  destruct (Multi.canvasRef st) as [c |]; [| intros []].
  destruct (match Multi.exportFormat st with
            | pdf => Multi.exportPdf w st f
            | _ => Multi.exportImage w st f
            end) as [d | e |] eqn:Hbody; cbn [effects].
  - intros [-> | []]. exists f; split; [reflexivity | exact Hbody].
  - intros [Hin | [Hin | []]]; discriminate.
  - intros [].
Qed.
End PdfBranchNeeds.

(** X7.  When the PDF branch produces its document, that document has
    as many pages as the one pdf-lib loaded, every page but the one shown
    is as loaded, and with an empty store the loaded document is saved
    unchanged, even if the page shown does not exist in it. *)
Theorem pdf_export_touches_only_the_shown_page (N : Type) (HN : JsNumber N)
    (w : World N) (st : Multi.State N) (f : File) (doc' : PDFDocument N) :
  Multi.modifiedDocument w st f = Ret doc' ->
  exists pdfDoc,
    pdflib_load w (content f) = Ret pdfDoc /\
    List.length (getPages doc') = List.length (getPages pdfDoc) /\
    (forall j : nat,
        j <> Z.to_nat (Multi.currentPage st - 1) ->
        nth_error (getPages doc') j = nth_error (getPages pdfDoc) j) /\
    (Multi.overlayImages st = [] -> getPages doc' = getPages pdfDoc).
Proof.
  unfold Multi.modifiedDocument; intros Hr.
  apply bind_Ret_inv in Hr as (b & Hb%arrayBuffer_Ret & Hr); subst b.
  apply bind_Ret_inv in Hr as (pdfDoc & Hload & Hr).
  apply bind_Ret_inv in Hr as (r & Hloop & Hr).
  exists pdfDoc; split; [exact Hload |].
  destruct r as [p |]; inversion Hr; subst doc'; cbn [getPages].
  - split; [apply setPage_length |]. split.
    + intros j Hj. apply setPage_other. intros E; apply Hj; symmetry; exact E.
    + intros Hnil. rewrite Hnil in Hloop. simpl in Hloop. inversion Hloop as [Hp].
      clear - Hp. unfold pageAt in Hp.
      destruct (Multi.currentPage st - 1 <? 0)%Z; [discriminate |].
      revert Hp. generalize (Z.to_nat (Multi.currentPage st - 1)).
      induction (getPages pdfDoc) as [| q rest IH]; intros [| i] Hp; simpl in *;
        try discriminate; [inversion Hp; reflexivity | rewrite (IH i Hp); reflexivity].
  - repeat split.
Qed.

Lemma pdf_export_touches_only_the_shown_page_witness :
  Multi.currentPage (Sample.browsing (N:=Q)) = 2%Z /\
  List.length (getPages (Sample.document3 (N:=Q))) = 3%nat /\
  nth_error (getPages (Sample.document3 (N:=Q))) 0 =
    nth_error (getPages Sample.threePages) 0 /\
  nth_error (getPages (Sample.document3 (N:=Q))) 2 =
    nth_error (getPages Sample.threePages) 2 /\
  nth_error (getPages (Sample.threePages (N:=Q))) 2 =
    Some {| getHeight := ofZ 1000; drawn := [] |} /\
  option_map (fun page => List.length (drawn page))
    (nth_error (getPages (Sample.document3 (N:=Q))) 1) = Some 1%nat /\
  Multi.overlayImages (Sample.browsingBare (N:=Q)) = [] /\
  getPages (Sample.document3Bare (N:=Q)) = getPages Sample.threePages.
Proof.
  assert (Hdoc : Multi.modifiedDocument Sample.booklet (Sample.browsing (N:=Q))
                   Sample.report = Ret Sample.document3)
    by (vm_compute; reflexivity).
  assert (Hbare : Multi.modifiedDocument Sample.booklet (Sample.browsingBare (N:=Q))
                    Sample.report = Ret Sample.document3Bare)
    by (vm_compute; reflexivity).
  destruct (@pdf_export_touches_only_the_shown_page Q _ Sample.booklet Sample.browsing
              Sample.report Sample.document3 Hdoc)
    as (pdfDoc & Hload & Hlen & Hother & _).
  destruct (@pdf_export_touches_only_the_shown_page Q _ Sample.booklet Sample.browsingBare
              Sample.report Sample.document3Bare Hbare)
    as (pdfDoc' & Hload' & _ & _ & Hempty).
  simpl in Hload, Hload'. inversion Hload; subst pdfDoc. inversion Hload'; subst pdfDoc'.
  split; [vm_compute; reflexivity |].
  split; [exact Hlen |].
  split; [apply Hother; vm_compute; discriminate |].
  split; [apply Hother; vm_compute; discriminate |].
  split; [vm_compute; reflexivity |].
  split; [vm_compute; reflexivity |].
  split; [vm_compute; reflexivity |].
  apply Hempty. vm_compute; reflexivity.
Defined.

(** X8.  While the store holds an overlay whose type is not
    [image/png], [image/jpeg] or [image/jpg], an export in PDF format
    never delivers a file, whatever the other overlays and the
    collaborators are. *)
Theorem pdf_export_is_blocked_by_other_image_types (N : Type) (HN : JsNumber N)
    (w : World N) (st : Multi.State N) (o : Multi.OverlayImage N) :
  Multi.exportFormat st = pdf ->
  In o (Multi.overlayImages st) ->
  embeddable (Multi.file o) = false ->
  delivered (Multi.handleExport w st) = false.
Proof.
  intros Hfmt Hin Hno.
  destruct (delivered (Multi.handleExport w st)) eqn:Hd; [| reflexivity].
  apply existsb_exists in Hd as ([label e | msg | name href] & Hd & Hdl); try discriminate.
  apply multi_export_delivers in Hd as (f & _ & Hbody). rewrite Hfmt in Hbody.
  unfold Multi.exportPdf in Hbody.
  apply bind_Ret_inv in Hbody as (doc & Hdoc & _).
  unfold Multi.modifiedDocument in Hdoc.
  apply bind_Ret_inv in Hdoc as (b & _ & Hdoc).
  apply bind_Ret_inv in Hdoc as (pdfDoc & _ & Hdoc).
  apply bind_Ret_inv in Hdoc as (r & Hloop & _).
  destruct (drawAll_Ret_needs _ _ _ _ Hloop o Hin) as (He & _).
  rewrite He in Hno; discriminate.
Qed.

Lemma pdf_export_is_blocked_by_other_image_types_witness :
  delivered (Multi.handleExport Sample.world (Sample.withGif (N:=Q))) = false.
Proof.
  apply (@pdf_export_is_blocked_by_other_image_types Q _ Sample.world Sample.withGif
           {| Multi.id := "id0"; Multi.file := Sample.anim;
              Multi.previewUrl := "blob:anim.gif0";
              Multi.pos := {| x := 50 + 0 * 20; y := 50 + 0 * 20;
                              width := 150; height := 150 |} |}).
  - vm_compute; reflexivity.
  - right; left. vm_compute; reflexivity.
  - vm_compute; reflexivity.
Defined.

(** ** What the image branch waits for *)

Section ImageBranchWaits.
Context {N : Type} `{JsNumber N}.

(** The loop never throws: it ends, or it waits for ever on the first
    overlay whose image does not load. *)
Lemma compositeAll_pending (w : World N) (scale e : N)
    (imgs : list (Multi.OverlayImage N)) :
  forall surface : Canvas N,
    (exists o, In o imgs /\ image_onload w (Multi.previewUrl o) = false) ->
    Multi.compositeAll w scale e surface imgs = Pending.
Proof.
  induction imgs as [| img rest IH]; intros surface (o & Hin & Hload); [destruct Hin |].
  simpl. unfold imageLoaded.
  destruct (image_onload w (Multi.previewUrl img)) eqn:Himg; [| reflexivity].
  simpl. apply IH. destruct Hin as [<- | Hin]; [congruence |].
  exists o; split; assumption.
Qed.
End ImageBranchWaits.

(** X9.  In the image branch, when the page has been fetched and
    rendered and some overlay's image never fires [onload], the run of
    [handleExport] never ends: nothing is thrown, reported or downloaded,
    [isExporting] stays true, and so the export button stays disabled. *)
Theorem image_export_waits_for_every_overlay (N : Type) (HN : JsNumber N)
    (w : World N) (st : Multi.State N) (f : File) (c : Canvas N)
    (doc : PDFDocumentProxy N) (page : PDFPageProxy N) (o : Multi.OverlayImage N) :
  Multi.pdfFile st = Some f ->
  Multi.canvasRef st = Some c ->
  Multi.exportFormat st <> pdf ->
  getContext2d w = true ->
  Multi.pdfDocProxy st = Some doc ->
  getPage doc (Multi.currentPage st) = Ret page ->
  pdfjs_render w page (getViewport page Multi.exportScale) = Ret tt ->
  In o (Multi.overlayImages st) ->
  image_onload w (Multi.previewUrl o) = false ->
  Multi.handleExport w st =
    {| final := Multi.setIsExporting true st; effects := []; settled := false |}
  /\ Multi.exportDisabled (final (Multi.handleExport w st)) = true.
Proof.
  intros Hf Hc Hfmt Hctx Hdoc Hpage Hrender Hin Hload.
  assert (Hbody : Multi.exportImage w st f = Pending).
  { unfold Multi.exportImage, Multi.composedSurface.
    rewrite Hctx, Hdoc, Hpage. cbn [negb bind]. rewrite Hrender. cbn [bind].
    rewrite compositeAll_pending; [reflexivity |]. exists o; split; assumption. }
  assert (Hrun : Multi.handleExport w st =
                 {| final := Multi.setIsExporting true st; effects := [];
                    settled := false |}).
  { unfold Multi.handleExport. rewrite Hf, Hc.
    destruct (Multi.exportFormat st); [contradiction | |]; rewrite Hbody; reflexivity. }
  split; [exact Hrun |]. rewrite Hrun. unfold Multi.exportDisabled; simpl.
  rewrite Hf; reflexivity.
Qed.

Lemma image_export_waits_for_every_overlay_witness :
  Multi.handleExport Sample.brokenImages (Sample.placedJpg (N:=Q)) =
    {| final := Multi.setIsExporting true Sample.placedJpg; effects := [];
       settled := false |}
  /\ Multi.exportDisabled
       (final (Multi.handleExport Sample.brokenImages (Sample.placedJpg (N:=Q)))) = true.
Proof.
  eapply (@image_export_waits_for_every_overlay Q _ Sample.brokenImages Sample.placedJpg
           Sample.report _ Sample.proxy Sample.letterProxy
           {| Multi.id := "id0"; Multi.file := Sample.logo;
              Multi.previewUrl := "blob:logo.png0";
              Multi.pos := {| x := 50 + 0 * 20; y := 50 + 0 * 20;
                              width := 150; height := 150 |} |});
    first [ vm_compute; reflexivity
          | discriminate
          | left; vm_compute; reflexivity ].
Defined.

(** ** What is delivered *)

(** X10.  Whenever [handleExport] delivers a file, its name and kind
    follow the chosen format: [modified_] followed by the document's name
    with PDF bytes, or the document's name without its extension followed
    by [_page], the page number and the format as extension, with a JPEG
    data URL for [jpg] and a PNG one for [png], at quality 1. *)
Theorem delivered_file_follows_the_format (N : Type) (HN : JsNumber N)
    (w : World N) (st : Multi.State N) (filename : string) (href : Href N) :
  In (Download filename href) (effects (Multi.handleExport w st)) ->
  exists f,
    Multi.pdfFile st = Some f /\
    match Multi.exportFormat st with
    | pdf =>
        filename = String.append "modified_" (name f) /\
        exists data, href = BlobUrl data "application/pdf"
    | jpg =>
        filename = String.append (stripExtension (name f))
                 (String.append "_page"
                    (String.append (showZ (Multi.currentPage st)) ".jpg")) /\
        exists surface, href = DataUrl surface "image/jpeg" (ofZ 1)
    | png =>
        filename = String.append (stripExtension (name f))
                 (String.append "_page"
                    (String.append (showZ (Multi.currentPage st)) ".png")) /\
        exists surface, href = DataUrl surface "image/png" (ofZ 1)
    end.
Proof.
  intros Hd. apply multi_export_delivers in Hd as (f & Hf & Hbody).
  exists f; split; [exact Hf |].
  destruct (Multi.exportFormat st) eqn:Hfmt.
  - unfold Multi.exportPdf in Hbody.
    apply bind_Ret_inv in Hbody as (doc & _ & Hbody).
    apply bind_Ret_inv in Hbody as (data & _ & Hbody).
    inversion Hbody; subst. split; [reflexivity | exists data; reflexivity].
  - unfold Multi.exportImage in Hbody.
    apply bind_Ret_inv in Hbody as (surface & _ & Hbody). rewrite Hfmt in Hbody.
    inversion Hbody; subst. split; [reflexivity | exists surface; reflexivity].
  - unfold Multi.exportImage in Hbody.
    apply bind_Ret_inv in Hbody as (surface & _ & Hbody). rewrite Hfmt in Hbody.
    inversion Hbody; subst. split; [reflexivity | exists surface; reflexivity].
Qed.

Lemma delivered_file_follows_the_format_witness :
  exists f,
    Multi.pdfFile (Sample.placed (N:=Q)) = Some f /\
    match Multi.exportFormat (Sample.placed (N:=Q)) with
    | pdf =>
        "modified_report.pdf" = String.append "modified_" (name f) /\
        exists data, BlobUrl (N:=Q) [Byte.x25; Byte.x50] "application/pdf"
                     = BlobUrl data "application/pdf"
    | jpg =>
        "modified_report.pdf" =
          String.append (stripExtension (name f))
            (String.append "_page"
               (String.append (showZ (Multi.currentPage (Sample.placed (N:=Q)))) ".jpg")) /\
        exists surface, BlobUrl (N:=Q) [Byte.x25; Byte.x50] "application/pdf"
                        = DataUrl surface "image/jpeg" (ofZ 1)
    | png =>
        "modified_report.pdf" =
          String.append (stripExtension (name f))
            (String.append "_page"
               (String.append (showZ (Multi.currentPage (Sample.placed (N:=Q)))) ".png")) /\
        exists surface, BlobUrl (N:=Q) [Byte.x25; Byte.x50] "application/pdf"
                        = DataUrl surface "image/png" (ofZ 1)
    end.
Proof.
  apply (@delivered_file_follows_the_format Q _ Sample.world Sample.placed
           "modified_report.pdf" (BlobUrl [Byte.x25; Byte.x50] "application/pdf")).
  left. vm_compute; reflexivity.
Defined.

(** ** The name of the exported image *)

Lemma extTail_dot (u v : string) : extTail (String.append u (String "." v)) = false.
Proof.
  induction u as [| c rest IH]; simpl; [reflexivity |].
  destruct (String.append rest (String "." v)) eqn:Hrest.
  - destruct rest; discriminate.
  - rewrite IH. apply andb_false_r.
Qed.

Lemma strip_dotless (s : string) : dotless s = true -> stripExtension s = s.
Proof.
  induction s as [| c rest IH]; simpl; [reflexivity |]. intros Hd.
  apply andb_true_iff in Hd as [Hc Hrest].
  apply negb_true_iff in Hc. rewrite Hc. simpl. rewrite IH by exact Hrest. reflexivity.
Qed.

Lemma strip_prefix (s : string) : String.prefix (stripExtension s) s = true.
Proof.
  induction s as [| c rest IH]; simpl; [reflexivity |].
  destruct (Ascii.eqb c "." && extTail rest); simpl; [reflexivity |].
  destruct (ascii_dec c c) as [_ | Hne]; [exact IH | contradiction].
Qed.

(** X11.  [stripExtension] cuts off exactly the last extension: for
    every base name, with dots and slashes or without, and every
    non-empty extension free of dots and slashes, [base.ext] becomes
    [base].  A name without a dot is left as it is, and the result is
    always a prefix of the name. *)
Theorem strip_extension_drops_the_last_extension (base ext other : string) :
  extTail ext = true ->
  stripExtension (String.append base (String "." ext)) = base
  /\ (dotless other = true -> stripExtension other = other)
  /\ String.prefix (stripExtension other) other = true.
Proof.
  intros Hext. split; [| split; [apply strip_dotless | apply strip_prefix]].
  induction base as [| c rest IH]; simpl.
  - rewrite Hext. reflexivity.
  - rewrite extTail_dot, andb_false_r, IH. reflexivity.
Qed.

Lemma strip_extension_drops_the_last_extension_witness :
  stripExtension (String.append "scans/2024.03/report.final" (String "." "pdf"))
  = "scans/2024.03/report.final"
  /\ (dotless "README" = true -> stripExtension "README" = "README")
  /\ String.prefix (stripExtension "README") "README" = true.
Proof.
  apply (@strip_extension_drops_the_last_extension
           "scans/2024.03/report.final" "pdf" "README").
  reflexivity.
Defined.

(** ** Where new overlays are put *)

Section Stacking.
Context {N : Type} `{JsNumber N}.

Lemma collectImages_stack (mkUrl : nat -> File -> string) (rnd : nat -> string)
    (files : list File) :
  forall newImages : list (Multi.OverlayImage N),
    Multi.collectImages mkUrl rnd files newImages =
    newImages
    ++ stackFrom mkUrl rnd (List.length newImages)
         (filter (fun f => startsWith (type f) "image/") files).
Proof.
  induction files as [| f rest IH]; intros newImages; simpl.
  - rewrite app_nil_r; reflexivity.
  - destruct (startsWith (type f) "image/"); [| apply IH].
    rewrite IH, length_app, <- app_assoc. simpl. rewrite Nat.add_1_r. reflexivity.
Qed.
End Stacking.

(** X12.  An upload places its k-th accepted file (counting from 0) at
    [x = y = 50 + 20 k] with size 150 by 150, with the k-th identifier and
    the k-th object URL drawn during that upload, and appends these
    overlays to the store.  The count starts anew with every upload and
    does not look at the store, so files uploaded one at a time all land
    on (50, 50). *)
Theorem upload_stacks_from_the_corner :
  (forall (N : Type) (HN : JsNumber N) (mkUrl : nat -> File -> string)
          (rnd : nat -> string) (files : list File) (st : Multi.State N),
      Multi.overlayImages (fst (Multi.handleImageUpload mkUrl rnd files st)) =
      Multi.overlayImages st
      ++ stackFrom mkUrl rnd 0 (filter (fun f => startsWith (type f) "image/") files))
  /\
  (forall (mkUrl : nat -> File -> string) (rnd : nat -> string) (k : nat) (f : File),
      rect_eq (Multi.pos (stacked (N:=Q) mkUrl rnd k f))
        {| x := 50 + 20 * inject_Z (Z.of_nat k); y := 50 + 20 * inject_Z (Z.of_nat k);
           width := 150; height := 150 |})
  /\
  (forall (mkUrl mkUrl' : nat -> File -> string) (rnd rnd' : nat -> string)
          (f g : File) (st : Multi.State Q),
      startsWith (type f) "image/" = true ->
      startsWith (type g) "image/" = true ->
      map Multi.pos
        (Multi.overlayImages
           (fst (Multi.handleImageUpload mkUrl' rnd' [g]
                   (fst (Multi.handleImageUpload mkUrl rnd [f] st))))) =
      map Multi.pos (Multi.overlayImages st)
      ++ [Multi.pos (stacked mkUrl rnd 0 f); Multi.pos (stacked mkUrl rnd 0 f)]).
Proof.
  split; [| split].
  - intros N HN mkUrl rnd files st.
    rewrite upload_appends, collectImages_stack. reflexivity.
  - intros mkUrl rnd k f. unfold rect_eq; simpl. repeat split; ring.
  - intros mkUrl mkUrl' rnd rnd' f g st Hf Hg.
    rewrite !upload_appends, !collectImages_stack. simpl. rewrite Hf, Hg. simpl.
    rewrite !map_app. simpl. rewrite <- app_assoc. reflexivity.
Qed.

Lemma upload_stacks_from_the_corner_witness :
  map Multi.pos
    (Multi.overlayImages
       (fst (Multi.handleImageUpload Sample.mkUrl Sample.rnd [Sample.photo]
               (fst (Multi.handleImageUpload Sample.mkUrl Sample.rnd [Sample.logo]
                       (Sample.loaded (N:=Q))))))) =
  map Multi.pos (Multi.overlayImages (Sample.loaded (N:=Q)))
  ++ [Multi.pos (stacked Sample.mkUrl Sample.rnd 0 Sample.logo);
      Multi.pos (stacked Sample.mkUrl Sample.rnd 0 Sample.logo)].
Proof.
  apply (proj2 (proj2 upload_stacks_from_the_corner) Sample.mkUrl Sample.mkUrl
           Sample.rnd Sample.rnd Sample.logo Sample.photo Sample.loaded);
    reflexivity.
Defined.

(** ** Moving and removing by identifier *)

Section ByIdentifier.
Context {N : Type}.

Lemma multi_setOverlayImages_same (f : list (Multi.OverlayImage N) -> list (Multi.OverlayImage N))
    (st : Multi.State N) :
  f (Multi.overlayImages st) = Multi.overlayImages st ->
  Multi.setOverlayImages f st = st.
Proof. intros Hf. destruct st; unfold Multi.setOverlayImages; simpl in *; rewrite Hf; reflexivity. Qed.

Lemma map_unnamed (i : string) (g : Multi.OverlayImage N -> Multi.OverlayImage N)
    (l : list (Multi.OverlayImage N)) :
  ~ In i (map Multi.id l) ->
  map (fun img => if String.eqb (Multi.id img) i then g img else img) l = l.
Proof.
  induction l as [| o rest IH]; simpl; intros Hnot; [reflexivity |].
  destruct (String.eqb_spec (Multi.id o) i) as [Heq | Hne].
  - exfalso; apply Hnot; left; exact Heq.
  - rewrite IH; [reflexivity |]. intros Hin; apply Hnot; right; exact Hin.
Qed.

Lemma filter_unnamed (i : string) (l : list (Multi.OverlayImage N)) :
  ~ In i (map Multi.id l) ->
  filter (fun img => negb (String.eqb (Multi.id img) i)) l = l.
Proof.
  induction l as [| o rest IH]; simpl; intros Hnot; [reflexivity |].
  destruct (String.eqb_spec (Multi.id o) i) as [Heq | Hne]; simpl.
  - exfalso; apply Hnot; left; exact Heq.
  - rewrite IH; [reflexivity |]. intros Hin; apply Hnot; right; exact Hin.
Qed.

(** X13.  A move, resize or removal addressed to an identifier that no
    overlay carries (for instance one removed a moment before) changes
    nothing at all.  A move or resize never changes how many overlays
    there are, and leaves every overlay with another identifier exactly
    as it was. *)
Theorem unknown_identifier_changes_nothing (i : string) (newPos : PartialPos N)
    (st : Multi.State N) :
  (~ In i (map Multi.id (Multi.overlayImages st)) ->
   Multi.updateImagePos i newPos st = st /\ Multi.removeImage i st = st)
  /\ List.length (Multi.overlayImages (Multi.updateImagePos i newPos st)) =
     List.length (Multi.overlayImages st)
  /\ filter (fun img => negb (String.eqb (Multi.id img) i))
       (Multi.overlayImages (Multi.updateImagePos i newPos st)) =
     filter (fun img => negb (String.eqb (Multi.id img) i)) (Multi.overlayImages st).
Proof.
  split; [| split].
  - intros Hnot. split.
    + apply multi_setOverlayImages_same. apply map_unnamed; exact Hnot.
    + apply multi_setOverlayImages_same. apply filter_unnamed; exact Hnot.
  - simpl. apply length_map.
  - simpl. induction (Multi.overlayImages st) as [| o rest IH]; simpl; [reflexivity |].
    destruct (String.eqb (Multi.id o) i) eqn:Hid; simpl; rewrite Hid; simpl;
      rewrite IH; reflexivity.
Qed.
End ByIdentifier.

(** ** Exporting again *)

(** X15.  When no export is in flight, a run of [handleExport] that
    comes to an end, delivered or failed, gives back exactly the state it
    was started from; exporting again therefore behaves as the first
    attempt would have behaved with the same collaborators. *)
Theorem settled_export_can_be_repeated (N : Type) (HN : JsNumber N)
    (w w' : World N) (st : Multi.State N) :
  Multi.isExporting st = false ->
  settled (Multi.handleExport w st) = true ->
  final (Multi.handleExport w st) = st
  /\ Multi.handleExport w' (final (Multi.handleExport w st)) = Multi.handleExport w' st.
Proof.
  intros Hflag Hsettled.
  assert (Hfinal : final (Multi.handleExport w st) = st).
  { destruct (multi_export_cases w st) as
      [[_ Hrun] | (f & c & _ & _ & [(name & href & Hrun) | [(e & Hrun) | Hrun]])];
      cbv zeta in Hrun; rewrite Hrun in *; cbn [final settled] in *.
    - reflexivity.
    - rewrite multi_setIsExporting_twice, <- Hflag. apply multi_setIsExporting_same.
    - rewrite multi_setIsExporting_twice, <- Hflag. apply multi_setIsExporting_same.
    - discriminate. }
  split; [exact Hfinal | rewrite Hfinal; reflexivity].
Qed.

Lemma settled_export_can_be_repeated_witness :
  final (Multi.handleExport Sample.corruptPng (Sample.placed (N:=Q))) = Sample.placed
  /\ Multi.handleExport Sample.world
       (final (Multi.handleExport Sample.corruptPng (Sample.placed (N:=Q)))) =
     Multi.handleExport Sample.world Sample.placed.
Proof.
  apply (@settled_export_can_be_repeated Q _ Sample.corruptPng Sample.world Sample.placed);
    vm_compute; reflexivity.
Defined.

(** ** Dropping files *)

(** X16.  A drop never alerts, whatever is dropped: files that are
    neither a PDF nor an image are ignored without notice.  It clears the
    drag highlight, takes the first PDF among the files as the document
    (keeping the current one when there is none), and leaves the document
    loaded so far untouched. *)
Theorem drop_is_silent (N : Type) (HN : JsNumber N)
    (mkUrl : nat -> File -> string) (rnd : nat -> string) (files : list File)
    (st : Multi.State N) :
  let run := Multi.handleDrop mkUrl rnd files st in
  snd run = []
  /\ Multi.isDraggingOver (fst run) = false
  /\ Multi.pdfFile (fst run) =
       match find (fun f => String.eqb (type f) "application/pdf") files with
       | Some f => Some f
       | None => Multi.pdfFile st
       end
  /\ Multi.pdfDocProxy (fst run) = Multi.pdfDocProxy st.
Proof.
  cbv zeta. unfold Multi.handleDrop.
  destruct files as [| f0 rest]; [repeat split |].
  set (files := f0 :: rest).
  destruct (find (fun f => String.eqb (type f) "application/pdf") files) as [f |] eqn:Hfind.
  - apply find_some in Hfind as [_ Htype].
    unfold Multi.handlePdfUpload. rewrite Htype.
    pose proof (multi_upload_alert mkUrl rnd
                  (filter (fun f => startsWith (type f) "image/") files)
                  (Multi.setPdfFile (Some f) (Multi.setIsDraggingOver false st))) as Halert.
    rewrite filter_filter_same in Halert.
    destruct (filter (fun f => startsWith (type f) "image/") files) as [| i0 irest] eqn:Himg;
      [repeat split |].
    cbn [List.length Nat.ltb Nat.leb].
    unfold Multi.handleImageUpload in *.
    destruct (Multi.collectImages mkUrl rnd (i0 :: irest) []) as [| o os];
      [discriminate Halert | repeat split].
  - pose proof (multi_upload_alert mkUrl rnd
                  (filter (fun f => startsWith (type f) "image/") files)
                  (Multi.setIsDraggingOver false st)) as Halert.
    rewrite filter_filter_same in Halert.
    destruct (filter (fun f => startsWith (type f) "image/") files) as [| i0 irest] eqn:Himg;
      [repeat split |].
    cbn [List.length Nat.ltb Nat.leb].
    unfold Multi.handleImageUpload in *.
    destruct (Multi.collectImages mkUrl rnd (i0 :: irest) []) as [| o os];
      [discriminate Halert | repeat split].
Qed.

Lemma unknown_identifier_changes_nothing_witness :
  Multi.updateImagePos "gone"
    {| px := Some 0; py := Some 0; pwidth := None; pheight := None |}
    (Sample.placed (N:=Q)) = Sample.placed
  /\ Multi.removeImage "gone" (Sample.placed (N:=Q)) = Sample.placed.
Proof.
  apply (proj1 (@unknown_identifier_changes_nothing Q "gone"
                  {| px := Some 0; py := Some 0; pwidth := None; pheight := None |}
                  Sample.placed)).
  vm_compute. intros [Hid | []]; discriminate.
Defined.

(** ** The single-overlay export as a whole *)

Section SingleExportRuns.
Context {N : Type} `{JsNumber N}.

Lemma single_export_cases (w : World N) (st : Single.State N) :
  let run := Single.handleExport w st in
  ((Single.pdfFile st = None \/ Single.imageFile st = None \/ Single.canvasRef st = None
    \/ truthy (Single.imagePreviewUrl st) = false) /\
   run = {| final := st; effects := []; settled := true |})
  \/ (exists name href,
         run = {| final := Single.setIsExporting false (Single.setIsExporting true st);
                  effects := [Download name href]; settled := true |})
  \/ (exists e,
         run = {| final := Single.setIsExporting false (Single.setIsExporting true st);
                  effects :=
                    [ConsoleError "Export error:" e;
                     Alert (String.append "Failed to export. " (messageOf e))];
                  settled := true |})
  \/ run = {| final := Single.setIsExporting true st; effects := []; settled := false |}.
Proof.
  unfold Single.handleExport.
  destruct (Single.pdfFile st) as [f |]; [| left; split; [left |]; reflexivity].
  destruct (Single.imageFile st) as [image |];
    [| left; split; [right; left |]; reflexivity].
  destruct (Single.canvasRef st) as [c |];
    [| left; split; [right; right; left |]; reflexivity].
  destruct (truthy (Single.imagePreviewUrl st));
    [| left; split; [right; right; right |]; reflexivity].
  right. cbv zeta.
  destruct (Single.exportFormat st).
  - destruct (Single.exportPdf w st f image) as [d | e |] eqn:Hbody.
    + left. unfold Single.exportPdf in Hbody.
      apply bind_Ret_inv in Hbody as (doc & _ & Hbody).
      apply bind_Ret_inv in Hbody as (b & _ & Hbody).
      inversion Hbody; subst d. eexists _, _; reflexivity.
    + right; left; exists e; reflexivity.
    + right; right; reflexivity.
  - destruct (Single.exportImage w st f _) as [d | e |] eqn:Hbody.
    + left. unfold Single.exportImage in Hbody.
      apply bind_Ret_inv in Hbody as (c0 & _ & Hbody).
      inversion Hbody; subst d. eexists _, _; reflexivity.
    + right; left; exists e; reflexivity.
    + right; right; reflexivity.
  - destruct (Single.exportImage w st f _) as [d | e |] eqn:Hbody.
    + left. unfold Single.exportImage in Hbody.
      apply bind_Ret_inv in Hbody as (c0 & _ & Hbody).
      inversion Hbody; subst d. eexists _, _; reflexivity.
    + right; left; exists e; reflexivity.
    + right; right; reflexivity.
Qed.

Lemma single_setIsExporting_twice (a b : bool) (st : Single.State N) :
  Single.setIsExporting a (Single.setIsExporting b st) = Single.setIsExporting a st.
Proof. reflexivity. Qed.

Lemma single_setIsExporting_same (st : Single.State N) :
  Single.setIsExporting (Single.isExporting st) st = st.
Proof. destruct st; reflexivity. Qed.
End SingleExportRuns.

(** X14.  In the single-overlay variant too, whatever the collaborators
    do, [handleExport] changes nothing of the state but [isExporting]:
    the document, the image, its preview and its placement are kept.  A
    run that alerts an error has come to an end with [isExporting] false
    and has delivered nothing, and when no export was in flight it gives
    back the state it started from. *)
Theorem single_failed_export_leaves_state (N : Type) (HN : JsNumber N)
    (w : World N) (st : Single.State N) :
  let run := Single.handleExport w st in
  Single.setIsExporting (Single.isExporting st) (final run) = st
  /\ (settled run = true ->
      Single.pdfFile st <> None -> Single.imageFile st <> None ->
      Single.canvasRef st <> None -> truthy (Single.imagePreviewUrl st) = true ->
      Single.isExporting (final run) = false)
  /\ (forall msg,
         In (Alert msg) (effects run) ->
         settled run = true /\
         Single.isExporting (final run) = false /\
         delivered run = false /\
         (Single.isExporting st = false -> final run = st)).
Proof.
  intros run.
  destruct (single_export_cases w st) as
    [[Hguard Hrun] | [(name & href & Hrun) | [(e & Hrun) | Hrun]]];
    fold run in Hrun.
  - split; [| split].
    + rewrite Hrun; apply single_setIsExporting_same.
    + intros _ Hf Hi Hc Hu.
      destruct Hguard as [Hg | [Hg | [Hg | Hg]]]; congruence.
    + rewrite Hrun. intros msg [].
  - rewrite Hrun; cbn [final effects settled]. split; [| split].
    + rewrite !single_setIsExporting_twice. apply single_setIsExporting_same.
    + reflexivity.
    + intros msg [Hin | []]; discriminate.
  - rewrite Hrun; cbn [final effects settled]. split; [| split].
    + rewrite !single_setIsExporting_twice. apply single_setIsExporting_same.
    + reflexivity.
    + intros msg _. repeat split.
      intros Hflag. rewrite single_setIsExporting_twice, <- Hflag.
      apply single_setIsExporting_same.
  - rewrite Hrun; cbn [final effects settled]. split; [| split].
    + rewrite !single_setIsExporting_twice. apply single_setIsExporting_same.
    + discriminate.
    + intros msg [].
Qed.

Lemma single_failed_export_leaves_state_witness :
  final (Single.handleExport Sample.corruptPng (Sample.placed1 (N:=Q))) = Sample.placed1.
Proof.
  pose proof (@single_failed_export_leaves_state Q _ Sample.corruptPng Sample.placed1) as Hrun.
  cbv zeta in Hrun. destruct Hrun as (_ & _ & Hfailed).
  apply (Hfailed "Failed to export. The input is not a PNG file!").
  - vm_compute. right; left; reflexivity.
  - reflexivity.
Defined.

(** ** Geometry of the two branches *)

(** X17.  Over the rationals and for a positive scale, a placement that
    lies inside the displayed page (of size [W s] by [H s]) is drawn by
    the PDF branch inside the page of size [W] by [H]: nothing sticks out
    on any side, and the upper edge of the image is as far below the top
    of the page as it was on screen, divided by the scale. *)
Theorem placement_inside_the_page_stays_inside (r : Rect Q) (s W H : Q) :
  0 < s ->
  0 <= x r -> 0 <= y r ->
  x r + width r <= W * s -> y r + height r <= H * s ->
  let d := toDocumentSpace r s H in
  0 <= x d /\ x d + width d <= W /\
  0 <= y d /\ y d + height d <= H /\
  y d + height d == H - y r / s.
Proof.
  intros Hs Hx Hy Hw Hh d.
  assert (Hs0 : ~ s == 0) by (intros E; rewrite E in Hs; discriminate).
  assert (Hxs : 0 <= x r / s).
  { apply Qle_shift_div_l; [exact Hs | rewrite Qmult_0_l; exact Hx]. }
  assert (Hys : 0 <= y r / s).
  { apply Qle_shift_div_l; [exact Hs | rewrite Qmult_0_l; exact Hy]. }
  assert (Hws : (x r + width r) / s <= W) by (apply Qle_shift_div_r; assumption).
  assert (Hhs : (y r + height r) / s <= H) by (apply Qle_shift_div_r; assumption).
  unfold d, toDocumentSpace; simpl. split; [exact Hxs |]. split.
  - setoid_replace (x r / s + width r / s) with ((x r + width r) / s) by (field; exact Hs0).
    exact Hws.
  - split.
    + apply Qle_minus_iff in Hhs.
      setoid_replace (H - y r / s - height r / s) with (H + - ((y r + height r) / s))
        by (field; exact Hs0).
      exact Hhs.
    + split.
      * setoid_replace (H - y r / s - height r / s + height r / s) with (H - y r / s)
          by (field; exact Hs0).
        apply Qle_minus_iff.
        setoid_replace (H + - (H - y r / s)) with (y r / s) by (field; exact Hs0).
        exact Hys.
      * field; exact Hs0.
Qed.

Lemma placement_inside_the_page_stays_inside_witness :
  let d := toDocumentSpace (N:=Q) Single.defaultPos (70 # 99) 792 in
  0 <= x d /\ x d + width d <= 612 /\
  0 <= y d /\ y d + height d <= 792 /\
  y d + height d == 792 - y (Single.defaultPos (N:=Q)) / (70 # 99).
Proof.
  apply (@placement_inside_the_page_stays_inside Single.defaultPos (70 # 99) 612 792);
    vm_compute; solve [reflexivity | discriminate].
Defined.

(** X18.  Over the rationals and for a non-zero scale, the two
    branches put an overlay at the same place on the page: the rectangle
    of the image branch is the rectangle of the PDF branch, measured from
    the top of the page instead of the bottom, times the raster scale
    (times 1 in the single-overlay variant). *)
Theorem both_branches_place_the_overlay_alike (r : Rect Q) (s e H : Q) :
  ~ s == 0 ->
  let d := toDocumentSpace r s H in
  rect_eq (toRasterSpace r s e)
    {| x := x d * e; y := (H - y d - height d) * e;
       width := width d * e; height := height d * e |}
  /\
  rect_eq (toNativeRaster r s)
    {| x := x d; y := H - y d - height d; width := width d; height := height d |}.
Proof.
  intros Hs d. unfold d, toDocumentSpace, toRasterSpace, toNativeRaster, rect_eq; simpl.
  repeat split; field; exact Hs.
Qed.

Lemma both_branches_place_the_overlay_alike_witness :
  let d := toDocumentSpace (N:=Q) Single.defaultPos (70 # 99) 792 in
  rect_eq (toRasterSpace Single.defaultPos (70 # 99) (300 # 72))
    {| x := x d * (300 # 72); y := (792 - y d - height d) * (300 # 72);
       width := width d * (300 # 72); height := height d * (300 # 72) |}
  /\
  rect_eq (toNativeRaster Single.defaultPos (70 # 99))
    {| x := x d; y := 792 - y d - height d; width := width d; height := height d |}.
Proof.
  apply (@both_branches_place_the_overlay_alike Single.defaultPos (70 # 99) (300 # 72) 792).
  discriminate.
Defined.

(** ** From loading to turning pages *)

(** X19.  When a chosen document parses, the load makes it the current
    one, takes its page count and starts on page 1, keeping the overlay
    store; and if it has at least one page, the page number is valid from
    then on, whatever page buttons are clicked. *)
Theorem loaded_document_starts_on_page_one (N : Type) (w : World N)
    (st : Multi.State N) (f : File) (doc : PDFDocumentProxy N) (clicks : list NavClick) :
  Multi.pdfFile st = Some f ->
  (arrayBuffer_ <- arrayBuffer w f ;; pdfjs_getDocument w arrayBuffer_)%res = Ret doc ->
  let st' := fst (Multi.loadPdf w true st) in
  Multi.pdfDocProxy st' = Some doc /\
  Multi.numPages st' = proxyNumPages doc /\
  Multi.currentPage st' = 1%Z /\
  Multi.overlayImages st' = Multi.overlayImages st /\
  snd (Multi.loadPdf w true st) = [] /\
  ((1 <= proxyNumPages doc)%Z ->
   (1 <= Multi.currentPage (navigateAll clicks st') <= proxyNumPages doc)%Z).
Proof.
  intros Hf Hload. cbv zeta.
  assert (Hrun : Multi.loadPdf w true st =
                 (Multi.setCurrentPage (fun _ => 1%Z)
                    (Multi.setNumPages (proxyNumPages doc)
                       (Multi.setPdfDocProxy (Some doc) st)), [])).
  { unfold Multi.loadPdf. rewrite Hf, Hload. reflexivity. }
  rewrite Hrun. cbn [fst snd]. repeat split.
  - apply (navigateAll_in_range clicks
             (Multi.setCurrentPage (fun _ => 1%Z)
                (Multi.setNumPages (proxyNumPages doc)
                   (Multi.setPdfDocProxy (Some doc) st)))). simpl. lia.
  - apply (navigateAll_in_range clicks
             (Multi.setCurrentPage (fun _ => 1%Z)
                (Multi.setNumPages (proxyNumPages doc)
                   (Multi.setPdfDocProxy (Some doc) st)))). simpl. lia.
Qed.

Lemma loaded_document_starts_on_page_one_witness :
  Multi.pdfDocProxy (Sample.opened (N:=Q)) = Some Sample.proxy /\
  Multi.numPages (Sample.opened (N:=Q)) = proxyNumPages (Sample.proxy (N:=Q)) /\
  Multi.currentPage (Sample.opened (N:=Q)) = 1%Z /\
  Multi.overlayImages (Sample.opened (N:=Q)) =
    Multi.overlayImages (fst (Multi.handlePdfUpload (Some Sample.report) Sample.mounted)) /\
  snd (Multi.loadPdf Sample.world true
         (fst (Multi.handlePdfUpload (Some Sample.report) (Sample.mounted (N:=Q))))) = [] /\
  ((1 <= proxyNumPages (Sample.proxy (N:=Q)))%Z ->
   (1 <= Multi.currentPage (navigateAll [ClickNext; ClickPrevious] (Sample.opened (N:=Q)))
      <= proxyNumPages (Sample.proxy (N:=Q)))%Z).
Proof.
  apply (@loaded_document_starts_on_page_one Q Sample.world
           (fst (Multi.handlePdfUpload (Some Sample.report) Sample.mounted))
           Sample.report Sample.proxy [ClickNext; ClickPrevious]);
    vm_compute; reflexivity.
Defined.
